(** * The BLS OEWS clean-up pipeline of [src/process_bls.py]

    A shallow embedding of the record-reconciliation pipeline: the lookup
    loaders, the schema normalizer [much_consistency], the crosswalker
    [map_soc], the peer classifier [map_peer_type], the null harmonizer
    [map_nulls], the driver [clean_bls] and the final split
    [split_bls_ogroup], followed by the properties of the specification
    that concern them.

    A pandas DataFrame is a list of column labels and a list of rows; every
    row carries its index label.  Exceptions are values of an error monad;
    the [print] lines of the driver and of the loaders are collected in a
    log. *)

From Stdlib Require Import ZArith Ascii String List Permutation Sorted Lia.
From stdpp Require Import base decidable countable option list strings gmap sorting.

Local Open Scope string_scope.
Local Open Scope list_scope.

(** ** Cell values *)

(** What a spreadsheet cell holds once [pd.read_excel] has read it: NaN
    (an empty cell), text, or a number.  The code never computes with the
    numeric statistics, it only moves them, so numbers are kept as
    integers. *)
Inductive val :=
| VNull
| VStr (s : string)
| VNum (z : Z).

#[global] Instance val_eq_dec : EqDecision val.
Proof. solve_decision. Defined.

#[global] Instance val_countable : Countable val.
Proof.
  refine (inj_countable'
    (fun v => match v with
              | VNull => inl ()
              | VStr s => inr (inl s)
              | VNum z => inr (inr z)
              end)
    (fun x => match x with
              | inl _ => VNull
              | inr (inl s) => VStr s
              | inr (inr z) => VNum z
              end) _).
  by intros [].
Defined.

#[global] Instance val_inhabited : Inhabited val := populate VNull.

(** [Series.isnull] on one cell. *)
Definition isnull (v : val) : bool :=
  match v with VNull => true | _ => false end.

(** A Python [dict] whose keys and values are cells. *)
Abbreviation dict := (gmap val val).

(** [dict(zip(ks, vs))]: pairs are inserted from left to right, so a later
    pair replaces an earlier one with the same key; [zip] stops at the
    shorter list. *)
Definition py_dict (ks vs : list val) : dict :=
  foldl (fun d kv => <[kv.1 := kv.2]> d) ∅ (zip ks vs).

(** [Series.map(d)] on one cell: a cell that is not a key of [d] becomes
    NaN.  NaN is a key like the others: pandas looks the cells up in the
    index built from [d], where NaN matches NaN. *)
Definition series_map (d : dict) (v : val) : val :=
  default VNull (d !! v).

(** ** Exceptions *)

Inductive exn :=
| TypeError
| KeyError (c : string)
| ValueError
| IOError
| DuplicateLabel (c : string).

Inductive result (A : Type) :=
| Ok (a : A)
| Raise (e : exn).
Arguments Ok {A} a.
Arguments Raise {A} e.

#[global] Instance result_ret : MRet result := fun _ a => Ok a.
#[global] Instance result_bind : MBind result :=
  fun _ _ f m => match m with Ok a => f a | Raise e => Raise e end.

Definition is_ok {A} (m : result A) : bool :=
  match m with Ok _ => true | Raise _ => false end.

(** ** Frames *)

(** A row: its index label and its cells. *)
Abbreviation row := (nat * list val)%type.

Record frame := Frame {
  columns : list string;
  rows : list row
}.

(** [pd.DataFrame()] *)
Definition empty_frame : frame := Frame [] [].

(** What a spreadsheet file holds for [pd.read_excel]: the header row and
    the data rows below it.  The header cells are text, as in the BLS files
    and in the two lookup files; they are the labels as [read_excel] names
    the columns. *)
Record sheet := Sheet {
  header : list string;
  body : list (list val)
}.

(** [pd.read_excel(f)]: the argument is the sheet found at [f], or the
    exception raised when the file cannot be read.  The frame gets the
    default index 0, 1, ..., n-1. *)
Definition read_excel (file : result sheet) : result frame :=
  sh ← file;
  mret (Frame (header sh) (zip (seq 0 (length (body sh))) (body sh))).

(** Every row has one cell per column. *)
Definition rect (df : frame) : Prop :=
  Forall (fun r : row => length r.2 = length (columns df)) (rows df).

(** The index labels are pairwise distinct, as after [read_excel] or
    [reset_index]. *)
Definition unique_index (df : frame) : Prop :=
  NoDup (map fst (rows df)).

Fixpoint positions_from (n : nat) (c : string) (cols : list string) : list nat :=
  match cols with
  | [] => []
  | l :: cols' =>
      if decide (l = c) then n :: positions_from (S n) c cols'
      else positions_from (S n) c cols'
  end.

(** The positions at which label [c] occurs. *)
Definition positions (c : string) (cols : list string) : list nat :=
  positions_from 0 c cols.

(** [df[c]] used as a column: [KeyError] for an absent label.  For a label
    that occurs more than once pandas yields a sub-frame, on which the
    calls the pipeline makes next fail; that failure is [DuplicateLabel]. *)
Definition locate (c : string) (cols : list string) : result nat :=
  match positions c cols with
  | [] => Raise (KeyError c)
  | [i] => Ok i
  | _ => Raise (DuplicateLabel c)
  end.

Definition cell (i : nat) (cells : list val) : val := nth i cells VNull.

Fixpoint overwrite (c : string) (v : val) (cols : list string) (cells : list val)
  : list val :=
  match cols, cells with
  | l :: cols', x :: cells' =>
      (if decide (l = c) then v else x) :: overwrite c v cols' cells'
  | _, _ => cells
  end.

(** The cells of a row after [df[c] = ...]: an existing column is
    overwritten in place (every column of that label), a new one is
    appended. *)
Definition put (c : string) (v : val) (cols : list string) (cells : list val)
  : list val :=
  if decide (c ∈ cols) then overwrite c v cols cells else cells ++ [v].

Definition set_labels (c : string) (cols : list string) : list string :=
  if decide (c ∈ cols) then cols else cols ++ [c].

(** [df[c] = s] where [s] has the index of [df]: row by row. *)
Definition setitem (c : string) (f : row -> val) (df : frame) : frame :=
  Frame (set_labels c (columns df))
        (map (fun r : row => (r.1, put c (f r) (columns df) r.2)) (rows df)).

(** [df[mask]] *)
Definition select (p : row -> bool) (df : frame) : frame :=
  Frame (columns df) (filter (fun r => p r = true) (rows df)).

(** ** Schema normalizer *)

Module Normalizer.

(** [str.lower] on the ASCII letters; other bytes are kept (the column
    headers of the BLS files are ASCII). *)
Definition lower_ascii (a : ascii) : ascii :=
  let n := nat_of_ascii a in
  if (65 <=? n)%nat && (n <=? 90)%nat then ascii_of_nat (n + 32) else a.

Fixpoint lower (s : string) : string :=
  match s with
  | EmptyString => EmptyString
  | String a t => String (lower_ascii a) (lower t)
  end.

(** The [columns=] argument of [df.rename]. *)
Definition rename_table : gmap string string :=
  <["occ_group" := "o_group"]>
  (<["loc quotient" := "loc_quotient"]>
  (<["area_name" := "area_title"]> ∅)).

(** [df.rename(columns=t)]: a label that is not a key of [t] stays. *)
Definition rename (t : gmap string string) (c : string) : string :=
  default c (t !! c).

Definition much_consistency (df : frame) : frame :=
  let lowered := map lower (columns df) in
  Frame (map (rename rename_table) lowered) (rows df).

End Normalizer.

(** ** Year pattern *)

Module YearPattern.

Definition is_digit (a : ascii) : bool :=
  let n := nat_of_ascii a in (48 <=? n)%nat && (n <=? 57)%nat.

Definition is_nonzero_digit (a : ascii) : bool :=
  let n := nat_of_ascii a in (49 <=? n)%nat && (n <=? 57)%nat.

(** The longest run of digits at the start of [s], and what follows it. *)
Fixpoint span_digits (s : string) : string * string :=
  match s with
  | EmptyString => (EmptyString, EmptyString)
  | String a t =>
      if is_digit a then
        let '(d, r) := span_digits t in (String a d, r)
      else (EmptyString, s)
  end.

(** One attempt of [(M)([1-9]\d{3,})(_)] at the start of [s]; the result is
    group 2.  [\d{3,}] is greedy, and giving digits back cannot help: the
    character after a shorter run is a digit, not the underscore.  So the
    attempt succeeds exactly when the longest run has three digits or more
    and is followed by the underscore. *)
Definition match_here (s : string) : option string :=
  match s with
  | String "M" (String a t) =>
      if is_nonzero_digit a then
        let '(d, r) := span_digits t in
        match r with
        | String "_" _ => if (3 <=? String.length d)%nat then Some (String a d) else None
        | _ => None
        end
      else None
  | _ => None
  end.

(** [re.search]: the attempt is made at every position from the left, the
    first success wins. *)
Fixpoint search (s : string) : option string :=
  match match_here s with
  | Some g => Some g
  | None =>
      match s with
      | EmptyString => None
      | String _ t => search t
      end
  end.

Definition digit_value (a : ascii) : Z := Z.of_nat (nat_of_ascii a) - 48.

(** [int] on a string of digits. *)
Definition int_of_digits (s : string) : Z :=
  fold_left (fun acc a => acc * 10 + digit_value a)%Z (list_ascii_of_string s) 0%Z.

(** [int(re.search(..., str(f))[2])]: subscripting the [None] of a failed
    search is a [TypeError]. *)
Definition report_year_of (path : string) : result Z :=
  match search path with
  | Some g => Ok (int_of_digits g)
  | None => Raise TypeError
  end.

End YearPattern.

(** ** Log and driver monad *)

Inductive msg :=
| MsaLoaded
| MsaLoadFailed (e : exn)
| SocLoaded
| SocLoadFailed (e : exn)
| Processing (f : string)
| LowerCased
| Standardized
| SocApplied
| MsaApplied
| NullsReplaced
| Complete (f : string)
| SplitDone.

(** What has been printed so far, and the value or the exception. *)
Definition io (A : Type) : Type := list msg * result A.

#[global] Instance io_ret : MRet io := fun _ a => ([], Ok a).
#[global] Instance io_bind : MBind io :=
  fun _ _ f m =>
    match m with
    | (l, Ok a) => let '(l', r) := f a in (l ++ l', r)
    | (l, Raise e) => (l, Raise e)
    end.

Definition tell (l : list msg) : io unit := (l, Ok tt).
Definition lift {A} (m : result A) : io A := ([], m).

(** ** Lookup loader *)

Module Loader.

(** The four crosswalks of [soc_lookup], under the keys ['1019'], ['1819'],
    ['1919'] and ['19']. *)
Record soc_lookup := SocLookup {
  soc1019_dict : dict;
  oes1819_dict : dict;
  oes1919_dict : dict;
  oes19_dict : dict
}.

(** What [zip] iterates over when handed [df[c]]: the cells of the column;
    for a repeated label [df[c]] is a sub-frame, whose iteration yields its
    column labels. *)
Definition iter_column (c : string) (df : frame) : result (list val) :=
  match positions c (columns df) with
  | [] => Raise (KeyError c)
  | [i] => Ok (map (fun r : row => cell i r.2) (rows df))
  | ps => Ok (map (fun _ => VStr c) ps)
  end.

(** [file] is what is found at [lookup_file_path]. *)
Definition load_msa_lookup (file : result sheet) : io (option dict) :=
  let attempt :=
    lk_msa ← read_excel file;
    area ← iter_column "area" lk_msa;
    peer ← iter_column "peer_type" lk_msa;
    mret (py_dict area peer) in
  match attempt with
  | Ok msa_lookup => ([MsaLoaded], Ok (Some msa_lookup))
  | Raise e => ([MsaLoadFailed e], Ok None)
  end.

Definition oes_columns : list string :=
  ["oes_code_2019"; "oes_title_2019"; "soc_code_2018"; "soc_title_2018";
   "oes_code_2018"; "oes_title_2018"; "soc_code_2010"; "soc_title_2010"; "notes"].

(** [df.columns = [...]]: a [ValueError] unless the sheet has nine
    columns. *)
Definition set_columns (names : list string) (df : frame) : result frame :=
  if decide (length names = length (columns df)) then Ok (Frame names (rows df))
  else Raise ValueError.

(** [file] is what is found at [lookup_file_path]: the first sheet, read
    from its sixth row on ([sheet_name=0, skiprows=5]). *)
Definition load_oes_lookup (file : result sheet) : io (option soc_lookup) :=
  let attempt :=
    df ← read_excel file;
    df ← set_columns oes_columns df;
    soc_code_2010 ← iter_column "soc_code_2010" df;
    oes_code_2019 ← iter_column "oes_code_2019" df;
    oes_code_2018 ← iter_column "oes_code_2018" df;
    oes_title_2019 ← iter_column "oes_title_2019" df;
    mret (SocLookup (py_dict soc_code_2010 oes_code_2019)
                    (py_dict oes_code_2018 oes_code_2019)
                    (py_dict oes_code_2019 oes_code_2019)
                    (py_dict oes_code_2019 oes_title_2019)) in
  match attempt with
  | Ok soc_lookup => ([SocLoaded], Ok (Some soc_lookup))
  | Raise e => ([SocLoadFailed e], Ok None)
  end.

End Loader.

(** ** Frame operations of the pipeline *)

(** [df[c]] as a function of the row. *)
Definition getcol (c : string) (df : frame) : result (row -> val) :=
  i ← locate c (columns df);
  mret (fun r : row => cell i r.2).

(** The value of a Series at index label [i]; NaN when the label is
    absent. *)
Fixpoint at_label (i : nat) (s : list (nat * val)) : val :=
  match s with
  | [] => VNull
  | (j, v) :: s' => if decide (j = i) then v else at_label i s'
  end.

(** [df[c] = s] for a Series [s] with an index of its own.  When the two
    indexes are equal the values are taken as they are; otherwise [s] is
    reindexed on the index of [df], which pandas refuses ([ValueError])
    when the index of [s] has a repeated label. *)
Definition setitem_aligned (c : string) (s : list (nat * val)) (df : frame)
  : result frame :=
  if decide (map fst s = map fst (rows df)) then
    Ok (Frame (set_labels c (columns df))
              (zip_with (fun (r : row) (x : nat * val) =>
                           (r.1, put c x.2 (columns df) r.2))
                        (rows df) s))
  else if decide (NoDup (map fst s)) then
    Ok (setitem c (fun r => at_label r.1 s) df)
  else Raise ValueError.

(** The cells of a row laid out on the labels [dst]; NaN where the row has
    no such column. *)
Definition relayout (src dst : list string) (cells : list val) : list val :=
  map (fun c => match positions c src with
                | i :: _ => cell i cells
                | [] => VNull
                end) dst.

(** [pd.concat([a, b])]: the rows of [a], then those of [b], with their
    index labels.  Frames with the same labels are appended as they are;
    otherwise the result has the labels of [a] followed by the new ones of
    [b].  pandas cannot align frames with repeated labels that differ. *)
Definition pd_concat (a b : frame) : result frame :=
  if decide (columns a = columns b) then
    Ok (Frame (columns a) (rows a ++ rows b))
  else if decide (NoDup (columns a) /\ NoDup (columns b)) then
    let cs := columns a ++ filter (fun c => c ∉ columns a) (columns b) in
    Ok (Frame cs
          (map (fun r : row => (r.1, relayout (columns a) cs r.2)) (rows a) ++
           map (fun r : row => (r.1, relayout (columns b) cs r.2)) (rows b)))
  else Raise ValueError.

Fixpoint wanted_positions (want cols : list string) : result (list nat) :=
  match want with
  | [] => Ok []
  | c :: want' =>
      match positions c cols with
      | [] => Raise (KeyError c)
      | ps => rest ← wanted_positions want' cols; mret (ps ++ rest)
      end
  end.

(** [df[[c1, ..., cn]]]: the listed columns in the listed order; a label
    that the frame repeats brings all its columns. *)
Definition project (want : list string) (df : frame) : result frame :=
  ps ← wanted_positions want (columns df);
  mret (Frame (map (fun p => nth p (columns df) "") ps)
              (map (fun r : row => (r.1, map (fun p => cell p r.2) ps)) (rows df))).

(** [df.reset_index(drop=True)] *)
Definition reset_index (df : frame) : frame :=
  Frame (columns df) (zip (seq 0 (length (rows df))) (map snd (rows df))).

(** ** The stages *)

Module Stages.
Import Loader.

Definition detailed (o_group : row -> val) (r : row) : bool :=
  bool_decide (o_group r = VStr "detailed").

(** The crosswalk that [map_soc] picks for a report year: the default
    [soc_lookup['1919']], replaced by the branch of the [if] chain that
    applies. *)
Definition soc_mappings_for (report_year : Z) (lk : soc_lookup) : dict :=
  let soc_mappings := oes1919_dict lk in
  if decide (report_year ∈ [2014; 2015; 2016]%Z) then soc1019_dict lk
  else if decide (report_year ∈ [2017; 2018]%Z) then oes1819_dict lk
  else if decide (2019 ≤ report_year)%Z then oes1919_dict lk
  else soc_mappings.

Definition map_soc (df : frame) (report_year : Z) (soc_lookup : option soc_lookup)
  : result frame :=
  (* soc_lookup['1919'] on None is a TypeError *)
  lk ← match soc_lookup with
       | Some lk => Ok lk
       | None => Raise TypeError
       end;
  let soc_mappings := soc_mappings_for report_year lk in
  (* Apply SOC code crosswalk *)
  o_group ← getcol "o_group" df;
  occ_code ← getcol "occ_code" df;
  let mapped :=
    map (fun r : row => (r.1, series_map soc_mappings (occ_code r)))
        (filter (fun r => detailed o_group r = true) (rows df)) in
  df ← setitem_aligned "oes_code_2019" mapped df;
  (* Map the codes without a 2010 to 2019 conversion separately *)
  oes_code_2019 ← getcol "oes_code_2019" df;
  o_group ← getcol "o_group" df;
  let df_matched :=
    select (fun r => negb (isnull (oes_code_2019 r)) && detailed o_group r) df in
  let df_missing :=
    select (fun r => isnull (oes_code_2019 r) && detailed o_group r) df in
  occ_code ← getcol "occ_code" df_missing;
  let df_missing :=
    setitem "oes_code_2019" (fun r => series_map (oes1819_dict lk) (occ_code r))
            df_missing in
  (* Map the total and major rows separately *)
  let df_totals := select (fun r => negb (detailed o_group r)) df in
  occ_code ← getcol "occ_code" df_totals;
  let df_totals := setitem "oes_code_2019" occ_code df_totals in
  occ_title ← getcol "occ_title" df_totals;
  let df_totals := setitem "oes_title_2019" occ_title df_totals in
  (* Recombine all rows *)
  df_combined ← pd_concat df_matched df_missing;
  oes_code_2019 ← getcol "oes_code_2019" df_combined;
  let df_combined :=
    setitem "oes_title_2019"
            (fun r => series_map (oes1919_dict lk) (oes_code_2019 r)) df_combined in
  pd_concat df_combined df_totals.

Definition catch_all : val := VStr "All Other MSA".

(** [fillna] on one cell. *)
Definition fillna (d v : val) : val := if isnull v then d else v.

(** With no lookup ([None]) [Series.map] calls [None] on the first cell,
    a [TypeError]; a Series without cells is returned as it is.  The
    [fillna(..., inplace=True)] acts on the column [df['peer_type']] of the
    batch, as in the pandas releases without copy-on-write that the code
    was written for; when the label is repeated it lands on a temporary
    sub-frame and the batch keeps its NaN. *)
Definition map_peer_type (df : frame) (msa_lookup : option dict) : result frame :=
  area ← getcol "area" df;
  peer ← match msa_lookup with
         | Some d => Ok (fun r => series_map d (area r))
         | None =>
             match rows df with
             | [] => Ok (fun _ : row => VNull)
             | _ => Raise TypeError
             end
         end;
  let df := setitem "peer_type" peer df in
  match positions "peer_type" (columns df) with
  | [i] => Ok (setitem "peer_type" (fun r => fillna catch_all (cell i r.2)) df)
  | _ => Ok df
  end.

Definition null_replace : dict :=
  <[VStr "#" := VNull]> (<[VStr "*" := VNull]> (<[VStr "**" := VNull]> ∅)).

(** [df.replace(d)] on one cell. *)
Definition replace_cell (d : dict) (v : val) : val := default v (d !! v).

Definition map_nulls (df : frame) : frame :=
  Frame (columns df)
        (map (fun r : row => (r.1, map (replace_cell null_replace) r.2)) (rows df)).

End Stages.

(** ** Driver *)

Module Driver.
Import Loader Stages Normalizer YearPattern.

Definition out_columns : list string :=
  ["report_year"; "area"; "area_title"; "peer_type";
   "oes_code_2019"; "oes_title_2019"; "o_group";
   "tot_emp"; "emp_prse"; "jobs_1000"; "loc_quotient";
   "h_mean"; "a_mean"; "mean_prse";
   "h_pct10"; "h_pct25"; "h_median"; "h_pct75"; "h_pct90";
   "a_pct10"; "a_pct25"; "a_median"; "a_pct75"; "a_pct90"].

(** The data folder as the run finds it: the two lookup files, and the
    files that [glob('**/*.xlsx')] yields under [bls], in that order, each
    with its path [str(f)] and its content. *)
Record data_folder := DataFolder {
  oes_file : result sheet;
  msa_file : result sheet;
  bls_files : list (string * result sheet)
}.

(** The body of the loop of [clean_bls] up to the projection on the output
    columns; the rows still carry the index labels they had in the file. *)
Definition prepare_file (soc_lookup : option soc_lookup) (msa_lookup : option dict)
    (f : string * result sheet) : io frame :=
  tell [Processing f.1];;
  df ← lift (read_excel f.2);
  let df := much_consistency df in
  tell [LowerCased; Standardized];;
  report_year ← lift (report_year_of f.1);
  df ← lift (map_soc df report_year soc_lookup);
  tell [SocApplied];;
  df ← lift (map_peer_type df msa_lookup);
  tell [MsaApplied];;
  let df := map_nulls df in
  tell [NullsReplaced];;
  let df := setitem "report_year" (fun _ => VNum report_year) df in
  lift (project out_columns df).

(** The body of the loop up to [reset_index(drop=True)]. *)
Definition process_file (soc_lookup : option soc_lookup) (msa_lookup : option dict)
    (f : string * result sheet) : io frame :=
  df ← prepare_file soc_lookup msa_lookup f;
  mret (reset_index df).

Fixpoint merge_files (soc_lookup : option soc_lookup) (msa_lookup : option dict)
    (files : list (string * result sheet)) (df_merged : frame) : io frame :=
  match files with
  | [] => mret df_merged
  | f :: files' =>
      df ← process_file soc_lookup msa_lookup f;
      df_merged ← lift (pd_concat df_merged df);
      tell [Complete f.1];;
      merge_files soc_lookup msa_lookup files' df_merged
  end.

Definition not_catch_all (peer_type : row -> val) (r : row) : bool :=
  negb (bool_decide (peer_type r = catch_all)).

(** [clean_bls] up to the end of its loop: the merged dataset before the
    catch-all filter. *)
Definition merge_all (data : data_folder) : io frame :=
  soc_lookup ← load_oes_lookup (oes_file data);
  msa_lookup ← load_msa_lookup (msa_file data);
  merge_files soc_lookup msa_lookup (bls_files data) empty_frame.

Definition clean_bls (data : data_folder) : io frame :=
  df_merged ← merge_all data;
  peer_type ← lift (getcol "peer_type" df_merged);
  mret (select (not_catch_all peer_type) df_merged).

Definition in_group (g : string) (o_group : row -> val) (r : row) : bool :=
  bool_decide (o_group r = VStr g).

Definition split_bls_ogroup (df : frame) : io (frame * frame * frame) :=
  o_group ← lift (getcol "o_group" df);
  let bls_total := select (in_group "total" o_group) df in
  let bls_major := select (in_group "major" o_group) df in
  let bls_detailed := select (in_group "detailed" o_group) df in
  tell [SplitDone];;
  mret (bls_total, bls_major, bls_detailed).

(** [process_bls] up to the three [to_excel] calls: the result is what
    they are given to write. *)
Definition process_bls (data : data_folder) : io (frame * frame * frame) :=
  bls_merged ← clean_bls data;
  split_bls_ogroup bls_merged.

End Driver.

(** * Notions used in the statements *)

Import Normalizer YearPattern Loader Stages Driver.

(** ** Occurrences of the year pattern *)

Fixpoint all_digits (s : string) : bool :=
  match s with
  | EmptyString => true
  | String a t => is_digit a && all_digits t
  end.

(** The strings that group 2 of the pattern can hold: a digit from 1 to 9
    followed by three digits or more. *)
Definition year_digits (d : string) : Prop :=
  exists a t, d = String a t /\ is_nonzero_digit a = true /\
              all_digits t = true /\ (3 <= String.length t)%nat.

(** The pattern occurs in [s] at offset [i] with the digits [d]. *)
Definition occurs (s : string) (i : nat) (d : string) : Prop :=
  exists p q, s = p +:+ "M" +:+ d +:+ "_" +:+ q /\ String.length p = i /\ year_digits d.

(** ** Sentinel tokens and aggregation levels *)

(** The tokens that stand for a suppressed or unavailable value. *)
Definition sentinels : list val := [VStr "#"; VStr "*"; VStr "**"].

(** The aggregation levels of the data model. *)
Definition levels : list val := [VStr "total"; VStr "major"; VStr "detailed"].

(** ** The crosswalker, row by row *)

Section MapSocRows.

Variables (lk : soc_lookup) (y : Z) (og oc ot : nat).

(** The record is at the detailed level. *)
Definition is_det (r : row) : bool := detailed (fun x : row => cell og x.2) r.

(** What the crosswalk chosen for the year gives for the record's code. *)
Definition primary (r : row) : val :=
  series_map (soc_mappings_for y lk) (cell oc r.2).

Definition code_of (r : row) : val :=
  if is_det r then
    if isnull (primary r) then series_map (oes1819_dict lk) (cell oc r.2)
    else primary r
  else cell oc r.2.

Definition title_of (r : row) : val :=
  if is_det r then series_map (oes1919_dict lk) (code_of r) else cell ot r.2.

(** The order in which [map_soc] hands the rows back. *)
Definition reorder (l : list row) : list row :=
  filter (fun r => negb (isnull (primary r)) && is_det r = true) l ++
  filter (fun r => isnull (primary r) && is_det r = true) l ++
  filter (fun r => negb (is_det r) = true) l.

Definition finish (cols : list string) (r : row) : row :=
  (r.1, put "oes_title_2019" (title_of r) (set_labels "oes_code_2019" cols)
          (put "oes_code_2019" (code_of r) cols r.2)).

End MapSocRows.

(** ** Order of the records of a file *)

(** The columns of a normalised file that the pipeline reads. *)
Definition input_columns : list string :=
  ["occ_code"; "occ_title"; "area"; "area_title"; "o_group";
   "tot_emp"; "emp_prse"; "jobs_1000"; "loc_quotient";
   "h_mean"; "a_mean"; "mean_prse";
   "h_pct10"; "h_pct25"; "h_median"; "h_pct75"; "h_pct90";
   "a_pct10"; "a_pct25"; "a_median"; "a_pct75"; "a_pct90"].

(** The batch that [read_excel] and the schema normalizer make of a
    sheet. *)
Definition normalized (sh : sheet) : frame :=
  much_consistency (Frame (header sh) (zip (seq 0 (length (body sh))) (body sh))).

(** A file that the loop body can process: it can be read, its path holds
    the year pattern, its rows have one cell for each header cell, and
    its normalised header has no repeated label and holds the columns that
    the pipeline reads. *)
Definition well_formed_file (f : string * result sheet) : Prop :=
  exists sh y,
    f.2 = Ok sh /\ report_year_of f.1 = Ok y /\
    rect (normalized sh) /\ NoDup (columns (normalized sh)) /\
    input_columns ⊆ columns (normalized sh).

(** The rows are listed by increasing index label. *)
Definition in_order (l : list row) : Prop := StronglySorted lt (map fst l).

(** The rows of a prepared file that end in the partition of level [g]:
    [o_group] is the seventh output column, [peer_type] the fourth. *)
Definition part (g : string) (P : frame) : list row :=
  filter (fun r : row => cell 6 r.2 = VStr g /\ cell 3 r.2 <> catch_all) (rows P).

(** Whether the crosswalk chosen for the year of file [f] has a
    non-null value for the code of the record at position [i] of [f]. *)
Definition selected_resolves (lk : soc_lookup) (f : string * result sheet)
    (i : nat) (b : bool) : Prop :=
  exists sh y oc cells,
    f.2 = Ok sh /\ report_year_of f.1 = Ok y /\
    locate "occ_code" (columns (normalized sh)) = Ok oc /\
    body sh !! i = Some cells /\
    isnull (series_map (soc_mappings_for y lk) (cell oc cells)) = negb b.

(** The order of the records of file [f] in the prepared batch [P], whose
    index labels are the positions of the records in the file. *)
Definition file_order (lk : soc_lookup) (f : string * result sheet) (P : frame)
  : Prop :=
  in_order (part "total" P) /\ in_order (part "major" P) /\
  exists A B,
    part "detailed" P = A ++ B /\ in_order A /\ in_order B /\
    (forall r : row, r ∈ A -> selected_resolves lk f r.1 true) /\
    (forall r : row, r ∈ B -> selected_resolves lk f r.1 false).

(** * Worked data *)

(** A path with the pattern in a directory name and in the file name. *)
Definition archive_path : string := "data/bls/M2015_archive/MSA_M2019_dl.xlsx".

(** One data row of the crosswalk sheet, after the five rows of notes. *)
Definition ex_crosswalk : sheet :=
  Sheet ["OES 2019 Estimates Code"; "OES 2019 Estimates Title";
         "2018 SOC Code"; "2018 SOC Title";
         "OES 2018 Estimates Code"; "OES 2018 Estimates Title";
         "2010 SOC Code"; "2010 SOC Title"; "Notes"]
        [[VStr "15-1251"; VStr "Computer Programmers";
          VStr "15-1251"; VStr "Computer Programmers";
          VStr "15-1250"; VStr "Software Developers and Programmers";
          VStr "15-1131"; VStr "Computer Programmers"; VNull]].

Definition ex_soc_lookup : soc_lookup :=
  SocLookup (py_dict [VStr "15-1131"] [VStr "15-1251"])
            (py_dict [VStr "15-1250"] [VStr "15-1251"])
            (py_dict [VStr "15-1251"] [VStr "15-1251"])
            (py_dict [VStr "15-1251"] [VStr "Computer Programmers"]).

Definition ex_columns : list string :=
  ["area"; "area_title"; "occ_code"; "occ_title"; "o_group"; "tot_emp"].

(** A normalised batch with one detailed record. *)
Definition ex_batch (code : string) : frame :=
  Frame ex_columns
        [(0%nat, [VStr "28140"; VStr "Kansas City, MO-KS"; VStr code;
                  VStr "Computer Programmers"; VStr "detailed"; VNum 2750])].

Definition ex_header : list string :=
  ["AREA"; "AREA_NAME"; "OCC_CODE"; "OCC_TITLE"; "OCC_GROUP"; "TOT_EMP";
   "EMP_PRSE"; "JOBS_1000"; "LOC QUOTIENT"; "H_MEAN"; "A_MEAN"; "MEAN_PRSE";
   "H_PCT10"; "H_PCT25"; "H_MEDIAN"; "H_PCT75"; "H_PCT90";
   "A_PCT10"; "A_PCT25"; "A_MEDIAN"; "A_PCT75"; "A_PCT90"].

(** One record of a BLS file; the hourly wages are suppressed ([*]) and the
    top annual percentile is above the reporting limit ([#]). *)
Definition ex_record (area : Z) (area_name code title group : string) (emp : Z)
  : list val :=
  [VNum area; VStr area_name; VStr code; VStr title; VStr group; VNum emp;
   VNum 3; VNum 2; VNum 1; VStr "*"; VNum 81000; VNum 2;
   VStr "*"; VStr "*"; VStr "*"; VStr "*"; VStr "*";
   VNum 45000; VNum 60000; VNum 79000; VNum 99000; VStr "#"].

Definition ex_bls : sheet :=
  Sheet ex_header
    [ex_record 28140 "Kansas City, MO-KS" "00-0000" "All Occupations" "total" 1050000;
     ex_record 28140 "Kansas City, MO-KS" "15-0000"
               "Computer and Mathematical Occupations" "major" 40000;
     ex_record 28140 "Kansas City, MO-KS" "15-1250"
               "Software Developers and Programmers" "detailed" 9000;
     ex_record 28140 "Kansas City, MO-KS" "15-1131" "Computer Programmers"
               "detailed" 2750;
     ex_record 99999 "Elsewhere" "15-1131" "Computer Programmers" "detailed" 10].

Definition ex_peers : sheet :=
  Sheet ["area"; "peer_type"] [[VNum 28140; VStr "Kansas City"]].

Definition ex_data : data_folder :=
  DataFolder (Ok ex_crosswalk) (Ok ex_peers)
             [("data/bls/MSA_M2016_dl.xlsx", Ok ex_bls)].

(** The same folder with a second spreadsheet whose name carries no
    year, found first. *)
Definition ex_data_unnamed : data_folder :=
  DataFolder (Ok ex_crosswalk) (Ok ex_peers)
             [("data/bls/field_descriptions.xlsx", Ok ex_bls);
              ("data/bls/MSA_M2016_dl.xlsx", Ok ex_bls)].

(** The same folder without the peer lookup file, and without the
    crosswalk file. *)
Definition ex_data_no_peers : data_folder :=
  DataFolder (Ok ex_crosswalk) (Raise IOError)
             [("data/bls/MSA_M2016_dl.xlsx", Ok ex_bls)].

Definition ex_data_no_crosswalk : data_folder :=
  DataFolder (Raise IOError) (Ok ex_peers)
             [("data/bls/MSA_M2016_dl.xlsx", Ok ex_bls)].

(** The merged dataset of the worked run before the filter, and its three
    partitions. *)
Definition ex_merged : frame :=
  match (merge_all ex_data).2 with Ok U => U | Raise _ => empty_frame end.

Definition ex_partitions : frame * frame * frame :=
  match (process_bls ex_data).2 with
  | Ok parts => parts
  | Raise _ => (empty_frame, empty_frame, empty_frame)
  end.

(** ** Further worked data *)

(** A BLS file with the five levels that the OEWS releases use: besides
    total, major and detailed also minor and broad. *)
Definition ex_bls_groups : sheet :=
  Sheet ex_header
    [ex_record 28140 "Kansas City, MO-KS" "00-0000" "All Occupations" "total" 1050000;
     ex_record 28140 "Kansas City, MO-KS" "15-1200" "Computer Occupations"
               "minor" 38000;
     ex_record 28140 "Kansas City, MO-KS" "15-1250"
               "Software and Web Developers, Programmers, and Testers" "broad" 16000;
     ex_record 28140 "Kansas City, MO-KS" "15-1131" "Computer Programmers"
               "detailed" 2750].

Definition ex_data_groups : data_folder :=
  DataFolder (Ok ex_crosswalk) (Ok ex_peers)
             [("data/bls/MSA_M2016_dl.xlsx", Ok ex_bls_groups)].

(** A normalised batch with a record at each aggregation level. *)
Definition ex_levels_batch : frame :=
  Frame ex_columns
        [(0%nat, [VStr "28140"; VStr "Kansas City, MO-KS"; VStr "00-0000";
                  VStr "All Occupations"; VStr "total"; VNum 1050000]);
         (1%nat, [VStr "28140"; VStr "Kansas City, MO-KS"; VStr "15-0000";
                  VStr "Computer and Mathematical Occupations"; VStr "major";
                  VNum 40000]);
         (2%nat, [VStr "28140"; VStr "Kansas City, MO-KS"; VStr "15-1131";
                  VStr "Computer Programmers"; VStr "detailed"; VNum 2750])].

(** A batch without the column of occupation titles. *)
Definition ex_untitled_batch : frame :=
  Frame ["o_group"; "occ_code"]
        [(0%nat, [VStr "detailed"; VStr "15-1131"]);
         (1%nat, [VStr "total"; VStr "00-0000"])].

(** A data folder with both lookup files and no BLS file. *)
Definition ex_data_empty : data_folder :=
  DataFolder (Ok ex_crosswalk) (Ok ex_peers) [].

(** The number of data rows of a file; none when it cannot be read. *)
Definition data_rows (f : string * result sheet) : nat :=
  match f.2 with Ok sh => length (body sh) | Raise _ => 0%nat end.

(** * Properties *)

(** A decidable proposition about closed terms, settled by evaluation. *)
Ltac by_compute := apply (bool_decide_unpack _); vm_compute; exact I.

Section NormalizerFacts.
Import Normalizer.

Lemma lower_ascii_idem a : lower_ascii (lower_ascii a) = lower_ascii a.
Proof. destruct a as [[] [] [] [] [] [] [] []]; reflexivity. Qed.

Lemma lower_idem s : lower (lower s) = lower s.
Proof. induction s as [|a s IH]; simpl; [done|]. by rewrite lower_ascii_idem, IH. Qed.

Lemma rename_table_cases c v :
  rename_table !! c = Some v ->
  (c = "occ_group" /\ v = "o_group") \/
  (c = "loc quotient" /\ v = "loc_quotient") \/
  (c = "area_name" /\ v = "area_title").
Proof.
  unfold rename_table. intros H.
  rewrite !lookup_insert in H.
  repeat case_decide; simplify_eq; naive_solver.
Qed.

Lemma normalise_label_idem c :
  rename rename_table (lower (rename rename_table (lower c)))
  = rename rename_table (lower c).
Proof.
  unfold rename at 2 3.
  destruct (rename_table !! lower c) as [v|] eqn:E; simpl.
  - apply rename_table_cases in E as [[_ ->]|[[_ ->]|[_ ->]]]; reflexivity.
  - rewrite lower_idem. unfold rename. by rewrite E.
Qed.

(** C8. The schema normalizer is idempotent: normalising an already
    normalised batch changes nothing, so applying [much_consistency] twice
    gives the same batch as applying it once. *)
Theorem much_consistency_idempotent (df : frame) :
  much_consistency (much_consistency df) = much_consistency df.
Proof.
  unfold much_consistency; simpl. f_equal.
  rewrite !map_map. apply map_ext. intros c. apply normalise_label_idem.
Qed.

End NormalizerFacts.

(** ** The year of a file *)

Section YearFacts.
Import YearPattern.

Lemma span_digits_underscore t q :
  all_digits t = true -> span_digits (t +:+ String "_" q) = (t, String "_" q).
Proof.
  induction t as [|a t IH]; simpl; [done|].
  intros [Ha Ht]%andb_prop. rewrite Ha, (IH Ht). done.
Qed.

Lemma span_digits_sound s d r :
  span_digits s = (d, r) -> s = d +:+ r /\ all_digits d = true.
Proof.
  revert d r. induction s as [|a s IH]; simpl; intros d r H.
  - by inversion H.
  - destruct (is_digit a) eqn:Ha.
    + destruct (span_digits s) as [d' r'] eqn:E. inversion H; subst.
      destruct (IH _ _ eq_refl) as [-> Hd]. simpl. by rewrite Ha, Hd.
    + by inversion H.
Qed.

Lemma match_here_complete d q :
  year_digits d -> match_here ("M" +:+ d +:+ "_" +:+ q) = Some d.
Proof.
  intros (a & t & -> & Ha & Ht & Hlen).
  change (match_here (String "M" (String a (t +:+ String "_" q))) = Some (String a t)).
  unfold match_here. rewrite Ha, (span_digits_underscore t q Ht).
  by apply Nat.leb_le in Hlen as ->.
Qed.

Lemma match_here_sound s g :
  match_here s = Some g -> exists q, s = "M" +:+ g +:+ "_" +:+ q /\ year_digits g.
Proof.
  unfold match_here. intros H.
  destruct s as [|m s]; [done|]. destruct s as [|a t]; [by destruct m as [[] [] [] [] [] [] [] []]|].
  destruct (decide (m = "M"%char)) as [->|Hm];
    [|by destruct m as [[] [] [] [] [] [] [] []]].
  destruct (is_nonzero_digit a) eqn:Ha; [|done].
  destruct (span_digits t) as [d r] eqn:E.
  destruct (span_digits_sound _ _ _ E) as [-> Hd].
  destruct r as [|u q]; [done|].
  destruct (decide (u = "_"%char)) as [->|Hu];
    [|by destruct u as [[] [] [] [] [] [] [] []]].
  destruct (3 <=? String.length d)%nat eqn:Hlen; [|done].
  inversion H; subst. exists q. split; [done|].
  exists a, d. by apply Nat.leb_le in Hlen.
Qed.

Lemma search_cons a t :
  search (String a t) =
  match match_here (String a t) with Some g => Some g | None => search t end.
Proof. reflexivity. Qed.

Lemma search_leftmost p d q :
  year_digits d ->
  (forall j d', occurs (p +:+ "M" +:+ d +:+ "_" +:+ q) j d' -> (String.length p <= j)%nat) ->
  search (p +:+ "M" +:+ d +:+ "_" +:+ q) = Some d.
Proof.
  intros Hd. induction p as [|a p IH]; intros Hmin.
  - change (search (String "M" (d +:+ "_" +:+ q)) = Some d).
    rewrite search_cons.
    change (String "M" (d +:+ "_" +:+ q)) with ("M" +:+ d +:+ "_" +:+ q).
    by rewrite (match_here_complete d q Hd).
  - change (search (String a (p +:+ "M" +:+ d +:+ "_" +:+ q)) = Some d).
    rewrite search_cons.
    destruct (match_here _) as [g|] eqn:E.
    + apply match_here_sound in E as (q' & E & Hg).
      assert (String.length (String a p) <= 0)%nat as Hle; [|simpl in Hle; lia].
      apply (Hmin 0%nat g). exists EmptyString, q'. by rewrite <- E.
    + apply IH. intros j d' (p' & q' & E' & <- & Hd').
      assert (String.length (String a p) <= S (String.length p'))%nat as Hle;
        [|simpl in Hle; lia].
      apply (Hmin _ d'). exists (String a p'), q'.
      change (String a p +:+ "M" +:+ d +:+ "_" +:+ q)
        with (String a (p +:+ "M" +:+ d +:+ "_" +:+ q)).
      by rewrite E'.
Qed.

Lemma occurs_letter s j d : occurs s j d -> String.get j s = Some "M"%char.
Proof.
  intros (p & q & -> & <- & _). induction p as [|a p IH]; [done|].
  change (String.get (S (String.length p))
            (String a (p +:+ "M" +:+ d +:+ "_" +:+ q)) = Some "M"%char).
  exact IH.
Qed.

(** C10. The report year is read from the first place where the pattern
    ([M], a number of four digits or more that does not start with 0, [_])
    occurs in the whole path string: when the leftmost occurrence has the
    digits [d], the year is [int d], whatever follows it.  So an
    occurrence in a directory name, coming before the file name, decides
    the year of every file below that directory. *)
Theorem report_year_first_occurrence (path : string) (i : nat) (d : string) :
  occurs path i d ->
  (forall j d', occurs path j d' -> (i <= j)%nat) ->
  report_year_of path = Ok (int_of_digits d).
Proof.
  intros (p & q & -> & <- & Hd) Hmin. unfold report_year_of.
  by rewrite (search_leftmost p d q Hd Hmin).
Qed.

Lemma report_year_first_occurrence_witness :
  report_year_of archive_path = Ok 2015%Z.
Proof.
  apply (report_year_first_occurrence archive_path 9 "2015").
  - exists "data/bls/", "archive/MSA_M2019_dl.xlsx". repeat split.
    exists "2"%char, "015". repeat split. simpl. lia.
  - intros j d' H. apply occurs_letter in H.
    do 9 (destruct j as [|j]; [discriminate H|]). lia.
Defined.

Example report_year_plain : report_year_of "data/bls/MSA_M2016_dl.xlsx" = Ok 2016%Z.
Proof. reflexivity. Qed.

Example report_year_long_number : search "xM12345678_M2019_" = Some "12345678".
Proof. reflexivity. Qed.

Example report_year_skips_short_runs : search "M0123_M201_M2019_" = Some "2019".
Proof. reflexivity. Qed.

Example report_year_no_match : report_year_of "data/bls/field_descriptions.xlsx"
                               = Raise TypeError.
Proof. reflexivity. Qed.

End YearFacts.

(** ** Labels, cells and assignment *)

Section FrameFacts.

Lemma positions_from_spec n c cols i :
  i ∈ positions_from n c cols <-> exists k, i = (n + k)%nat /\ cols !! k = Some c.
Proof.
  revert n. induction cols as [|l cols IH]; intros n; simpl.
  - split; [by intros ?%elem_of_nil | by intros (k & _ & ?)].
  - destruct (decide (l = c)) as [->|Hne].
    + rewrite elem_of_cons, IH. split.
      * intros [->|(k & -> & Hk)]; [exists 0%nat | exists (S k)]; split; (lia || done).
      * intros ([|k] & -> & Hk); [left; lia | right; exists k; split; [lia|done]].
    + rewrite IH. split.
      * intros (k & -> & Hk). exists (S k). split; [lia|done].
      * intros ([|k] & -> & Hk); [simpl in Hk; congruence |].
        exists k. split; [lia|done].
Qed.

Lemma positions_spec c cols i : i ∈ positions c cols <-> cols !! i = Some c.
Proof.
  unfold positions. rewrite positions_from_spec. split.
  - by intros (k & -> & Hk).
  - intros H. by exists i.
Qed.

Lemma positions_nil c cols : positions c cols = [] <-> c ∉ cols.
Proof.
  split.
  - intros H [i Hi]%list_elem_of_lookup. apply positions_spec in Hi.
    rewrite H in Hi. by apply elem_of_nil in Hi.
  - intros H. destruct (positions c cols) as [|i ps] eqn:E; [done|].
    exfalso. apply H. apply list_elem_of_lookup. exists i.
    apply positions_spec. rewrite E. left.
Qed.

Lemma locate_lookup c cols i : locate c cols = Ok i -> cols !! i = Some c.
Proof.
  unfold locate. intros H. apply positions_spec.
  destruct (positions c cols) as [|j [|? ?]]; simplify_eq. left.
Qed.

Lemma positions_from_app n c xs ys :
  positions_from n c (xs ++ ys)
  = positions_from n c xs ++ positions_from (n + length xs) c ys.
Proof.
  revert n. induction xs as [|l xs IH]; intros n; simpl.
  - by rewrite Nat.add_0_r.
  - rewrite IH. replace (S n + length xs)%nat with (n + S (length xs))%nat by lia.
    by destruct (decide (l = c)).
Qed.

Lemma positions_set_labels_ne c c' cols :
  c' <> c -> positions c' (set_labels c cols) = positions c' cols.
Proof.
  intros Hne. unfold set_labels. case_decide; [done|].
  unfold positions. rewrite positions_from_app. simpl.
  rewrite decide_False by done. by rewrite app_nil_r.
Qed.

Lemma positions_set_labels_eq c cols :
  positions c (set_labels c cols)
  = if decide (c ∈ cols) then positions c cols else [length cols].
Proof.
  unfold set_labels. case_decide as Hin; [done|].
  unfold positions. rewrite positions_from_app. simpl.
  rewrite decide_True by done. apply positions_nil in Hin.
  unfold positions in Hin. by rewrite Hin.
Qed.

Lemma locate_set_labels_ne c c' cols :
  c' <> c -> locate c' (set_labels c cols) = locate c' cols.
Proof. intros Hne. unfold locate. by rewrite positions_set_labels_ne. Qed.

Lemma length_set_labels c cols :
  length (set_labels c cols)
  = if decide (c ∈ cols) then length cols else S (length cols).
Proof.
  unfold set_labels. case_decide; [done|]. rewrite length_app. simpl. lia.
Qed.

Lemma length_overwrite c v cols cells :
  length (overwrite c v cols cells) = length cells.
Proof.
  revert cells. induction cols as [|l cols IH]; intros [|x cells]; simpl; auto.
Qed.

Lemma length_put c v cols cells :
  length cells = length cols ->
  length (put c v cols cells) = length (set_labels c cols).
Proof.
  intros H. rewrite length_set_labels. unfold put. case_decide.
  - by rewrite length_overwrite.
  - rewrite length_app. simpl. lia.
Qed.

Lemma cell_overwrite c v cols cells i :
  length cells = length cols ->
  cell i (overwrite c v cols cells)
  = if decide (cols !! i = Some c) then v else cell i cells.
Proof.
  unfold cell. revert cells i.
  induction cols as [|l cols IH]; intros [|x cells] i H; simplify_eq/=.
  - by destruct i.
  - destruct i as [|i]; simpl.
    + destruct (decide (l = c)) as [->|?].
      * by rewrite decide_True.
      * rewrite decide_False; [done | congruence].
    + by apply IH.
Qed.

(** Reading a cell after [df[c] = v]. *)
Lemma cell_put c v cols cells i :
  length cells = length cols ->
  cell i (put c v cols cells)
  = if decide (set_labels c cols !! i = Some c) then v else cell i cells.
Proof.
  intros Hlen. unfold put, set_labels. case_decide as Hin.
  - by apply cell_overwrite.
  - unfold cell. destruct (decide (i < length cols)%nat) as [Hlt|Hge].
    + rewrite app_nth1 by lia. rewrite decide_False; [done|].
      rewrite lookup_app_l by done. intros Hi. apply Hin.
      apply list_elem_of_lookup. by exists i.
    + rewrite app_nth2 by lia. rewrite Hlen.
      destruct (decide (i = length cols)) as [->|Hne].
      * rewrite Nat.sub_diag. simpl. rewrite decide_True; [done|].
        rewrite lookup_app_r by done. by rewrite Nat.sub_diag.
      * rewrite decide_False.
        -- rewrite (nth_overflow cells) by lia.
           destruct (i - length cols)%nat as [|[|k]] eqn:E; simpl; (lia || done).
        -- rewrite lookup_app_r by lia.
           destruct (i - length cols)%nat as [|k] eqn:E; [lia|]. by destruct k.
Qed.

Lemma cell_put_eq c v cols cells i :
  length cells = length cols -> locate c (set_labels c cols) = Ok i ->
  cell i (put c v cols cells) = v.
Proof.
  intros Hlen Hi. rewrite cell_put by done.
  by rewrite decide_True by by apply locate_lookup.
Qed.

Lemma cell_put_ne c c' v cols cells i :
  length cells = length cols -> c' <> c -> locate c' cols = Ok i ->
  cell i (put c v cols cells) = cell i cells.
Proof.
  intros Hlen Hne Hi. rewrite cell_put by done.
  rewrite decide_False; [done|]. apply locate_lookup in Hi.
  intros H. apply Hne.
  destruct (decide (c ∈ cols)) as [Hin|Hin]; unfold set_labels in H.
  - rewrite decide_True in H by done. congruence.
  - rewrite decide_False in H by done.
    rewrite lookup_app_l in H by (by eapply lookup_lt_Some). congruence.
Qed.

End FrameFacts.

(** ** Null harmonizer and peer classifier *)

Section StageFacts.
Import Loader Stages.

Lemma lookup_map {A B} (f : A -> B) (l : list A) (k : nat) :
  map f l !! k = f <$> (l !! k).
Proof. exact (list_lookup_fmap f l k). Qed.

Lemma replace_cell_null_replace v :
  replace_cell null_replace v = if decide (v ∈ sentinels) then VNull else v.
Proof.
  unfold replace_cell, null_replace, sentinels.
  rewrite !lookup_insert, lookup_empty.
  destruct (decide (v ∈ _)) as [Hin|Hout].
  - repeat (apply elem_of_cons in Hin as [->|Hin]; [by repeat case_decide|]).
    by apply elem_of_nil in Hin.
  - repeat (case_decide; [subst v; exfalso; apply Hout; set_solver|]). done.
Qed.

(** C9. The null harmonizer works on every cell of every column alike: a
    cell equal to one of the tokens [#], [*] and [**] becomes null, any
    other cell keeps its value; rows, index labels and column labels stay
    as they are. *)
Theorem map_nulls_cells (df : frame) (k i j : nat) (cells : list val) (v : val) :
  rows df !! k = Some (i, cells) ->
  cells !! j = Some v ->
  columns (map_nulls df) = columns df /\
  length (rows (map_nulls df)) = length (rows df) /\
  exists cells',
    rows (map_nulls df) !! k = Some (i, cells') /\
    length cells' = length cells /\
    (v ∈ sentinels -> cells' !! j = Some VNull) /\
    (v ∉ sentinels -> cells' !! j = Some v).
Proof.
  intros Hk Hj. unfold map_nulls; simpl.
  split; [done|]. split; [by rewrite length_map|].
  exists (map (replace_cell null_replace) cells).
  rewrite (lookup_map _ (rows df)), Hk. split; [done|].
  split; [by rewrite length_map|].
  rewrite (lookup_map _ cells), Hj. simpl. rewrite replace_cell_null_replace.
  split; intros Hv; by case_decide.
Qed.

Lemma map_nulls_cells_witness :
  columns (map_nulls (ex_batch "**")) = columns (ex_batch "**") /\
  length (rows (map_nulls (ex_batch "**"))) = length (rows (ex_batch "**")) /\
  exists cells',
    rows (map_nulls (ex_batch "**")) !! 0%nat = Some (0%nat, cells') /\
    length cells' = 6%nat /\
    (VStr "**" ∈ sentinels -> cells' !! 2%nat = Some VNull) /\
    (VStr "**" ∉ sentinels -> cells' !! 2%nat = Some (VStr "**")).
Proof.
  apply (map_nulls_cells (ex_batch "**") 0 0 2
           [VStr "28140"; VStr "Kansas City, MO-KS"; VStr "**";
            VStr "Computer Programmers"; VStr "detailed"; VNum 2750] (VStr "**"));
    reflexivity.
Defined.

Example map_nulls_double_star : replace_cell null_replace (VStr "**") = VNull.
Proof. reflexivity. Qed.

Example map_nulls_number_text : replace_cell null_replace (VStr "5.2") = VStr "5.2".
Proof. reflexivity. Qed.

Lemma getcol_ok c df i :
  locate c (columns df) = Ok i -> getcol c df = Ok (fun r : row => cell i r.2).
Proof. unfold getcol. by intros ->. Qed.

Lemma locate_peer_type_after cols :
  (length (positions "peer_type" cols) <= 1)%nat ->
  exists p, positions "peer_type" (set_labels "peer_type" cols) = [p].
Proof.
  intros H. rewrite positions_set_labels_eq. case_decide as Hin; [|by eexists].
  destruct (positions "peer_type" cols) as [|p [|? ?]] eqn:E.
  - apply positions_nil in E. done.
  - by exists p.
  - simpl in H. lia.
Qed.

Lemma set_labels_idem c cols : set_labels c (set_labels c cols) = set_labels c cols.
Proof.
  unfold set_labels at 1. rewrite decide_True; [done|].
  unfold set_labels. case_decide; [done|]. set_solver.
Qed.

(** C7. With a loaded peer lookup, every record of a batch that has an
    [area] column (and no repeated [peer_type] column) leaves the peer
    classifier with a [peer_type] that is not null: the label the lookup
    holds for the record's area when the area is a key of the lookup, and
    the catch-all label [All Other MSA] when it is not.  (The lookup
    holds labels; a null stored in it is filled with the catch-all label
    like an absent area.) *)
Theorem map_peer_type_labels (df : frame) (d : dict) (a : nat) :
  rect df ->
  locate "area" (columns df) = Ok a ->
  (length (positions "peer_type" (columns df)) <= 1)%nat ->
  exists out p,
    map_peer_type df (Some d) = Ok out /\
    locate "peer_type" (columns out) = Ok p /\
    length (rows out) = length (rows df) /\
    forall k i cells, rows df !! k = Some (i, cells) ->
      exists cells',
        rows out !! k = Some (i, cells') /\
        cell p cells' <> VNull /\
        (forall v, d !! cell a cells = Some v -> v <> VNull -> cell p cells' = v) /\
        (d !! cell a cells = None -> cell p cells' = catch_all).
Proof.
  intros Hrect Ha Hp. unfold map_peer_type.
  rewrite (getcol_ok _ _ _ Ha). simpl.
  destruct (locate_peer_type_after _ Hp) as [p Hpos]. rewrite Hpos.
  eexists _, p. split; [done|]. simpl. rewrite set_labels_idem.
  split; [unfold locate; by rewrite Hpos|].
  split; [by rewrite !length_map|].
  intros k i cells Hk. eexists. rewrite !lookup_map, Hk. simpl.
  split; [done|].
  assert (length cells = length (columns df)) as Hlen.
  { unfold rect in Hrect. rewrite Forall_forall in Hrect.
    apply (Hrect (i, cells)). apply list_elem_of_lookup. by exists k. }
  assert (locate "peer_type" (set_labels "peer_type" (columns df)) = Ok p) as Hloc
    by (unfold locate; by rewrite Hpos).
  rewrite cell_put; [|by rewrite length_put].
  rewrite set_labels_idem.
  rewrite decide_True by by apply locate_lookup.
  rewrite (cell_put_eq _ _ _ _ _ Hlen Hloc).
  unfold fillna, series_map.
  destruct (d !! cell a cells) as [v|]; simpl.
  - destruct v; simpl; (split; [done|]); (split; [intros ? [= <-] ?; done | done]).
  - split; [done|]. split; [done|]. done.
Qed.

Lemma map_peer_type_labels_witness :
  exists out p,
    map_peer_type (ex_batch "15-1131")
                  (Some (py_dict [VStr "28140"] [VStr "Kansas City"])) = Ok out /\
    locate "peer_type" (columns out) = Ok p /\
    length (rows out) = length (rows (ex_batch "15-1131")) /\
    forall k i cells, rows (ex_batch "15-1131") !! k = Some (i, cells) ->
      exists cells',
        rows out !! k = Some (i, cells') /\
        cell p cells' <> VNull /\
        (forall v, py_dict [VStr "28140"] [VStr "Kansas City"] !! cell 0 cells = Some v ->
                   v <> VNull -> cell p cells' = v) /\
        (py_dict [VStr "28140"] [VStr "Kansas City"] !! cell 0 cells = None ->
         cell p cells' = catch_all).
Proof.
  apply (map_peer_type_labels (ex_batch "15-1131")
           (py_dict [VStr "28140"] [VStr "Kansas City"]) 0).
  - repeat constructor.
  - reflexivity.
  - vm_compute. lia.
Defined.

End StageFacts.

(** ** Lists of rows *)

Section RowListFacts.
Context {A B : Type}.

Lemma map_ext_elem (f g : A -> B) (l : list A) :
  (forall x, x ∈ l -> f x = g x) -> map f l = map g l.
Proof.
  induction l as [|x l IH]; intros H; simpl; [done|].
  rewrite (H x) by left. rewrite IH; [done|]. intros z Hz. apply H. by right.
Qed.

Lemma filter_map_bool (h : A -> B) (p : B -> bool) (q : A -> bool) (l : list A) :
  (forall x, x ∈ l -> p (h x) = q x) ->
  filter (fun r => p r = true) (map h l) = map h (filter (fun r => q r = true) l).
Proof.
  induction l as [|x l IH]; intros H; simpl; [done|].
  rewrite !filter_cons. rewrite (H x) by left.
  rewrite IH by (intros z Hz; apply H; by right).
  by destruct (decide (q x = true)).
Qed.

Lemma filter_all_of_length (p : A -> bool) (l : list A) :
  length (filter (fun r => p r = true) l) = length l ->
  forall x, x ∈ l -> p x = true.
Proof.
  induction l as [|x l IH]; intros H z Hz; [by apply elem_of_nil in Hz|].
  rewrite filter_cons in H. destruct (decide (p x = true)) as [Hx|Hx].
  - simpl in H. apply elem_of_cons in Hz as [->|Hz]; [done|].
    apply IH; [lia | done].
  - pose proof (length_filter (fun r => p r = true) l). simpl in H. lia.
Qed.

Lemma filter_all (p : A -> bool) (l : list A) :
  (forall x, x ∈ l -> p x = true) -> filter (fun r => p r = true) l = l.
Proof.
  induction l as [|x l IH]; intros H; [done|].
  rewrite filter_cons_True by (apply H; left).
  f_equal. apply IH. intros z Hz. apply H. by right.
Qed.

Lemma zip_with_map_r {C} (f : A -> B -> C) (g : A -> B) (l : list A) :
  zip_with f l (map g l) = map (fun x => f x (g x)) l.
Proof. induction l as [|x l IH]; simpl; [done|]. by rewrite IH. Qed.

End RowListFacts.

Section AlignFacts.

Lemma at_label_absent i (s : list (nat * val)) :
  i ∉ map fst s -> at_label i s = VNull.
Proof.
  induction s as [|[j v] s IH]; simpl; intros H; [done|].
  rewrite decide_False by (intros ->; apply H; left).
  apply IH. intros Hi. apply H. by right.
Qed.

Lemma map_fst_filter_sub (p : row -> bool) (l : list row) i :
  i ∈ map fst (filter (fun r => p r = true) l) -> i ∈ map fst l.
Proof.
  intros H. apply list_elem_of_In, in_map_iff in H as (r & <- & Hr).
  apply list_elem_of_In, list_elem_of_filter in Hr as [_ Hr].
  apply list_elem_of_In, in_map. by apply list_elem_of_In.
Qed.

Lemma NoDup_map_fst_filter (p : row -> bool) (l : list row) :
  NoDup (map fst l) -> NoDup (map fst (filter (fun r => p r = true) l)).
Proof.
  induction l as [|x l IH]; simpl; intros H; [constructor|].
  apply NoDup_cons in H as [Hx Hl]. rewrite filter_cons.
  destruct (decide (p x = true)); simpl; [|by apply IH].
  apply NoDup_cons. split; [|by apply IH].
  intros Hin. apply Hx. by eapply map_fst_filter_sub.
Qed.

Lemma at_label_selected (p : row -> bool) (f : row -> val) (l : list row) (r : row) :
  NoDup (map fst l) -> r ∈ l ->
  at_label r.1 (map (fun x : row => (x.1, f x)) (filter (fun x => p x = true) l))
  = if p r then f r else VNull.
Proof.
  induction l as [|x l IH]; simpl; intros Hnd Hr; [by apply elem_of_nil in Hr|].
  apply NoDup_cons in Hnd as [Hx Hl]. rewrite filter_cons.
  apply elem_of_cons in Hr as [->|Hr].
  - destruct (decide (p x = true)) as [Hp|Hp]; simpl.
    + by rewrite decide_True, Hp.
    + apply not_true_is_false in Hp. rewrite Hp.
      apply at_label_absent. rewrite map_map. simpl.
      intros Hin. apply Hx. by eapply map_fst_filter_sub.
  - assert (x.1 <> r.1) as Hne.
    { intros E. apply Hx. rewrite E. apply list_elem_of_In, in_map.
      by apply list_elem_of_In. }
    destruct (decide (p x = true)); simpl.
    + rewrite decide_False by done. by apply IH.
    + by apply IH.
Qed.

(** Assigning the Series computed on the selected rows of [df]: with
    distinct index labels every selected row receives its own value and
    every other row NaN. *)
Lemma setitem_aligned_selected c (p : row -> bool) (f : row -> val) (df : frame) :
  unique_index df ->
  setitem_aligned c
    (map (fun r : row => (r.1, f r)) (filter (fun r => p r = true) (rows df))) df
  = Ok (setitem c (fun r => if p r then f r else VNull) df).
Proof.
  intros Hnd. unfold setitem_aligned, setitem.
  rewrite map_map. simpl.
  destruct (decide (map fst (filter _ (rows df)) = map fst (rows df))) as [E|_].
  - assert (forall x, x ∈ rows df -> p x = true) as Hall.
    { apply filter_all_of_length. apply (f_equal length) in E.
      by rewrite !length_map in E. }
    rewrite (filter_all p (rows df) Hall), zip_with_map_r. simpl.
    do 2 f_equal. apply map_ext_elem. intros x Hx. by rewrite (Hall x Hx).
  - rewrite decide_True by (by apply NoDup_map_fst_filter).
    do 2 f_equal. apply map_ext_elem. intros x Hx.
    by rewrite (at_label_selected p f (rows df) x Hnd Hx).
Qed.

End AlignFacts.

Section MapSocFacts.
Import Loader Stages.

Lemma overwrite_absent c v cols cells :
  c ∉ cols -> overwrite c v cols cells = cells.
Proof.
  revert cells. induction cols as [|l cols IH]; intros [|x cells] H; simpl; try done.
  rewrite decide_False by (intros ->; apply H; left).
  rewrite IH; [done|]. intros Hin. apply H. by right.
Qed.

Lemma overwrite_app c v xs ys cs ds :
  length cs = length xs ->
  overwrite c v (xs ++ ys) (cs ++ ds) = overwrite c v xs cs ++ overwrite c v ys ds.
Proof.
  revert cs. induction xs as [|l xs IH]; intros [|x cs] H; simplify_eq/=; [done|].
  by rewrite IH.
Qed.

Lemma overwrite_twice c v w cols cells :
  overwrite c w cols (overwrite c v cols cells) = overwrite c w cols cells.
Proof.
  revert cells. induction cols as [|l cols IH]; intros [|x cells]; simpl; try done.
  rewrite IH. by destruct (decide (l = c)).
Qed.

(** Assigning a column twice keeps the second value. *)
Lemma put_twice c v w cols cells :
  length cells = length cols ->
  put c w (set_labels c cols) (put c v cols cells) = put c w cols cells.
Proof.
  intros Hlen. unfold put, set_labels. destruct (decide (c ∈ cols)) as [Hin|Hin].
  - rewrite decide_True by done. apply overwrite_twice.
  - rewrite decide_True by set_solver.
    rewrite overwrite_app by done. rewrite overwrite_absent by done.
    simpl. by rewrite decide_True.
Qed.

Lemma rect_row df k i cells :
  rect df -> rows df !! k = Some (i, cells) -> length cells = length (columns df).
Proof.
  unfold rect. rewrite Forall_forall. intros H Hk.
  apply (H (i, cells)). apply list_elem_of_lookup. by exists k.
Qed.

Lemma rect_elem df (r : row) :
  rect df -> r ∈ rows df -> length r.2 = length (columns df).
Proof. unfold rect. rewrite Forall_forall. intros H Hr. by apply H. Qed.

Lemma locate_after_set c cols :
  (length (positions c cols) <= 1)%nat -> exists p, locate c (set_labels c cols) = Ok p.
Proof.
  intros H. unfold locate. rewrite positions_set_labels_eq.
  case_decide as Hin; [|by eexists].
  destruct (positions c cols) as [|p [|? ?]] eqn:E.
  - by apply positions_nil in E.
  - by exists p.
  - simpl in H. lia.
Qed.

End MapSocFacts.

Section MapSocNormalForm.
Import Loader Stages.

Lemma pd_concat_same a b :
  columns a = columns b -> pd_concat a b = Ok (Frame (columns a) (rows a ++ rows b)).
Proof. intros H. unfold pd_concat. by rewrite decide_True. Qed.

(** What [map_soc] returns on a batch that has the three columns it reads:
    every row of the batch once, finished row by row, in the order
    matched, unmatched, not detailed. *)
Lemma map_soc_rows lk y df og oc ot :
  rect df -> unique_index df ->
  locate "o_group" (columns df) = Ok og ->
  locate "occ_code" (columns df) = Ok oc ->
  locate "occ_title" (columns df) = Ok ot ->
  (length (positions "oes_code_2019" (columns df)) <= 1)%nat ->
  map_soc df y (Some lk)
  = Ok (Frame (set_labels "oes_title_2019" (set_labels "oes_code_2019" (columns df)))
              (map (finish lk y og oc ot (columns df)) (reorder lk y og oc (rows df)))).
Proof.
  intros Hrect Huniq Hog Hoc Hot Hcode.
  destruct (locate_after_set _ _ Hcode) as [pc Hpc].
  set (cols1 := set_labels "oes_code_2019" (columns df)) in *.
  assert (locate "o_group" cols1 = Ok og) as Hog1
    by (unfold cols1; by rewrite locate_set_labels_ne).
  assert (locate "occ_code" cols1 = Ok oc) as Hoc1
    by (unfold cols1; by rewrite locate_set_labels_ne).
  assert (locate "occ_title" cols1 = Ok ot) as Hot1
    by (unfold cols1; by rewrite locate_set_labels_ne).
  assert (set_labels "oes_code_2019" cols1 = cols1) as Hidem by apply set_labels_idem.
  unfold map_soc. cbn [mbind result_bind].
  rewrite (getcol_ok _ _ _ Hog). cbn [mbind result_bind mret result_ret].
  rewrite (getcol_ok _ _ _ Hoc). cbn [mbind result_bind mret result_ret].
  rewrite (setitem_aligned_selected "oes_code_2019"
             (detailed (fun r : row => cell og r.2))
             (fun r : row => series_map (soc_mappings_for y lk) (cell oc r.2)) df Huniq).
  cbn [mbind result_bind mret result_ret].
  set (g := fun r : row => if detailed _ r then _ else VNull).
  set (df1 := setitem "oes_code_2019" g df).
  rewrite (getcol_ok "oes_code_2019" df1 pc Hpc). cbn [mbind result_bind mret result_ret].
  rewrite (getcol_ok "o_group" df1 og Hog1). cbn [mbind result_bind mret result_ret].
  set (df_matched := select (fun r => negb _ && _) df1).
  set (df_missing := select (fun r => isnull _ && _) df1).
  set (df_totals := select (fun r => negb (detailed _ r)) df1).
  assert (columns df_matched = cols1) as Hcm by done.
  assert (columns df_missing = cols1) as Hcx by done.
  assert (columns df_totals = cols1) as Hct by done.
  rewrite (getcol_ok "occ_code" df_missing oc Hoc1). cbn [mbind result_bind mret result_ret].
  rewrite (getcol_ok "occ_code" df_totals oc Hoc1). cbn [mbind result_bind mret result_ret].
  rewrite (getcol_ok "occ_title" (setitem _ _ df_totals) ot);
    [|cbn [columns setitem]; by rewrite Hct, Hidem].
  cbn [mbind result_bind mret result_ret].
  rewrite (pd_concat_same df_matched (setitem _ _ df_missing));
    [|cbn [columns setitem]; by rewrite Hcm, Hcx, Hidem].
  cbn [mbind result_bind mret result_ret].
  rewrite (getcol_ok "oes_code_2019" (Frame _ _) pc); [|by rewrite Hcm].
  cbn [mbind result_bind mret result_ret].
  rewrite pd_concat_same; [|cbn [columns setitem]; by rewrite Hcm, Hct, Hidem].
  cbn [columns rows setitem]. rewrite Hcm, Hcx, Hct, Hidem. f_equal. f_equal.
  set (h := fun r : row => (r.1, put "oes_code_2019" (g r) (columns df) r.2)).
  assert (forall x : row, x ∈ rows df ->
            cell pc (h x).2 = g x /\ cell og (h x).2 = cell og x.2 /\
            cell oc (h x).2 = cell oc x.2 /\ cell ot (h x).2 = cell ot x.2 /\
            length (h x).2 = length cols1) as Hh.
  { intros x Hx. pose proof (rect_elem df x Hrect Hx) as Hlen. simpl.
    rewrite (cell_put_eq _ _ _ _ _ Hlen Hpc).
    rewrite (cell_put_ne _ "o_group" _ _ _ _ Hlen) by done.
    rewrite (cell_put_ne _ "occ_code" _ _ _ _ Hlen) by done.
    rewrite (cell_put_ne _ "occ_title" _ _ _ _ Hlen) by done.
    by rewrite (length_put _ _ _ _ Hlen). }
  assert (forall x : row, g x = if is_det og x then primary lk y oc x else VNull) as Hg by done.
  change (rows df_matched) with
    (filter (fun r : row => negb (isnull (cell pc r.2)) &&
                            detailed (fun r0 : row => cell og r0.2) r = true) (map h (rows df))).
  change (rows df_missing) with
    (filter (fun r : row => isnull (cell pc r.2) &&
                            detailed (fun r0 : row => cell og r0.2) r = true) (map h (rows df))).
  change (rows df_totals) with
    (filter (fun r : row => negb (detailed (fun r0 : row => cell og r0.2) r) = true)
            (map h (rows df))).
  rewrite (filter_map_bool h _ (fun r => negb (isnull (primary lk y oc r)) && is_det og r)).
  2:{ intros x Hx. destruct (Hh x Hx) as (E1 & E2 & _). unfold detailed, is_det, detailed.
      rewrite E1, E2, Hg. unfold is_det, detailed.
      destruct (bool_decide _); [done | by rewrite !andb_false_r]. }
  rewrite (filter_map_bool h _ (fun r => isnull (primary lk y oc r) && is_det og r)).
  2:{ intros x Hx. destruct (Hh x Hx) as (E1 & E2 & _). unfold detailed, is_det, detailed.
      rewrite E1, E2, Hg. unfold is_det, detailed.
      destruct (bool_decide _); [done | by rewrite !andb_false_r]. }
  rewrite (filter_map_bool h _ (fun r => negb (is_det og r))).
  2:{ intros x Hx. destruct (Hh x Hx) as (E1 & E2 & _). unfold detailed, is_det, detailed.
      by rewrite E2. }
  unfold reorder. rewrite !map_app, !map_map, <- app_assoc.
  f_equal; [|f_equal]; apply map_ext_elem; intros x [Hq Hx]%list_elem_of_filter;
    destruct (Hh x Hx) as (E1 & E2 & E3 & E4 & E5);
    pose proof (rect_elem df x Hrect Hx) as Hlen;
    unfold finish; simpl in *; f_equal; fold cols1.
  - apply andb_prop in Hq as [Hnn Hdet]. apply negb_true_iff in Hnn.
    rewrite E1, Hg. unfold title_of, code_of. by rewrite Hdet, Hnn.
  - apply andb_prop in Hq as [Hnull Hdet].
    rewrite E3. unfold cols1 at 1 3. rewrite (put_twice _ _ _ _ _ Hlen).
    rewrite (cell_put_eq _ _ _ _ _ Hlen Hpc).
    unfold title_of, code_of. by rewrite Hdet, Hnull.
  - apply negb_true_iff in Hq.
    rewrite E3. unfold cols1 at 1 3. rewrite (put_twice _ _ _ _ _ Hlen).
    rewrite (cell_put_ne _ "occ_title" _ _ _ _ Hlen) by done.
    unfold title_of, code_of. by rewrite Hq.
Qed.
End MapSocNormalForm.

(** ** The crosswalker on detailed records *)

Section CrosswalkFacts.
Import Loader Stages.

Lemma soc_mappings_for_legacy y lk :
  (2014 <= y <= 2016)%Z -> soc_mappings_for y lk = soc1019_dict lk.
Proof.
  intros H. unfold soc_mappings_for. rewrite decide_True; [done|].
  rewrite !elem_of_cons. lia.
Qed.

Lemma soc_mappings_for_prior y lk :
  (2017 <= y <= 2018)%Z -> soc_mappings_for y lk = oes1819_dict lk.
Proof.
  intros H. unfold soc_mappings_for. rewrite decide_False, decide_True; [done| |].
  - rewrite !elem_of_cons. lia.
  - rewrite !elem_of_cons, elem_of_nil. lia.
Qed.

Lemma soc_mappings_for_identity y lk :
  (y < 2014 \/ 2019 <= y)%Z -> soc_mappings_for y lk = oes1919_dict lk.
Proof.
  intros H. unfold soc_mappings_for.
  destruct (decide (y ∈ [2014; 2015; 2016]%Z)) as [Hin|_];
    [exfalso; revert Hin; rewrite !elem_of_cons, elem_of_nil; lia|].
  destruct (decide (y ∈ [2017; 2018]%Z)) as [Hin|_];
    [exfalso; revert Hin; rewrite !elem_of_cons, elem_of_nil; lia|].
  by case_decide.
Qed.

Lemma py_dict_snoc ks vs k v :
  length ks = length vs ->
  py_dict (ks ++ [k]) (vs ++ [v]) = <[k := v]> (py_dict ks vs).
Proof.
  intros H. unfold py_dict. rewrite zip_with_app by done.
  by rewrite foldl_app.
Qed.

(** In [dict(zip(ks, ks))] every key is mapped to itself. *)
Lemma py_dict_diag ks k v : py_dict ks ks !! k = Some v -> v = k.
Proof.
  induction ks as [|x ks IH] using rev_ind; [by unfold py_dict; simpl|].
  rewrite py_dict_snoc by done. rewrite lookup_insert.
  case_decide; [congruence|done].
Qed.

Lemma load_oes_lookup_identity read log lk k v :
  load_oes_lookup read = (log, Ok (Some lk)) ->
  oes1919_dict lk !! k = Some v -> v = k.
Proof.
  unfold load_oes_lookup. intros H.
  destruct (read_excel read) as [df|e]; simpl in H; [|by simplify_eq].
  destruct (set_columns oes_columns df) as [df'|e]; simpl in H; [|by simplify_eq].
  repeat (match type of H with context [iter_column ?c ?d] =>
            destruct (iter_column c d) as [?|?]; simpl in H; [|by simplify_eq] end).
  simplify_eq. simpl. apply py_dict_diag.
Qed.

Lemma reorder_permutation lk y og oc (l : list row) :
  Permutation (reorder lk y og oc l) l.
Proof.
  unfold reorder. induction l as [|x l IH]; [done|].
  rewrite !filter_cons.
  destruct (is_det og x) eqn:Hd, (isnull (primary lk y oc x)) eqn:Hn; simpl;
    repeat (rewrite decide_True by done || rewrite decide_False by done); simpl.
  - rewrite <- Permutation_middle. by constructor.
  - by constructor.
  - rewrite app_assoc, <- Permutation_middle, <- app_assoc. by constructor.
  - rewrite app_assoc, <- Permutation_middle, <- app_assoc. by constructor.
Qed.

Lemma map_fst_finish lk y og oc ot cols (l : list row) :
  map fst (map (finish lk y og oc ot cols) l) = map fst l.
Proof. rewrite map_map. by apply map_ext. Qed.

End CrosswalkFacts.

Section CrosswalkClaims.
Import Loader Stages.

(** C1, as amended.  For a batch that has the columns [o_group],
    [occ_code] and [occ_title], a crosswalk built by the loader and any
    report year, the crosswalker returns every record of the batch once.
    For a detailed record the selected mapping is the legacy map for the
    report years 2014 to 2016, the prior-generation map for 2017 and 2018,
    and the identity map for every other year, before 2014 as well as from
    2019 on.  The resolved code is the value of the selected mapping at
    the record's code when there is one and it is not null; otherwise it
    is the value of the prior-generation map at the record's code, null
    when there is none.  A record with a null resolved code stays in the
    batch, with a null resolved title. *)
Theorem map_soc_detailed_code
    (read : result sheet) (log : list msg) (lk : soc_lookup)
    (df : frame) (y : Z) (og oc ot k i : nat) (cells : list val) :
  load_oes_lookup read = (log, Ok (Some lk)) ->
  rect df -> unique_index df ->
  locate "o_group" (columns df) = Ok og ->
  locate "occ_code" (columns df) = Ok oc ->
  locate "occ_title" (columns df) = Ok ot ->
  (length (positions "oes_code_2019" (columns df)) <= 1)%nat ->
  (length (positions "oes_title_2019" (columns df)) <= 1)%nat ->
  rows df !! k = Some (i, cells) ->
  cell og cells = VStr "detailed" ->
  exists out pc pt cells' sel,
    map_soc df y (Some lk) = Ok out /\
    locate "oes_code_2019" (columns out) = Ok pc /\
    locate "oes_title_2019" (columns out) = Ok pt /\
    Permutation (map fst (rows out)) (map fst (rows df)) /\
    (i, cells') ∈ rows out /\
    ((2014 <= y <= 2016)%Z -> sel = soc1019_dict lk) /\
    ((2017 <= y <= 2018)%Z -> sel = oes1819_dict lk) /\
    ((y < 2014 \/ 2019 <= y)%Z -> sel = oes1919_dict lk) /\
    (forall v, sel !! cell oc cells = Some v -> v <> VNull -> cell pc cells' = v) /\
    (sel !! cell oc cells = None \/ sel !! cell oc cells = Some VNull ->
       cell pc cells' = default VNull (oes1819_dict lk !! cell oc cells)) /\
    (cell pc cells' = VNull -> cell pt cells' = VNull).
Proof.
  intros Hload Hrect Huniq Hog Hoc Hot Hcode Htitle Hk Hdet.
  pose proof (map_soc_rows lk y df og oc ot Hrect Huniq Hog Hoc Hot Hcode) as Hout.
  destruct (locate_after_set _ _ Hcode) as [pc Hpc].
  set (cols1 := set_labels "oes_code_2019" (columns df)) in *.
  assert (length (positions "oes_title_2019" cols1) <= 1)%nat as Htitle1
    by (unfold cols1; by rewrite positions_set_labels_ne).
  destruct (locate_after_set _ _ Htitle1) as [pt Hpt].
  pose proof (rect_row df k i cells Hrect Hk) as Hlen.
  assert ((i, cells) ∈ rows df) as Hin by (apply list_elem_of_lookup; by exists k).
  assert (is_det og (i, cells) = true) as Hd
    by (unfold is_det, detailed; simpl; by apply bool_decide_eq_true).
  set (r' := finish lk y og oc ot (columns df) (i, cells)).
  exists (Frame (set_labels "oes_title_2019" cols1)
                (map (finish lk y og oc ot (columns df)) (reorder lk y og oc (rows df)))),
         pc, pt, r'.2, (soc_mappings_for y lk).
  split; [exact Hout|]. cbn [columns rows].
  split; [by rewrite locate_set_labels_ne|].
  split; [exact Hpt|].
  split; [rewrite map_fst_finish; apply Permutation_map, reorder_permutation|].
  split.
  { change (i, r'.2) with r'. apply list_elem_of_In, in_map, list_elem_of_In.
    by rewrite (reorder_permutation lk y og oc (rows df)). }
  split; [apply soc_mappings_for_legacy|].
  split; [apply soc_mappings_for_prior|].
  split; [apply soc_mappings_for_identity|].
  assert (cell pc r'.2 = code_of lk y og oc (i, cells)) as Ecode.
  { unfold r', finish. cbn [fst snd]. fold cols1.
    rewrite (cell_put_ne "oes_title_2019" "oes_code_2019" _ cols1 _ pc);
      [|by apply length_put|done|done].
    by apply cell_put_eq. }
  assert (cell pt r'.2 = title_of lk y og oc ot (i, cells)) as Etitle.
  { unfold r', finish. cbn [fst snd]. fold cols1.
    apply cell_put_eq; [by apply length_put | done]. }
  rewrite Ecode, Etitle. unfold title_of, code_of. rewrite Hd.
  unfold primary, series_map. cbn [snd].
  split; [|split].
  - intros v -> Hv. simpl. by destruct v.
  - intros [->| ->]; by simpl.
  - intros ->. simpl.
    destruct (oes1919_dict lk !! VNull) as [w|] eqn:E; [|done].
    by apply (load_oes_lookup_identity _ _ _ _ _ Hload) in E as ->.
Qed.

End CrosswalkClaims.

(** ** Worked batches *)

Section Examples.
Import Loader Stages.

Lemma map_soc_detailed_code_witness :
  exists out pc pt cells' sel,
    map_soc (ex_batch "15-1131") 2016 (Some ex_soc_lookup) = Ok out /\
    locate "oes_code_2019" (columns out) = Ok pc /\
    locate "oes_title_2019" (columns out) = Ok pt /\
    Permutation (map fst (rows out)) (map fst (rows (ex_batch "15-1131"))) /\
    (0%nat, cells') ∈ rows out /\
    ((2014 <= 2016 <= 2016)%Z -> sel = soc1019_dict ex_soc_lookup) /\
    ((2017 <= 2016 <= 2018)%Z -> sel = oes1819_dict ex_soc_lookup) /\
    ((2016 < 2014 \/ 2019 <= 2016)%Z -> sel = oes1919_dict ex_soc_lookup) /\
    (forall v, sel !! VStr "15-1131" = Some v -> v <> VNull -> cell pc cells' = v) /\
    (sel !! VStr "15-1131" = None \/ sel !! VStr "15-1131" = Some VNull ->
       cell pc cells' = default VNull (oes1819_dict ex_soc_lookup !! VStr "15-1131")) /\
    (cell pc cells' = VNull -> cell pt cells' = VNull).
Proof.
  apply (map_soc_detailed_code (Ok ex_crosswalk) [SocLoaded] ex_soc_lookup
           (ex_batch "15-1131") 2016 4 2 3 0 0
           [VStr "28140"; VStr "Kansas City, MO-KS"; VStr "15-1131";
            VStr "Computer Programmers"; VStr "detailed"; VNum 2750]).
  - reflexivity.
  - repeat constructor.
  - unfold unique_index. by_compute.
  - reflexivity.
  - reflexivity.
  - reflexivity.
  - vm_compute. lia.
  - vm_compute. lia.
  - reflexivity.
  - reflexivity.
Defined.

(** C1 as stated fails for a report year below the legacy cutoff that is
    not one of 2014, 2015, 2016: for 2013 the identity map is selected, not
    the legacy map.  The legacy map sends 15-1131 to 15-1251; the record of
    a 2013 file with code 15-1131 gets a null code. *)
Lemma map_soc_year_2013_not_legacy :
  (2013 <= 2016)%Z /\
  soc1019_dict ex_soc_lookup !! VStr "15-1131" = Some (VStr "15-1251") /\
  exists cells',
    map_soc (ex_batch "15-1131") 2013 (Some ex_soc_lookup)
    = Ok (Frame (ex_columns ++ ["oes_code_2019"; "oes_title_2019"]) [(0%nat, cells')]) /\
    cell 6 cells' = VNull /\
    cell 6 cells' <> VStr "15-1251".
Proof.
  split; [lia|]. split; [reflexivity|].
  eexists. split; [vm_compute; reflexivity|]. split; [reflexivity|discriminate].
Qed.

(** C2 at a failing input: the title is looked up in the identity map
    [soc_lookup['1919']], not in the title map [soc_lookup['19']], so the
    resolved title of a 2019 record with code 15-1251 is the text
    [15-1251], while the title map holds [Computer Programmers]. *)
Theorem map_soc_title_from_identity_map :
  oes19_dict ex_soc_lookup !! VStr "15-1251" = Some (VStr "Computer Programmers") /\
  exists cells',
    map_soc (ex_batch "15-1251") 2019 (Some ex_soc_lookup)
    = Ok (Frame (ex_columns ++ ["oes_code_2019"; "oes_title_2019"]) [(0%nat, cells')]) /\
    cell 6 cells' = VStr "15-1251" /\
    cell 7 cells' = VStr "15-1251" /\
    cell 7 cells' <> VStr "Computer Programmers".
Proof.
  split; [reflexivity|].
  eexists. split; [vm_compute; reflexivity|].
  split; [reflexivity|]. split; [reflexivity|discriminate].
Qed.

End Examples.

(** ** The driver *)

Section DriverFacts.
Import Loader Stages Normalizer YearPattern Driver.

Lemma io_bind_raise {A B} (m : io A) (f : A -> io B) e :
  m.2 = Raise e -> (m ≫= f).2 = Raise e.
Proof. destruct m as [l [a|e']]; simpl; by intros [= ->]. Qed.

Lemma io_bind_ok {A B} (m : io A) (f : A -> io B) l a :
  m = (l, Ok a) -> m ≫= f = (l ++ (f a).1, (f a).2).
Proof. intros ->. simpl. by destruct (f a). Qed.

Lemma prepare_file_unparsable soc msa path file :
  search path = None ->
  exists e, (prepare_file soc msa (path, file)).2 = Raise e /\
            (forall sh, file = Ok sh -> e = TypeError).
Proof.
  intros Hs. unfold prepare_file, report_year_of. cbn [fst snd]. rewrite Hs.
  destruct file as [sh|e]; simpl.
  - by exists TypeError.
  - exists e. split; [done|]. by intros sh [=].
Qed.

Lemma merge_files_raise soc msa f files acc :
  (exists e, (process_file soc msa f).2 = Raise e) ->
  f ∈ files ->
  exists e, (merge_files soc msa files acc).2 = Raise e.
Proof.
  intros [e He] Hin. revert acc.
  induction files as [|g files IH]; intros acc; [by apply elem_of_nil in Hin|].
  cbn [merge_files].
  destruct (process_file soc msa g) as [l [P|e']] eqn:Eg; [|by exists e'].
  erewrite io_bind_ok; [|done]. cbn [snd].
  destruct (pd_concat acc P) as [acc'|e']; [|by exists e'].
  simpl. apply elem_of_cons in Hin as [->|Hin].
  - rewrite Eg in He. discriminate He.
  - destruct (IH Hin acc') as [e'' He'']. exists e''.
    destruct (merge_files soc msa files acc') as [l' r']. exact He''.
Qed.

(** The loaders never raise. *)
Lemma load_oes_lookup_returns file :
  exists l o, load_oes_lookup file = (l, Ok o).
Proof. unfold load_oes_lookup. destruct (_ ≫= _); by eexists _, _. Qed.

Lemma load_msa_lookup_returns file :
  exists l o, load_msa_lookup file = (l, Ok o).
Proof. unfold load_msa_lookup. destruct (_ ≫= _); by eexists _, _. Qed.

(** C4, as amended.  When the path of an input file does not match the
    year pattern, the processing of that file fails with an exception that
    nothing catches (a [TypeError] once the file has been read), and a run
    over a folder that holds such a file does not complete: it raises and
    produces no partition. *)
Theorem unparsable_name_aborts_run (path : string) (file : result sheet) :
  search path = None ->
  (forall soc msa, exists e,
      (prepare_file soc msa (path, file)).2 = Raise e /\
      (forall sh, file = Ok sh -> e = TypeError)) /\
  (forall data, (path, file) ∈ bls_files data ->
      exists e, (process_bls data).2 = Raise e).
Proof.
  intros Hs. split; [intros; by apply prepare_file_unparsable|].
  intros data Hin. unfold process_bls, clean_bls, merge_all.
  destruct (load_oes_lookup_returns (oes_file data)) as (l1 & soc & ->).
  destruct (load_msa_lookup_returns (msa_file data)) as (l2 & msa & ->).
  assert (exists e, (process_file soc msa (path, file)).2 = Raise e) as Hf.
  { destruct (prepare_file_unparsable soc msa path file Hs) as (e & He & _).
    exists e. unfold process_file. by apply io_bind_raise. }
  destruct (merge_files_raise soc msa _ _ empty_frame Hf Hin) as [e He].
  exists e. apply io_bind_raise, io_bind_raise.
  erewrite io_bind_ok; [|done]. cbn [snd].
  erewrite io_bind_ok; [|done]. cbn [snd]. exact He.
Qed.

End DriverFacts.

Section RunExamples.
Import Loader Stages Normalizer YearPattern Driver.

Lemma unparsable_name_aborts_run_witness :
  (forall soc msa, exists e,
      (prepare_file soc msa ("data/bls/field_descriptions.xlsx", Ok ex_bls)).2 = Raise e /\
      (forall sh, Ok ex_bls = Ok sh -> e = TypeError)) /\
  (forall data, ("data/bls/field_descriptions.xlsx", Ok ex_bls) ∈ bls_files data ->
      exists e, (process_bls data).2 = Raise e).
Proof.
  apply (unparsable_name_aborts_run "data/bls/field_descriptions.xlsx" (Ok ex_bls)).
  reflexivity.
Defined.

(** C4 as stated fails: with a file whose name has no year in the
    folder, the run stops at that file with a [TypeError]; the file that
    follows is never processed and nothing is produced, although the run
    over that other file alone completes. *)
Lemma unparsable_name_stops_run :
  process_bls ex_data_unnamed
  = ([SocLoaded; MsaLoaded; Processing "data/bls/field_descriptions.xlsx";
      LowerCased; Standardized], Raise TypeError) /\
  is_ok (process_bls ex_data).2 = true.
Proof. split; vm_compute; reflexivity. Qed.

(** Without a crosswalk the crosswalker fails on every batch, and without
    a peer lookup the peer classifier fails on every batch that has a
    row. *)
Lemma map_soc_without_lookup df y : map_soc df y None = Raise TypeError.
Proof. reflexivity. Qed.

Lemma map_peer_type_without_lookup df a :
  locate "area" (columns df) = Ok a -> rows df <> [] ->
  map_peer_type df None = Raise TypeError.
Proof.
  intros Ha Hrows. unfold map_peer_type. rewrite (getcol_ok _ _ _ Ha).
  cbn [mbind result_bind mret result_ret]. by destruct (rows df).
Qed.

(** C5 at a failing input: the loader reports that the peer lookup could
    not be loaded and returns [None]; the peer classifier then fails on
    the first file with a [TypeError], which ends the run.  The same
    happens in the crosswalker when the crosswalk file is missing. *)
Theorem missing_lookup_aborts_run :
  load_msa_lookup (Raise IOError) = ([MsaLoadFailed IOError], Ok None) /\
  process_bls ex_data_no_peers
  = ([SocLoaded; MsaLoadFailed IOError; Processing "data/bls/MSA_M2016_dl.xlsx";
      LowerCased; Standardized; SocApplied], Raise TypeError) /\
  load_oes_lookup (Raise IOError) = ([SocLoadFailed IOError], Ok None) /\
  process_bls ex_data_no_crosswalk
  = ([SocLoadFailed IOError; MsaLoaded; Processing "data/bls/MSA_M2016_dl.xlsx";
      LowerCased; Standardized], Raise TypeError).
Proof. repeat split; vm_compute; reflexivity. Qed.

End RunExamples.

(** ** The partitions *)

Section PartitionFacts.
Import Loader Stages Normalizer YearPattern Driver.

Lemma three_way_partition {A} (pa pb pc : A -> bool) (l : list A) :
  (forall x, x ∈ l ->
     (pa x = true /\ pb x = false /\ pc x = false) \/
     (pa x = false /\ pb x = true /\ pc x = false) \/
     (pa x = false /\ pb x = false /\ pc x = true)) ->
  Permutation (filter (fun x => pa x = true) l ++ filter (fun x => pb x = true) l ++
               filter (fun x => pc x = true) l) l.
Proof.
  induction l as [|x l IH]; intros H; [done|].
  assert (Permutation (filter (fun x => pa x = true) l ++
                       filter (fun x => pb x = true) l ++
                       filter (fun x => pc x = true) l) l) as IH'
    by (apply IH; intros z Hz; apply H; by right).
  rewrite !filter_cons.
  destruct (H x ltac:(left)) as [(-> & -> & ->)|[(-> & -> & ->)|(-> & -> & ->)]];
    repeat (rewrite decide_True by done || rewrite decide_False by done); simpl.
  - by constructor.
  - rewrite <- Permutation_middle. by constructor.
  - rewrite app_assoc, <- Permutation_middle, <- app_assoc. by constructor.
Qed.

Lemma in_group_levels og (r : row) :
  cell og r.2 ∈ levels ->
  (in_group "total" (fun x : row => cell og x.2) r = true /\
   in_group "major" (fun x : row => cell og x.2) r = false /\
   in_group "detailed" (fun x : row => cell og x.2) r = false) \/
  (in_group "total" (fun x : row => cell og x.2) r = false /\
   in_group "major" (fun x : row => cell og x.2) r = true /\
   in_group "detailed" (fun x : row => cell og x.2) r = false) \/
  (in_group "total" (fun x : row => cell og x.2) r = false /\
   in_group "major" (fun x : row => cell og x.2) r = false /\
   in_group "detailed" (fun x : row => cell og x.2) r = true).
Proof.
  unfold levels, in_group. rewrite !elem_of_cons, elem_of_nil.
  intros [->|[->|[->|[]]]]; [left|right;left|right;right]; by vm_compute.
Qed.

Lemma in_group_exclusive og g g' (r : row) :
  g <> g' ->
  in_group g (fun x : row => cell og x.2) r = true ->
  in_group g' (fun x : row => cell og x.2) r = true -> False.
Proof.
  unfold in_group. intros Hne H1%bool_decide_eq_true H2%bool_decide_eq_true.
  congruence.
Qed.

Lemma clean_bls_of_merged data l0 U :
  merge_all data = (l0, Ok U) ->
  clean_bls data
  = match locate "peer_type" (columns U) with
    | Ok p => (l0, Ok (select (not_catch_all (fun r : row => cell p r.2)) U))
    | Raise e => (l0, Raise e)
    end.
Proof.
  intros HU. unfold clean_bls, getcol. rewrite HU. simpl.
  destruct (locate "peer_type" (columns U)); simpl; by rewrite ?app_nil_r.
Qed.

Lemma split_bls_ogroup_eq df :
  split_bls_ogroup df
  = match locate "o_group" (columns df) with
    | Ok og => ([SplitDone],
                Ok (select (in_group "total" (fun r : row => cell og r.2)) df,
                    select (in_group "major" (fun r : row => cell og r.2)) df,
                    select (in_group "detailed" (fun r : row => cell og r.2)) df))
    | Raise e => ([], Raise e)
    end.
Proof.
  unfold split_bls_ogroup, getcol.
  by destruct (locate "o_group" (columns df)).
Qed.

Lemma filter_in_group g og (l : list row) :
  filter (fun r : row => cell og r.2 = VStr g) l
  = filter (fun r : row => in_group g (fun x : row => cell og x.2) r = true) l.
Proof.
  apply list_filter_iff. intros x. unfold in_group. by rewrite bool_decide_eq_true.
Qed.

Lemma in_group_in_levels og g (r : row) :
  g ∈ ["total"; "major"; "detailed"] ->
  in_group g (fun x : row => cell og x.2) r = true -> cell og r.2 ∈ levels.
Proof.
  unfold in_group, levels. intros Hg ->%bool_decide_eq_true. revert Hg.
  rewrite !elem_of_cons, !elem_of_nil. intros [->|[->|[->|[]]]]; auto.
Qed.

(** The three selections of the split hold together the records of one
    of the three levels, and no other. *)
Lemma three_levels_partition og (l : list row) :
  Permutation
    (filter (fun r : row => in_group "total" (fun x : row => cell og x.2) r = true) l ++
     filter (fun r : row => in_group "major" (fun x : row => cell og x.2) r = true) l ++
     filter (fun r : row => in_group "detailed" (fun x : row => cell og x.2) r = true) l)
    (filter (fun r : row => cell og r.2 ∈ levels) l).
Proof.
  assert (forall g, g ∈ ["total"; "major"; "detailed"] ->
            filter (fun r : row => in_group g (fun x : row => cell og x.2) r = true) l
            = filter (fun r : row => in_group g (fun x : row => cell og x.2) r = true)
                     (filter (fun r : row => cell og r.2 ∈ levels) l)) as Hsame.
  { intros g Hg. rewrite list_filter_filter. apply list_filter_iff. intros r.
    split; [|tauto]. intros Hr. split; [done|]. by eapply in_group_in_levels. }
  rewrite (Hsame "total"), (Hsame "major"), (Hsame "detailed")
    by (rewrite !elem_of_cons; auto).
  apply three_way_partition.
  intros x [Hx _]%list_elem_of_filter. by apply in_group_levels.
Qed.

Lemma filter_all_levels og (l : list row) :
  (forall r : row, r ∈ l -> cell og r.2 ∈ levels) ->
  filter (fun r : row => cell og r.2 ∈ levels) l = l.
Proof.
  induction l as [|x l IH]; intros H; [done|].
  rewrite filter_cons_True by (apply H; left).
  f_equal. apply IH. intros r Hr. apply H. by right.
Qed.

(** C3, as amended.  At the end of a run the three partitions have no
    record in common.  Splitting the merged dataset before the catch-all
    filter gives three partitions that hold together exactly the records
    of the dataset whose level is total, major or detailed (all its
    records when every record has one of these levels; a record of another
    level is in no partition).  The three partitions of the run hold
    together exactly the records with one of the three levels that pass the
    catch-all filter, and no record of a partition has the peer type
    [All Other MSA]. *)
Theorem run_partitions (data : data_folder) (l0 log : list msg) (U t m d : frame) :
  merge_all data = (l0, Ok U) ->
  process_bls data = (log, Ok (t, m, d)) ->
  exists p og t0 m0 d0,
    locate "peer_type" (columns U) = Ok p /\
    locate "o_group" (columns U) = Ok og /\
    (forall r, ~ (r ∈ rows t /\ r ∈ rows m)) /\
    (forall r, ~ (r ∈ rows t /\ r ∈ rows d)) /\
    (forall r, ~ (r ∈ rows m /\ r ∈ rows d)) /\
    split_bls_ogroup U = ([SplitDone], Ok (t0, m0, d0)) /\
    Permutation (rows t0 ++ rows m0 ++ rows d0)
                (filter (fun r : row => cell og r.2 ∈ levels) (rows U)) /\
    ((forall r : row, r ∈ rows U -> cell og r.2 ∈ levels) ->
       Permutation (rows t0 ++ rows m0 ++ rows d0) (rows U)) /\
    Permutation (rows t ++ rows m ++ rows d)
                (filter (fun r : row => cell og r.2 ∈ levels /\ cell p r.2 <> catch_all)
                        (rows U)) /\
    (forall r : row, r ∈ rows t ++ rows m ++ rows d -> cell p r.2 <> catch_all).
Proof.
  intros HU Hrun.
  unfold process_bls in Hrun. rewrite (clean_bls_of_merged data l0 U HU) in Hrun.
  destruct (locate "peer_type" (columns U)) as [p|e] eqn:Hp; [|discriminate Hrun].
  cbn [mbind io_bind] in Hrun. rewrite split_bls_ogroup_eq in Hrun.
  cbn [columns select] in Hrun.
  destruct (locate "o_group" (columns U)) as [og|e] eqn:Hog; [|discriminate Hrun].
  injection Hrun as _ <- <- <-.
  set (kept := filter (fun r : row => not_catch_all (fun x : row => cell p x.2) r = true)
                      (rows U)).
  assert (forall r : row, r ∈ kept -> cell p r.2 <> catch_all) as Hkept.
  { intros r [Hr _]%list_elem_of_filter.
    unfold not_catch_all in Hr. by apply negb_true_iff, bool_decide_eq_false in Hr. }
  exists p, og. eexists _, _, _.
  split; [done|]. split; [done|].
  split; [|split; [|split]].
  1-3: intros r [[H1 _]%list_elem_of_filter [H2 _]%list_elem_of_filter];
       by eapply (in_group_exclusive og _ _ r); [|exact H1|exact H2].
  split; [by rewrite split_bls_ogroup_eq, Hog|]. cbn [rows select].
  split; [apply three_levels_partition|].
  split; [|split].
  - intros Hlev. rewrite (three_levels_partition og (rows U)).
    by rewrite (filter_all_levels og (rows U) Hlev).
  - fold kept. rewrite (three_levels_partition og kept). unfold kept.
    rewrite list_filter_filter. erewrite list_filter_iff; [done|].
    intros x. unfold not_catch_all.
    by rewrite negb_true_iff, bool_decide_eq_false.
  - intros r Hr. apply Hkept. fold kept in Hr.
    rewrite !elem_of_app in Hr.
    destruct Hr as [Hr|[Hr|Hr]]; by apply list_elem_of_filter in Hr as [_ Hr].
Qed.

End PartitionFacts.

Section PartitionExamples.
Import Loader Stages Normalizer YearPattern Driver.

Lemma run_partitions_witness :
  exists p og t0 m0 d0,
    locate "peer_type" (columns ex_merged) = Ok p /\
    locate "o_group" (columns ex_merged) = Ok og /\
    (forall r, ~ (r ∈ rows ex_partitions.1.1 /\ r ∈ rows ex_partitions.1.2)) /\
    (forall r, ~ (r ∈ rows ex_partitions.1.1 /\ r ∈ rows ex_partitions.2)) /\
    (forall r, ~ (r ∈ rows ex_partitions.1.2 /\ r ∈ rows ex_partitions.2)) /\
    split_bls_ogroup ex_merged = ([SplitDone], Ok (t0, m0, d0)) /\
    Permutation (rows t0 ++ rows m0 ++ rows d0)
                (filter (fun r : row => cell og r.2 ∈ levels) (rows ex_merged)) /\
    ((forall r : row, r ∈ rows ex_merged -> cell og r.2 ∈ levels) ->
       Permutation (rows t0 ++ rows m0 ++ rows d0) (rows ex_merged)) /\
    Permutation (rows ex_partitions.1.1 ++ rows ex_partitions.1.2 ++ rows ex_partitions.2)
                (filter (fun r : row => cell og r.2 ∈ levels /\ cell p r.2 <> catch_all)
                        (rows ex_merged)) /\
    (forall r : row,
       r ∈ rows ex_partitions.1.1 ++ rows ex_partitions.1.2 ++ rows ex_partitions.2 ->
       cell p r.2 <> catch_all).
Proof.
  apply (run_partitions ex_data (merge_all ex_data).1 (process_bls ex_data).1
           ex_merged ex_partitions.1.1 ex_partitions.1.2 ex_partitions.2).
  - vm_compute. reflexivity.
  - vm_compute. reflexivity.
Defined.

(** C3 as stated fails on a file with the levels minor and broad: its
    four records all have a known peer type, so all four are in the merged
    dataset and pass the catch-all filter, but only the total and the
    detailed record are in a partition, before the filter as well as after
    it; the union of the partitions is not the merged dataset. *)
Lemma other_levels_in_no_partition :
  exists U t m d,
    (merge_all ex_data_groups).2 = Ok U /\
    (process_bls ex_data_groups).2 = Ok (t, m, d) /\
    (split_bls_ogroup U).2 = Ok (t, m, d) /\
    map (fun r : row => cell 6 r.2) (rows U)
    = [VStr "detailed"; VStr "total"; VStr "minor"; VStr "broad"] /\
    map (fun r : row => cell 3 r.2) (rows U)
    = [VStr "Kansas City"; VStr "Kansas City"; VStr "Kansas City"; VStr "Kansas City"] /\
    map (fun r : row => cell 6 r.2) (rows t ++ rows m ++ rows d)
    = [VStr "total"; VStr "detailed"] /\
    ~ Permutation (rows t ++ rows m ++ rows d) (rows U).
Proof.
  eexists _, _, _, _.
  split; [vm_compute; reflexivity|].
  split; [vm_compute; reflexivity|].
  split; [vm_compute; reflexivity|].
  split; [vm_compute; reflexivity|].
  split; [vm_compute; reflexivity|].
  split; [vm_compute; reflexivity|].
  intros H%Permutation_length. vm_compute in H. discriminate H.
Qed.

End PartitionExamples.

(** ** Frames without repeated labels *)

Section NoDupFacts.

Lemma NoDup_set_labels c cols : NoDup cols -> NoDup (set_labels c cols).
Proof.
  intros H. unfold set_labels. case_decide as Hin; [done|].
  apply NoDup_app. split; [done|]. split.
  - intros x Hx ->%list_elem_of_singleton. done.
  - apply NoDup_singleton.
Qed.

Lemma elem_of_set_labels c c' cols :
  c' ∈ set_labels c cols <-> c' = c \/ c' ∈ cols.
Proof.
  unfold set_labels. case_decide as Hin.
  - split; [by right | by intros [->|?]].
  - rewrite elem_of_app, list_elem_of_singleton. tauto.
Qed.

Lemma positions_from_NoDup n c cols :
  NoDup cols -> (length (positions_from n c cols) <= 1)%nat.
Proof.
  revert n. induction cols as [|l cols IH]; intros n H; simpl; [lia|].
  apply NoDup_cons in H as [Hl Hcols].
  destruct (decide (l = c)) as [->|_]; [|by apply IH].
  assert (positions_from (S n) c cols = []) as ->; [|simpl; lia].
  destruct (positions_from (S n) c cols) as [|i ps] eqn:E; [done|].
  exfalso. apply Hl. apply list_elem_of_lookup.
  assert (i ∈ positions_from (S n) c cols) as Hi by (rewrite E; left).
  apply positions_from_spec in Hi as (k & _ & Hk). by exists k.
Qed.

Lemma locate_NoDup c cols :
  NoDup cols -> c ∈ cols -> exists i, locate c cols = Ok i.
Proof.
  intros Hnd Hin. unfold locate.
  pose proof (positions_from_NoDup 0 c cols Hnd) as Hlen. fold (positions c cols) in Hlen.
  destruct (positions c cols) as [|i [|? ?]] eqn:E.
  - apply positions_nil in E. done.
  - by exists i.
  - simpl in Hlen. lia.
Qed.

Lemma at_most_once_NoDup c cols :
  NoDup cols -> (length (positions c cols) <= 1)%nat.
Proof. apply positions_from_NoDup. Qed.

(** The projection of a frame without repeated labels on labels it has. *)
Lemma wanted_positions_NoDup want cols :
  NoDup cols -> want ⊆ cols ->
  exists ps, wanted_positions want cols = Ok ps /\
             Forall2 (fun c p => locate c cols = Ok p) want ps.
Proof.
  intros Hnd. induction want as [|c want IH]; intros Hsub; simpl.
  - exists []. by split.
  - destruct (locate_NoDup c cols Hnd) as [i Hi]; [apply Hsub; left|].
    destruct IH as (ps & -> & Hps); [intros x Hx; apply Hsub; by right|].
    unfold locate in Hi.
    destruct (positions c cols) as [|j [|? ?]] eqn:E; simplify_eq.
    simpl. exists (i :: ps). split; [done|]. constructor; [|done].
    unfold locate. by rewrite E.
Qed.

Lemma project_NoDup want df :
  NoDup (columns df) -> want ⊆ columns df ->
  exists ps,
    Forall2 (fun c p => locate c (columns df) = Ok p) want ps /\
    project want df
    = Ok (Frame want (map (fun r : row => (r.1, map (fun p => cell p r.2) ps)) (rows df))).
Proof.
  intros Hnd Hsub. destruct (wanted_positions_NoDup want _ Hnd Hsub) as (ps & Hps & HF).
  exists ps. split; [done|]. unfold project. rewrite Hps. simpl. do 2 f_equal.
  clear Hps Hsub. induction HF as [|c p want ps Hc _ IH]; simpl; [done|].
  rewrite IH. f_equal. apply locate_lookup in Hc.
  apply nth_lookup_Some with (d := "") in Hc. done.
Qed.

Lemma cell_map_replace i cells :
  cell i (map (Stages.replace_cell Stages.null_replace) cells)
  = Stages.replace_cell Stages.null_replace (cell i cells).
Proof.
  unfold cell. revert i. induction cells as [|x cells IH]; intros [|i]; simpl; auto.
Qed.

End NoDupFacts.

Section PrepareFacts.

Lemma map_peer_type_rows df d a :
  rect df -> NoDup (columns df) -> locate "area" (columns df) = Ok a ->
  map_peer_type df (Some d)
  = Ok (setitem "peer_type"
          (fun r : row => fillna catch_all (series_map d (cell a r.2))) df).
Proof.
  intros Hrect Hnd Ha. unfold map_peer_type.
  rewrite (getcol_ok _ _ _ Ha). cbn [mbind result_bind mret result_ret].
  destruct (locate_peer_type_after (columns df)) as [p Hp];
    [by apply at_most_once_NoDup|].
  cbn [columns setitem]. rewrite Hp. f_equal. unfold setitem. cbn [columns rows].
  rewrite set_labels_idem. f_equal. rewrite map_map. apply map_ext_elem.
  intros r Hr. cbn [fst snd]. f_equal.
  pose proof (rect_elem df r Hrect Hr) as Hlen.
  rewrite put_twice by done. f_equal.
  rewrite cell_put_eq; [done|done|]. unfold locate. by rewrite Hp.
Qed.

Lemma prepare_file_result soc msa (f : string * result sheet) :
  (prepare_file soc msa f).2
  = (df ← read_excel f.2;
     report_year ← report_year_of f.1;
     df ← map_soc (much_consistency df) report_year soc;
     df ← map_peer_type df msa;
     project out_columns
       (setitem "report_year" (fun _ => VNum report_year) (map_nulls df))).
Proof.
  unfold prepare_file.
  destruct (read_excel f.2) as [df|e]; [|done]. cbn -[project].
  destruct (report_year_of f.1) as [y|e]; [|done]. cbn -[project].
  destruct (map_soc (much_consistency df) y soc) as [df1|e]; [|done]. cbn -[project].
  destruct (map_peer_type df1 msa) as [df2|e]; [|done]. cbn -[project].
  by destruct (project out_columns _).
Qed.

Lemma unique_index_read sh :
  unique_index (much_consistency
                  (Frame (header sh) (zip (seq 0 (length (body sh))) (body sh)))).
Proof.
  unfold unique_index, much_consistency. cbn [rows].
  change (NoDup ((zip (seq 0 (length (body sh))) (body sh)).*1)).
  rewrite fst_zip by (by rewrite length_seq). apply NoDup_seq.
Qed.

Lemma cell_nth_map {A} (f : A -> val) (l : list A) (i : nat) (x : A) :
  l !! i = Some x -> cell i (map f l) = f x.
Proof.
  intros H. unfold cell. apply nth_lookup_Some. by rewrite lookup_map, H.
Qed.

Lemma rect_map_soc_rows lk y og oc ot df :
  rect df ->
  rect (Frame (set_labels "oes_title_2019" (set_labels "oes_code_2019" (columns df)))
              (map (finish lk y og oc ot (columns df)) (reorder lk y og oc (rows df)))).
Proof.
  intros Hrect. unfold rect. cbn [columns rows]. apply Forall_map, Forall_forall.
  intros r Hr. rewrite (reorder_permutation lk y og oc (rows df)) in Hr.
  pose proof (rect_elem df r Hrect Hr) as Hlen. unfold finish. cbn [snd].
  rewrite length_put; [done|]. by apply length_put.
Qed.

(** What the loop body makes of a well-formed file, before the index is
    reset: the rows of the file in the order of the crosswalker, each with
    its index label; the level of a row is read through the null
    harmonizer. *)
Lemma prepare_file_rows lk dmsa path sh y df :
  report_year_of path = Ok y ->
  df = much_consistency (Frame (header sh) (zip (seq 0 (length (body sh))) (body sh))) ->
  rect df -> NoDup (columns df) -> input_columns ⊆ columns df ->
  exists og oc P K,
    locate "o_group" (columns df) = Ok og /\
    locate "occ_code" (columns df) = Ok oc /\
    (prepare_file (Some lk) (Some dmsa) (path, Ok sh)).2 = Ok P /\
    columns P = out_columns /\
    rows P = map K (reorder lk y og oc (rows df)) /\
    (forall r, (K r).1 = r.1) /\
    (forall r, r ∈ rows df ->
       length (K r).2 = length out_columns /\
       cell 6 (K r).2 = replace_cell null_replace (cell og r.2)).
Proof.
  intros Hy Hdf Hrect Hnd Hsub.
  assert (unique_index df) as Huniq by (rewrite Hdf; apply unique_index_read).
  destruct (locate_NoDup "o_group" _ Hnd) as [og Hog]; [apply Hsub; by_compute|].
  destruct (locate_NoDup "occ_code" _ Hnd) as [oc Hoc]; [apply Hsub; by_compute|].
  destruct (locate_NoDup "occ_title" _ Hnd) as [ot Hot]; [apply Hsub; by_compute|].
  destruct (locate_NoDup "area" _ Hnd) as [a Ha]; [apply Hsub; by_compute|].
  pose proof (map_soc_rows lk y df og oc ot Hrect Huniq Hog Hoc Hot
                (at_most_once_NoDup _ _ Hnd)) as Hsoc.
  set (cols1 := set_labels "oes_code_2019" (columns df)) in *.
  set (cols2 := set_labels "oes_title_2019" cols1) in *.
  set (out := Frame cols2 _) in Hsoc.
  assert (rect out) as Hrect2 by (by apply rect_map_soc_rows).
  assert (NoDup cols2) as Hnd2 by (by do 2 apply NoDup_set_labels).
  assert (locate "area" cols2 = Ok a) as Ha2
    by (unfold cols2, cols1; by rewrite !locate_set_labels_ne).
  assert (locate "o_group" cols1 = Ok og) as Hog1
    by (unfold cols1; by rewrite !locate_set_labels_ne).
  assert (locate "o_group" cols2 = Ok og) as Hog2
    by (unfold cols2; by rewrite !locate_set_labels_ne).
  pose proof (map_peer_type_rows out dmsa a Hrect2 Hnd2 Ha2) as Hpeer.
  set (out3 := setitem "peer_type" _ out) in Hpeer.
  set (cols3 := set_labels "peer_type" cols2).
  set (df5 := setitem "report_year" (fun _ : row => VNum y) (map_nulls out3)).
  assert (NoDup (columns df5)) as Hnd5 by (by do 2 apply NoDup_set_labels).
  assert (out_columns ⊆ columns df5) as Hsub5.
  { intros c Hc. cbn [columns df5 setitem map_nulls out3 out]. fold cols3.
    unfold cols3, cols2, cols1. rewrite !elem_of_set_labels.
    unfold out_columns in Hc.
    repeat (apply elem_of_cons in Hc as [->|Hc];
            [first [ by left | by right; left | by right; right; left
                   | by right; right; right; left
                   | do 4 right; apply Hsub; by_compute ] |]).
    by apply elem_of_nil in Hc. }
  destruct (project_NoDup out_columns df5 Hnd5 Hsub5) as (ps & Hps & Hproj).
  exists og, oc. eexists _, _.
  split; [done|]. split; [done|]. split.
  { rewrite prepare_file_result. cbn [fst snd read_excel mbind result_bind mret result_ret].
    rewrite Hy. cbn [mbind result_bind]. rewrite <- Hdf, Hsoc. cbn [mbind result_bind].
    rewrite Hpeer. cbn [mbind result_bind]. exact Hproj. }
  cbn [columns rows]. split; [done|].
  cbn [df5 out3 out rows setitem map_nulls]. rewrite !map_map.
  split; [reflexivity|]. split; [done|].
  intros r Hr. cbn [fst snd]. split.
  { rewrite length_map. by apply Forall2_length in Hps. }
  pose proof (rect_elem df r Hrect Hr) as Hlen.
  assert (exists p6, ps !! 6%nat = Some p6 /\ locate "o_group" (columns df5) = Ok p6)
    as (p6 & Hp6 & Hloc6).
  { destruct (Forall2_lookup_l _ _ _ 6%nat "o_group" Hps eq_refl) as (p6 & ? & ?).
    by exists p6. }
  rewrite (cell_nth_map _ ps 6 p6 Hp6).
  assert (p6 = og) as ->.
  { cbn [columns df5 setitem map_nulls out3 out] in Hloc6.
    rewrite !locate_set_labels_ne in Hloc6 by done. fold cols2 in Hloc6. congruence. }
  assert (length (put "oes_code_2019" (code_of lk y og oc r) (columns df) r.2)
          = length cols1) as Hl1 by (by apply length_put).
  assert (length (finish lk y og oc ot (columns df) r).2 = length cols2) as Hl2
    by (unfold finish; cbn [snd]; by apply length_put).
  rewrite (cell_put_ne "report_year" "o_group" _ cols3 _ og);
    [| rewrite length_map; by apply length_put | done
     | unfold cols3; by rewrite locate_set_labels_ne].
  rewrite cell_map_replace. f_equal.
  rewrite (cell_put_ne "peer_type" "o_group" _ cols2 _ og); [|done..].
  unfold finish. cbn [snd]. fold cols1.
  rewrite (cell_put_ne "oes_title_2019" "o_group" _ cols1 _ og); [|done..].
  by rewrite (cell_put_ne "oes_code_2019" "o_group" _ (columns df) _ og).
Qed.

End PrepareFacts.

(** ** Order of the rows *)

Section OrderFacts.

Lemma StronglySorted_seq a n : StronglySorted lt (seq a n).
Proof.
  revert a. induction n as [|n IH]; intros a; simpl; constructor; [apply IH|].
  apply Forall_forall. intros x Hx%list_elem_of_In%in_seq. lia.
Qed.

Lemma in_order_read sh :
  in_order (rows (much_consistency
                    (Frame (header sh) (zip (seq 0 (length (body sh))) (body sh))))).
Proof.
  unfold in_order, much_consistency. cbn [rows].
  change (StronglySorted lt ((zip (seq 0 (length (body sh))) (body sh)).*1)).
  rewrite fst_zip by (by rewrite length_seq). apply StronglySorted_seq.
Qed.

Lemma in_order_filter_map (K : row -> row) (Q : row -> Prop)
    `{forall r, Decision (Q r)} (l : list row) :
  (forall r, (K r).1 = r.1) -> in_order l -> in_order (filter Q (map K l)).
Proof.
  intros HK. unfold in_order. induction l as [|x l IH]; simpl; [constructor|].
  intros [Hall Hl]%StronglySorted_cons. specialize (IH Hl).
  rewrite filter_cons. destruct (decide (Q (K x))); [|done].
  simpl. apply StronglySorted_cons. split; [|done]. rewrite HK.
  apply Forall_forall. intros i Hi.
  apply list_elem_of_In, in_map_iff in Hi as (r & <- & Hr).
  apply list_elem_of_In, list_elem_of_filter in Hr as [_ Hr].
  apply list_elem_of_In, in_map_iff in Hr as (r0 & <- & Hr0).
  rewrite HK. rewrite Forall_forall in Hall. apply Hall.
  apply list_elem_of_In, in_map. done.
Qed.

Lemma in_order_filter (Q : row -> Prop) `{forall r, Decision (Q r)} (l : list row) :
  in_order l -> in_order (filter Q l).
Proof.
  intros Hl. rewrite <- (map_id l) at 1.
  by apply (in_order_filter_map (fun r => r) Q l).
Qed.

Lemma filter_map_nil {A B} (K : A -> B) (Q : B -> Prop) `{forall r, Decision (Q r)}
    (l : list A) :
  (forall x, x ∈ l -> ~ Q (K x)) -> filter Q (map K l) = [].
Proof.
  induction l as [|x l IH]; intros Hl; simpl; [done|].
  rewrite filter_cons_False by (apply Hl; left).
  apply IH. intros z Hz. apply Hl. by right.
Qed.

Lemma replace_cell_keeps_level g v :
  g ∈ ["total"; "major"; "detailed"] ->
  replace_cell null_replace v = VStr g <-> v = VStr g.
Proof.
  intros Hg. rewrite replace_cell_null_replace.
  assert (VStr g ∉ sentinels) as Hns.
  { unfold sentinels. revert Hg. rewrite !elem_of_cons, !elem_of_nil.
    intros [->|[->|[->|[]]]] [?|[?|[?|[]]]]; discriminate. }
  case_decide as Hv; [|done].
  split; [discriminate|]. intros ->. done.
Qed.

Lemma file_order_of_rows lk y og oc (l : list row) (P : frame) (K : row -> row) :
  in_order l ->
  rows P = map K (reorder lk y og oc l) ->
  (forall r, (K r).1 = r.1) ->
  (forall r, r ∈ l -> cell 6 (K r).2 = replace_cell null_replace (cell og r.2)) ->
  in_order (part "total" P) /\ in_order (part "major" P) /\
  exists A B,
    part "detailed" P = A ++ B /\ in_order A /\ in_order B /\
    (forall r', r' ∈ A ->
       exists r, r ∈ l /\ r.1 = r'.1 /\ isnull (primary lk y oc r) = false) /\
    (forall r', r' ∈ B ->
       exists r, r ∈ l /\ r.1 = r'.1 /\ isnull (primary lk y oc r) = true).
Proof.
  intros Hord Hrows HK H6.
  set (L1 := filter (fun r => negb (isnull (primary lk y oc r)) && is_det og r = true) l).
  set (L2 := filter (fun r => isnull (primary lk y oc r) && is_det og r = true) l).
  set (L3 := filter (fun r => negb (is_det og r) = true) l).
  assert (rows P = map K L1 ++ map K L2 ++ map K L3) as HP
    by (by rewrite Hrows; unfold reorder; rewrite !map_app).
  assert (forall x, x ∈ L1 ->
            x ∈ l /\ isnull (primary lk y oc x) = false /\ cell og x.2 = VStr "detailed")
    as HL1.
  { intros x [Hx Hin]%list_elem_of_filter. apply andb_prop in Hx as [Hn Hd].
    apply negb_true_iff in Hn. unfold is_det, detailed in Hd.
    by apply bool_decide_eq_true in Hd. }
  assert (forall x, x ∈ L2 ->
            x ∈ l /\ isnull (primary lk y oc x) = true /\ cell og x.2 = VStr "detailed")
    as HL2.
  { intros x [Hx Hin]%list_elem_of_filter. apply andb_prop in Hx as [Hn Hd].
    unfold is_det, detailed in Hd. by apply bool_decide_eq_true in Hd. }
  assert (forall x, x ∈ L3 -> x ∈ l /\ cell og x.2 <> VStr "detailed") as HL3.
  { intros x [Hx Hin]%list_elem_of_filter. apply negb_true_iff in Hx.
    unfold is_det, detailed in Hx. by apply bool_decide_eq_false in Hx. }
  assert (in_order L1 /\ in_order L2 /\ in_order L3) as (O1 & O2 & O3)
    by (repeat split; by apply in_order_filter).
  assert (forall g, g ∈ ["total"; "major"] ->
            part g P
            = filter (fun r : row => cell 6 r.2 = VStr g /\ cell 3 r.2 <> catch_all)
                     (map K L3)) as Hother.
  { intros g Hg. unfold part. rewrite HP, !filter_app.
    rewrite !(filter_map_nil K _ L1), !(filter_map_nil K _ L2); [done|..].
    - intros x Hx [Hlev _]. destruct (HL2 x Hx) as (Hin & _ & Hd).
      rewrite (H6 x Hin), Hd in Hlev. simpl in Hlev.
      revert Hg. rewrite !elem_of_cons, elem_of_nil. intros [->|[->|[]]]; discriminate.
    - intros x Hx [Hlev _]. destruct (HL1 x Hx) as (Hin & _ & Hd).
      rewrite (H6 x Hin), Hd in Hlev. simpl in Hlev.
      revert Hg. rewrite !elem_of_cons, elem_of_nil. intros [->|[->|[]]]; discriminate. }
  split; [rewrite Hother by left; by apply in_order_filter_map|].
  split; [rewrite Hother by (right; left); by apply in_order_filter_map|].
  eexists _, _. split.
  { unfold part. rewrite HP, !filter_app.
    rewrite (filter_map_nil K _ L3), app_nil_r; [reflexivity|].
    intros x Hx [Hlev _]. destruct (HL3 x Hx) as (Hin & Hd).
    rewrite (H6 x Hin) in Hlev.
    assert ("detailed" ∈ ["total"; "major"; "detailed"]) as Hg by (by do 2 right; left).
    apply (proj1 (replace_cell_keeps_level "detailed" _ Hg)) in Hlev. congruence. }
  split; [by apply in_order_filter_map|]. split; [by apply in_order_filter_map|].
  split.
  - intros r' [_ Hr']%list_elem_of_filter.
    apply list_elem_of_In, in_map_iff in Hr' as (r & <- & Hr%list_elem_of_In).
    destruct (HL1 r Hr) as (Hin & Hn & _). exists r. by rewrite HK.
  - intros r' [_ Hr']%list_elem_of_filter.
    apply list_elem_of_In, in_map_iff in Hr' as (r & <- & Hr%list_elem_of_In).
    destruct (HL2 r Hr) as (Hin & Hn & _). exists r. by rewrite HK.
Qed.

End OrderFacts.

(** ** Merging the files *)

Section MergeFacts.

Lemma relayout_out_columns cells :
  length cells = length out_columns -> relayout out_columns out_columns cells = cells.
Proof.
  intros H. do 24 (destruct cells as [|? cells]; [discriminate H|]).
  destruct cells; [reflexivity | discriminate H].
Qed.

Lemma pd_concat_empty P :
  columns P = out_columns -> rect P -> pd_concat empty_frame P = Ok P.
Proof.
  destruct P as [cols rws]. cbn [columns]. intros -> Hrect.
  unfold pd_concat. cbn [columns rows empty_frame].
  rewrite decide_False by discriminate.
  rewrite decide_True by (split; [constructor | by_compute]).
  change ([] ++ filter (fun c : string => c ∉ []) out_columns) with out_columns.
  cbn [map app]. do 2 f_equal.
  rewrite <- (map_id rws) at 2. apply map_ext_elem. intros [i cells] Hr.
  cbn [fst snd]. f_equal. apply relayout_out_columns.
  exact (rect_elem _ _ Hrect Hr).
Qed.

Lemma rect_reset_index P : rect P -> rect (reset_index P).
Proof.
  unfold rect, reset_index. cbn [columns rows]. rewrite !Forall_forall.
  intros H [i cells] Hr. apply elem_of_zip_r in Hr. cbn [snd].
  apply list_elem_of_In, in_map_iff in Hr as (r & <- & Hr%list_elem_of_In).
  by apply H.
Qed.

Lemma process_file_result soc msa f P :
  (prepare_file soc msa f).2 = Ok P ->
  (process_file soc msa f).2 = Ok (reset_index P).
Proof.
  unfold process_file. destruct (prepare_file soc msa f) as [l r]. simpl.
  by intros ->.
Qed.

Lemma merge_files_cons_result soc msa f files acc P' acc' :
  (process_file soc msa f).2 = Ok P' ->
  pd_concat acc P' = Ok acc' ->
  (merge_files soc msa (f :: files) acc).2 = (merge_files soc msa files acc').2.
Proof.
  intros HP Hc. cbn [merge_files].
  destruct (process_file soc msa f) as [l r]. simpl in HP. subst r.
  simpl. rewrite Hc. simpl. by destruct (merge_files soc msa files acc').
Qed.

Lemma merge_files_rows soc msa files Ps acc :
  Forall2 (fun f P => (prepare_file soc msa f).2 = Ok P /\
                      columns P = out_columns /\ rect P) files Ps ->
  acc = empty_frame \/ columns acc = out_columns ->
  exists U,
    (merge_files soc msa files acc).2 = Ok U /\
    rows U = rows acc ++ flat_map (fun P => rows (reset_index P)) Ps /\
    (files <> [] -> columns U = out_columns).
Proof.
  intros HF. revert acc.
  induction HF as [|f P files Ps (HP & Hcols & Hrect) HF' IH]; intros acc Hacc.
  - exists acc. simpl. by rewrite app_nil_r.
  - assert (exists acc', pd_concat acc (reset_index P) = Ok acc' /\
                         columns acc' = out_columns /\
                         rows acc' = rows acc ++ rows (reset_index P))
      as (acc' & Hc & Hcols' & Hrows').
    { destruct Hacc as [->|Hacc].
      - exists (reset_index P). split; [|done].
        apply pd_concat_empty; [done | by apply rect_reset_index].
      - eexists. split; [apply pd_concat_same; by rewrite Hacc|]. by split. }
    destruct (IH acc' (or_intror Hcols')) as (U & HU & Hrows & HcU).
    exists U.
    rewrite (merge_files_cons_result soc msa f files acc _ acc'
               (process_file_result _ _ _ _ HP) Hc).
    split; [done|]. split.
    + rewrite Hrows, Hrows'. simpl. by rewrite <- app_assoc.
    + intros _. destruct files as [|g files]; [|by apply HcU].
      simpl in HU. by injection HU as <-.
Qed.

Lemma map_snd_filter_cells (Q : list val -> Prop) `{forall c, Decision (Q c)}
    (l : list row) :
  map snd (filter (fun r : row => Q r.2) l) = filter Q (map snd l).
Proof.
  induction l as [|x l IH]; simpl; [done|].
  rewrite !filter_cons. destruct (decide (Q x.2)); simpl; by rewrite IH.
Qed.

Lemma filter_cells_reset (Q : list val -> Prop) `{forall c, Decision (Q c)} P :
  map snd (filter (fun r : row => Q r.2) (rows (reset_index P)))
  = map snd (filter (fun r : row => Q r.2) (rows P)).
Proof.
  rewrite !map_snd_filter_cells. f_equal. unfold reset_index. cbn [rows].
  apply (snd_zip (seq 0 (length (rows P))) (map snd (rows P))).
  by rewrite length_map, length_seq.
Qed.

Lemma map_snd_filter_flat_map (Q : list val -> Prop) `{forall c, Decision (Q c)}
    (Ps : list frame) :
  map snd (filter (fun r : row => Q r.2) (flat_map (fun P => rows (reset_index P)) Ps))
  = flat_map (fun P => map snd (filter (fun r : row => Q r.2) (rows P))) Ps.
Proof.
  induction Ps as [|P Ps IH]; [done|]. cbn [flat_map].
  by rewrite filter_app, map_app, IH, filter_cells_reset.
Qed.

End MergeFacts.

(** ** Order within the partitions *)

Section OrderClaims.

Lemma elem_of_rows_normalized sh (r : row) :
  r ∈ rows (normalized sh) -> body sh !! r.1 = Some r.2.
Proof.
  unfold normalized, much_consistency. cbn [rows]. destruct r as [i cells].
  intros (j & Hj)%list_elem_of_lookup.
  apply lookup_zip_Some in Hj as [Hi Hc]. apply lookup_seq in Hi as [-> _].
  done.
Qed.

Lemma prepare_file_order lk dmsa f :
  well_formed_file f ->
  exists P,
    (prepare_file (Some lk) (Some dmsa) f).2 = Ok P /\
    columns P = out_columns /\ rect P /\ file_order lk f P.
Proof.
  intros (sh & y & Hsh & Hy & Hrect & Hnd & Hsub). destruct f as [path file].
  cbn [fst snd] in *. subst file.
  destruct (prepare_file_rows lk dmsa path sh y (normalized sh) Hy eq_refl Hrect Hnd Hsub)
    as (og & oc & P & K & Hog & Hoc & HP & Hcols & Hrows & HK & HKr).
  exists P. split; [done|]. split; [done|]. split.
  { unfold rect. rewrite Hrows, Hcols. apply Forall_map, Forall_forall.
    intros r Hr. rewrite (reorder_permutation lk y og oc _) in Hr.
    by apply HKr. }
  destruct (file_order_of_rows lk y og oc (rows (normalized sh)) P K
              (in_order_read sh) Hrows HK (fun r Hr => proj2 (HKr r Hr)))
    as (Ot & Om & A & B & HAB & OA & OB & HA & HB).
  split; [done|]. split; [done|]. exists A, B.
  split; [done|]. split; [done|]. split; [done|]. split.
  - intros r' Hr'. destruct (HA r' Hr') as (r & Hin & Hlab & Hres).
    exists sh, y, oc, r.2. rewrite <- Hlab.
    split; [done|]. split; [done|]. split; [done|].
    split; [by apply elem_of_rows_normalized|]. exact Hres.
  - intros r' Hr'. destruct (HB r' Hr') as (r & Hin & Hlab & Hres).
    exists sh, y, oc, r.2. rewrite <- Hlab.
    split; [done|]. split; [done|]. split; [done|].
    split; [by apply elem_of_rows_normalized|]. exact Hres.
Qed.

Lemma rows_of_partition g (U : frame) :
  filter (fun r : row => in_group g (fun x : row => cell 6 x.2) r = true)
         (filter (fun r : row => not_catch_all (fun x : row => cell 3 x.2) r = true)
                 (rows U))
  = filter (fun r : row => cell 6 r.2 = VStr g /\ cell 3 r.2 <> catch_all) (rows U).
Proof.
  rewrite list_filter_filter. apply list_filter_iff. intros r.
  unfold in_group, not_catch_all.
  by rewrite bool_decide_eq_true, negb_true_iff, bool_decide_eq_false.
Qed.

Lemma partition_cells g (Ps : list frame) (U : frame) :
  rows U = flat_map (fun P => rows (reset_index P)) Ps ->
  map snd (filter (fun r : row => cell 6 r.2 = VStr g /\ cell 3 r.2 <> catch_all)
                  (rows U))
  = flat_map (fun P => map snd (part g P)) Ps.
Proof.
  intros ->.
  exact (map_snd_filter_flat_map
           (fun c => cell 6 c = VStr g /\ cell 3 c <> catch_all) Ps).
Qed.

(** C6, as amended.  In a run with both lookups loaded over well-formed
    files, every partition is the concatenation, file after file in the
    order of processing, of the records that the file contributes to it.
    The records of a file keep their original relative order within the
    total and the major partition.  Within the detailed partition the
    records of a file come in two runs, each in the original order: first
    the records whose code the crosswalk chosen for the file's year
    resolves, then the records it leaves to the fallback. *)
Theorem partition_order (data : data_folder) (lk : soc_lookup) (dmsa : dict) :
  (load_oes_lookup (oes_file data)).2 = Ok (Some lk) ->
  (load_msa_lookup (msa_file data)).2 = Ok (Some dmsa) ->
  bls_files data <> [] ->
  Forall well_formed_file (bls_files data) ->
  exists Ps t m d,
    (process_bls data).2 = Ok (t, m, d) /\
    Forall2 (fun f P => (prepare_file (Some lk) (Some dmsa) f).2 = Ok P /\
                        file_order lk f P) (bls_files data) Ps /\
    map snd (rows t) = flat_map (fun P => map snd (part "total" P)) Ps /\
    map snd (rows m) = flat_map (fun P => map snd (part "major" P)) Ps /\
    map snd (rows d) = flat_map (fun P => map snd (part "detailed" P)) Ps.
Proof.
  intros Hsoc Hmsa Hne Hwf.
  assert (exists Ps,
            Forall2 (fun f P => (prepare_file (Some lk) (Some dmsa) f).2 = Ok P /\
                                columns P = out_columns /\ rect P /\ file_order lk f P)
                    (bls_files data) Ps) as [Ps HPs].
  { clear Hne. induction (bls_files data) as [|f files IH]; [by exists []|].
    apply Forall_cons in Hwf as [Hf Hwf]. destruct (IH Hwf) as [Ps HPs].
    destruct (prepare_file_order lk dmsa f Hf) as (P & HP).
    exists (P :: Ps). by constructor. }
  assert (Forall2 (fun f P => (prepare_file (Some lk) (Some dmsa) f).2 = Ok P /\
                              columns P = out_columns /\ rect P)
                  (bls_files data) Ps) as HPs'
    by (eapply Forall2_impl; [exact HPs|]; intros ? ? (? & ? & ? & ?); auto).
  destruct (merge_files_rows (Some lk) (Some dmsa) (bls_files data) Ps empty_frame
              HPs' (or_introl eq_refl)) as (U & HU & Hrows & Hcols).
  specialize (Hcols Hne). cbn [rows empty_frame app] in Hrows.
  assert (exists l0, merge_all data = (l0, Ok U)) as [l0 Hall].
  { unfold merge_all.
    destruct (load_oes_lookup (oes_file data)) as [l1 r1]. cbn [snd] in Hsoc. subst r1.
    destruct (load_msa_lookup (msa_file data)) as [l2 r2]. cbn [snd] in Hmsa. subst r2.
    cbn [mbind io_bind].
    destruct (merge_files (Some lk) (Some dmsa) (bls_files data) empty_frame) as [l3 r3].
    cbn [snd] in HU. subst r3. by eexists. }
  exists Ps.
  eexists (select (in_group "total" (fun x : row => cell 6 x.2))
             (select (not_catch_all (fun x : row => cell 3 x.2)) U)),
          (select (in_group "major" (fun x : row => cell 6 x.2))
             (select (not_catch_all (fun x : row => cell 3 x.2)) U)),
          (select (in_group "detailed" (fun x : row => cell 6 x.2))
             (select (not_catch_all (fun x : row => cell 3 x.2)) U)).
  split.
  { unfold process_bls. rewrite (clean_bls_of_merged data l0 U Hall), Hcols.
    cbn [mbind io_bind locate positions positions_from out_columns].
    change (locate "peer_type" out_columns) with (@Ok nat 3).
    cbn [mbind io_bind]. rewrite split_bls_ogroup_eq. cbn [columns select].
    rewrite Hcols. change (locate "o_group" out_columns) with (@Ok nat 6).
    reflexivity. }
  split.
  { eapply Forall2_impl; [exact HPs|]. intros ? ? (? & ? & ? & ?); auto. }
  cbn [rows select]. rewrite !rows_of_partition.
  by rewrite !(partition_cells _ Ps U Hrows).
Qed.

Lemma partition_order_witness :
  exists Ps t m d,
    (process_bls ex_data).2 = Ok (t, m, d) /\
    Forall2 (fun f P => (prepare_file (Some ex_soc_lookup)
                           (Some (py_dict [VNum 28140] [VStr "Kansas City"])) f).2 = Ok P /\
                        file_order ex_soc_lookup f P) (bls_files ex_data) Ps /\
    map snd (rows t) = flat_map (fun P => map snd (part "total" P)) Ps /\
    map snd (rows m) = flat_map (fun P => map snd (part "major" P)) Ps /\
    map snd (rows d) = flat_map (fun P => map snd (part "detailed" P)) Ps.
Proof.
  apply (partition_order ex_data ex_soc_lookup (py_dict [VNum 28140] [VStr "Kansas City"])).
  - reflexivity.
  - reflexivity.
  - discriminate.
  - constructor; [|constructor].
    exists ex_bls, 2016%Z.
    split; [reflexivity|]. split; [reflexivity|].
    split; [repeat constructor|]. split; [by_compute|].
    apply (bool_decide_unpack _). vm_compute. exact I.
Defined.

(** C6 as stated fails in the detailed partition: the worked file lists
    the Kansas City record with 9000 jobs (code 15-1250, left to the
    fallback) before the one with 2750 jobs (code 15-1131, resolved by the
    legacy map), and the detailed partition lists them the other way
    round. *)
Lemma detailed_partition_reorders :
  map (cell 5)
      (filter (fun c => cell 4 c = VStr "detailed" /\ cell 0 c = VNum 28140)
              (body ex_bls))
  = [VNum 9000; VNum 2750] /\
  exists P t m d,
    (prepare_file (Some ex_soc_lookup)
       (Some (py_dict [VNum 28140] [VStr "Kansas City"]))
       ("data/bls/MSA_M2016_dl.xlsx", Ok ex_bls)).2 = Ok P /\
    map fst (part "detailed" P) = [3; 2]%nat /\
    (process_bls ex_data).2 = Ok (t, m, d) /\
    map (fun r : row => cell 7 r.2) (rows d) = [VNum 2750; VNum 9000].
Proof.
  split; [vm_compute; reflexivity|].
  eexists _, _, _, _. split; [vm_compute; reflexivity|].
  split; [vm_compute; reflexivity|].
  split; [vm_compute; reflexivity|]. reflexivity.
Qed.

End OrderClaims.

(** * Further properties of the code *)

(** ** Schema normalizer and null harmonizer *)

Section NormalizerMore.

Lemma rename_table_none c :
  rename_table !! c = None -> c ∉ ["occ_group"; "loc quotient"; "area_name"].
Proof.
  unfold rename_table. rewrite !lookup_insert, lookup_empty.
  intros H Hin. revert H.
  repeat (apply elem_of_cons in Hin as [->|Hin]; [by repeat case_decide|]).
  by apply elem_of_nil in Hin.
Qed.

(** X1. After the schema normalizer no column label holds an upper-case
    ASCII letter ([str.lower] leaves the label as it is), and none of the
    three historical names [occ_group], [loc quotient], [area_name] is left
    among the labels. *)
Theorem much_consistency_labels (df : frame) :
  Forall (fun c => lower c = c /\ c ∉ ["occ_group"; "loc quotient"; "area_name"])
         (columns (much_consistency df)).
Proof.
  unfold much_consistency. cbn [columns]. rewrite map_map.
  apply Forall_map, Forall_forall. intros c _. unfold rename.
  destruct (rename_table !! lower c) as [v|] eqn:E; simpl.
  - apply rename_table_cases in E as [[_ ->]|[[_ ->]|[_ ->]]];
      (split; [reflexivity|]); rewrite !elem_of_cons, elem_of_nil;
      intros [?|[?|[?|[]]]]; discriminate.
  - split; [apply lower_idem | by apply rename_table_none].
Qed.

Lemma replace_cell_idem v :
  replace_cell null_replace (replace_cell null_replace v) = replace_cell null_replace v.
Proof.
  rewrite !replace_cell_null_replace. destruct (decide (v ∈ sentinels)) as [Hv|Hv].
  - by rewrite decide_False by (unfold sentinels; rewrite !elem_of_cons, elem_of_nil;
                               intros [?|[?|[?|[]]]]; discriminate).
  - by rewrite decide_False.
Qed.

(** X2. The null harmonizer is idempotent, and it leaves no sentinel
    token behind: no cell of the batch it returns is [#], [*] or [**]. *)
Theorem map_nulls_clean (df : frame) :
  map_nulls (map_nulls df) = map_nulls df /\
  Forall (fun r : row => Forall (fun v => v ∉ sentinels) r.2) (rows (map_nulls df)).
Proof.
  split.
  - unfold map_nulls. cbn [columns rows]. f_equal. rewrite map_map.
    apply map_ext. intros [i cells]. cbn [fst snd]. f_equal.
    rewrite map_map. apply map_ext, replace_cell_idem.
  - unfold map_nulls. cbn [rows]. apply Forall_map, Forall_forall.
    intros [i cells] _. cbn [snd]. apply Forall_map, Forall_forall. intros v _.
    rewrite replace_cell_null_replace. case_decide as Hv; [|done].
    unfold sentinels. rewrite !elem_of_cons, elem_of_nil.
    intros [?|[?|[?|[]]]]; discriminate.
Qed.

End NormalizerMore.

(** ** The report year of a file name *)

Section YearMore.

Lemma search_sound s g : search s = Some g -> exists i, occurs s i g.
Proof.
  induction s as [|a s IH]; [done|]. rewrite search_cons.
  destruct (match_here (String a s)) as [g'|] eqn:E.
  - intros [= ->]. apply match_here_sound in E as (q & -> & Hg).
    exists 0%nat, "", q. done.
  - intros (i & p & q & -> & <- & Hg)%IH.
    exists (S (String.length p)), (String a p), q. done.
Qed.

Lemma search_complete s i d : occurs s i d -> search s <> None.
Proof.
  intros (p & q & -> & _ & Hd). clear i. induction p as [|a p IH].
  - change (search (String "M" (d +:+ "_" +:+ q)) <> None).
    rewrite search_cons.
    change (String "M" (d +:+ "_" +:+ q)) with ("M" +:+ d +:+ "_" +:+ q).
    by rewrite (match_here_complete d q Hd).
  - change (search (String a (p +:+ "M" +:+ d +:+ "_" +:+ q)) <> None).
    rewrite search_cons. by destruct (match_here _).
Qed.

(** X3. Reading the report year from a file name fails exactly when the
    pattern (the letter [M], a non-zero digit, three digits or more, an
    underscore) occurs nowhere in the name; the failure is the [TypeError]
    of subscripting a failed search. *)
Theorem report_year_fails_iff (path : string) :
  report_year_of path = Raise TypeError <-> ~ exists i d, occurs path i d.
Proof.
  unfold report_year_of. split.
  - destruct (search path) eqn:E; [done|]. intros _ (i & d & H).
    by apply search_complete in H.
  - intros H. destruct (search path) as [g|] eqn:E; [|done].
    destruct H. apply search_sound in E as [i Hi]. by exists i, g.
Qed.

Lemma digit_value_range a : is_digit a = true -> (0 <= digit_value a <= 9)%Z.
Proof.
  unfold is_digit, digit_value. cbv zeta.
  intros [?%Nat.leb_le ?%Nat.leb_le]%andb_prop. lia.
Qed.

Lemma fold_digits_ge t acc :
  all_digits t = true -> (0 <= acc)%Z ->
  (acc * 10 ^ Z.of_nat (String.length t)
   <= fold_left (fun acc a => acc * 10 + digit_value a) (list_ascii_of_string t) acc)%Z.
Proof.
  revert acc. induction t as [|a t IH]; intros acc Ht Hacc.
  - simpl. lia.
  - simpl in Ht. apply andb_prop in Ht as [Ha Ht].
    apply digit_value_range in Ha.
    cbn [String.length list_ascii_of_string fold_left].
    etrans; [|apply IH; [done|lia]].
    rewrite Nat2Z.inj_succ, Z.pow_succ_r by lia.
    assert (0 <= 10 ^ Z.of_nat (String.length t))%Z by (apply Z.pow_nonneg; lia).
    nia.
Qed.

(** X4. A report year read from a file name is at least 1000: the
    pattern takes a non-zero digit followed by three digits or more. *)
Theorem report_year_at_least_1000 (path : string) (y : Z) :
  report_year_of path = Ok y -> (1000 <= y)%Z.
Proof.
  unfold report_year_of. destruct (search path) as [g|] eqn:E; [|done].
  intros [= <-]. apply search_sound in E as (_ & _ & _ & _ & _ & Hg).
  destruct Hg as (a & t & -> & Ha & Ht & Hlen).
  unfold int_of_digits. cbn [list_ascii_of_string fold_left].
  assert (1 <= digit_value a)%Z as Hd.
  { unfold is_nonzero_digit, digit_value in *. cbv zeta in Ha.
    apply andb_prop in Ha as [?%Nat.leb_le ?%Nat.leb_le]. lia. }
  etrans; [|apply fold_digits_ge; [done|lia]].
  assert (10 ^ 3 <= 10 ^ Z.of_nat (String.length t))%Z
    by (apply Z.pow_le_mono_r; lia).
  change (10 ^ 3)%Z with 1000%Z in *. nia.
Qed.

Lemma report_year_at_least_1000_witness :
  report_year_of archive_path = Ok 2015%Z /\ (1000 <= 2015)%Z.
Proof.
  split; [reflexivity|].
  apply (report_year_at_least_1000 archive_path 2015). reflexivity.
Defined.

End YearMore.

(** ** The crosswalker *)

Section MapSocMore.
Import Loader Stages.

Lemma lookup_set_labels c0 cols j c :
  cols !! j = Some c -> set_labels c0 cols !! j = Some c.
Proof.
  intros H. unfold set_labels. case_decide; [done|].
  rewrite lookup_app_l; [done | by eapply lookup_lt_Some].
Qed.

Lemma cell_put_other c0 v cols cells j c :
  length cells = length cols -> cols !! j = Some c -> c <> c0 ->
  cell j (put c0 v cols cells) = cell j cells.
Proof.
  intros Hlen Hj Hne. rewrite cell_put by done.
  rewrite decide_False; [done|].
  rewrite (lookup_set_labels c0 cols j c Hj). congruence.
Qed.

Lemma elem_of_reorder lk y og oc (l : list row) (r : row) :
  r ∈ reorder lk y og oc l <-> r ∈ l.
Proof.
  rewrite !list_elem_of_In.
  split; apply Permutation_in;
    [|symmetry]; apply reorder_permutation.
Qed.

(** X5. A record that is not at the detailed level gets its own
    occupation code as resolved code and its own occupation title as
    resolved title, whatever the report year and the crosswalk. *)
Theorem map_soc_pass_through
    (lk : soc_lookup) (df : frame) (y : Z) (og oc ot k i : nat) (cells : list val) :
  rect df -> unique_index df ->
  locate "o_group" (columns df) = Ok og ->
  locate "occ_code" (columns df) = Ok oc ->
  locate "occ_title" (columns df) = Ok ot ->
  (length (positions "oes_code_2019" (columns df)) <= 1)%nat ->
  (length (positions "oes_title_2019" (columns df)) <= 1)%nat ->
  rows df !! k = Some (i, cells) ->
  cell og cells <> VStr "detailed" ->
  exists out pc pt cells',
    map_soc df y (Some lk) = Ok out /\
    locate "oes_code_2019" (columns out) = Ok pc /\
    locate "oes_title_2019" (columns out) = Ok pt /\
    (i, cells') ∈ rows out /\
    cell pc cells' = cell oc cells /\
    cell pt cells' = cell ot cells.
Proof.
  intros Hrect Huniq Hog Hoc Hot Hcode Htitle Hk Hdet.
  pose proof (map_soc_rows lk y df og oc ot Hrect Huniq Hog Hoc Hot Hcode) as Hout.
  destruct (locate_after_set _ _ Hcode) as [pc Hpc].
  set (cols1 := set_labels "oes_code_2019" (columns df)) in *.
  assert (length (positions "oes_title_2019" cols1) <= 1)%nat as Htitle1
    by (unfold cols1; by rewrite positions_set_labels_ne).
  destruct (locate_after_set _ _ Htitle1) as [pt Hpt].
  pose proof (rect_row df k i cells Hrect Hk) as Hlen.
  assert ((i, cells) ∈ rows df) as Hin by (apply list_elem_of_lookup; by exists k).
  assert (is_det og (i, cells) = false) as Hd
    by (unfold is_det, detailed; simpl; by apply bool_decide_eq_false).
  set (r' := finish lk y og oc ot (columns df) (i, cells)).
  exists (Frame (set_labels "oes_title_2019" cols1)
                (map (finish lk y og oc ot (columns df)) (reorder lk y og oc (rows df)))),
         pc, pt, r'.2.
  split; [exact Hout|]. cbn [columns rows].
  split; [by rewrite locate_set_labels_ne|].
  split; [exact Hpt|].
  split.
  { change (i, r'.2) with r'. apply list_elem_of_fmap_2. by apply elem_of_reorder. }
  unfold r', finish. cbn [fst snd]. fold cols1. split.
  - rewrite (cell_put_ne "oes_title_2019" "oes_code_2019" _ cols1 _ pc);
      [|by apply length_put|done|done].
    rewrite (cell_put_eq _ _ _ _ _ Hlen Hpc). unfold code_of. by rewrite Hd.
  - rewrite cell_put_eq; [|by apply length_put|done].
    unfold title_of. by rewrite Hd.
Qed.

Lemma map_soc_pass_through_witness :
  exists out pc pt cells',
    map_soc ex_levels_batch 2016 (Some ex_soc_lookup) = Ok out /\
    locate "oes_code_2019" (columns out) = Ok pc /\
    locate "oes_title_2019" (columns out) = Ok pt /\
    (1%nat, cells') ∈ rows out /\
    cell pc cells' = VStr "15-0000" /\
    cell pt cells' = VStr "Computer and Mathematical Occupations".
Proof.
  apply (map_soc_pass_through ex_soc_lookup ex_levels_batch 2016 4 2 3 1 1
           [VStr "28140"; VStr "Kansas City, MO-KS"; VStr "15-0000";
            VStr "Computer and Mathematical Occupations"; VStr "major"; VNum 40000]).
  - repeat constructor.
  - unfold unique_index. by_compute.
  - reflexivity.
  - reflexivity.
  - reflexivity.
  - vm_compute. lia.
  - vm_compute. lia.
  - reflexivity.
  - discriminate.
Defined.

(** X6. The crosswalker hands back every record once and changes no
    field but the two it sets: each column of the batch other than
    [oes_code_2019] and [oes_title_2019] keeps its place, and each record of
    the result holds in it the cell of the input record with the same index
    label. *)
Theorem map_soc_keeps_fields
    (lk : soc_lookup) (df : frame) (y : Z) (og oc ot : nat) :
  rect df -> unique_index df ->
  locate "o_group" (columns df) = Ok og ->
  locate "occ_code" (columns df) = Ok oc ->
  locate "occ_title" (columns df) = Ok ot ->
  (length (positions "oes_code_2019" (columns df)) <= 1)%nat ->
  exists out,
    map_soc df y (Some lk) = Ok out /\
    Permutation (map fst (rows out)) (map fst (rows df)) /\
    forall i cells', (i, cells') ∈ rows out ->
      exists cells, (i, cells) ∈ rows df /\
        forall j c, columns df !! j = Some c ->
          c <> "oes_code_2019" -> c <> "oes_title_2019" ->
          columns out !! j = Some c /\ cell j cells' = cell j cells.
Proof.
  intros Hrect Huniq Hog Hoc Hot Hcode.
  eexists. split; [by apply (map_soc_rows lk y df og oc ot)|].
  cbn [columns rows]. split.
  { rewrite map_fst_finish. apply Permutation_map, reorder_permutation. }
  intros i cells' Hin. apply list_elem_of_fmap in Hin as ([i0 cells] & E & Hr).
  apply elem_of_reorder in Hr. unfold finish in E. cbn [fst snd] in E.
  injection E as -> ->. exists cells. split; [done|].
  intros j c Hj Hc1 Hc2.
  pose proof (rect_elem df _ Hrect Hr) as Hlen. cbn [snd] in Hlen.
  split; [by do 2 apply lookup_set_labels|].
  rewrite (cell_put_other "oes_title_2019" _ _ _ j c);
    [|by apply length_put|by apply lookup_set_labels|done].
  by rewrite (cell_put_other "oes_code_2019" _ _ _ j c).
Qed.

Lemma map_soc_keeps_fields_witness :
  exists out,
    map_soc ex_levels_batch 2016 (Some ex_soc_lookup) = Ok out /\
    Permutation (map fst (rows out)) (map fst (rows ex_levels_batch)) /\
    forall i cells', (i, cells') ∈ rows out ->
      exists cells, (i, cells) ∈ rows ex_levels_batch /\
        forall j c, columns ex_levels_batch !! j = Some c ->
          c <> "oes_code_2019" -> c <> "oes_title_2019" ->
          columns out !! j = Some c /\ cell j cells' = cell j cells.
Proof.
  apply (map_soc_keeps_fields ex_soc_lookup ex_levels_batch 2016 4 2 3).
  - repeat constructor.
  - unfold unique_index. by_compute.
  - reflexivity.
  - reflexivity.
  - reflexivity.
  - vm_compute. lia.
Defined.

(** X7. On a batch with distinct column labels and distinct index labels
    the crosswalker fails with the [KeyError] of the first of [o_group],
    [occ_code], [occ_title] that the batch lacks; a missing [occ_title] is
    reported although the column is read only for the records that are not
    detailed. *)
Theorem map_soc_missing_column (lk : soc_lookup) (df : frame) (y : Z) :
  NoDup (columns df) -> unique_index df ->
  ("o_group" ∉ columns df ->
     map_soc df y (Some lk) = Raise (KeyError "o_group")) /\
  ("o_group" ∈ columns df -> "occ_code" ∉ columns df ->
     map_soc df y (Some lk) = Raise (KeyError "occ_code")) /\
  ("o_group" ∈ columns df -> "occ_code" ∈ columns df -> "occ_title" ∉ columns df ->
     map_soc df y (Some lk) = Raise (KeyError "occ_title")).
Proof.
  intros Hnd Huniq.
  assert (forall d c, c ∉ columns d -> getcol c d = Raise (KeyError c)) as Hmiss.
  { intros d c Hc. unfold getcol, locate. apply positions_nil in Hc. by rewrite Hc. }
  split; [|split].
  - intros Hg. unfold map_soc. cbn [mbind result_bind]. by rewrite (Hmiss _ _ Hg).
  - intros Hg Hc. destruct (locate_NoDup _ _ Hnd Hg) as [og Hog].
    unfold map_soc. cbn [mbind result_bind].
    rewrite (getcol_ok _ _ _ Hog). cbn [mbind result_bind mret result_ret].
    by rewrite (Hmiss _ _ Hc).
  - intros Hg Hc Ht.
    destruct (locate_NoDup _ _ Hnd Hg) as [og Hog].
    destruct (locate_NoDup _ _ Hnd Hc) as [oc Hoc].
    destruct (locate_after_set _ _ (at_most_once_NoDup "oes_code_2019" _ Hnd)) as [pc Hpc].
    set (cols1 := set_labels "oes_code_2019" (columns df)) in *.
    assert (locate "o_group" cols1 = Ok og) as Hog1
      by (unfold cols1; by rewrite locate_set_labels_ne).
    assert (locate "occ_code" cols1 = Ok oc) as Hoc1
      by (unfold cols1; by rewrite locate_set_labels_ne).
    assert (set_labels "oes_code_2019" cols1 = cols1) as Hidem by apply set_labels_idem.
    assert ("occ_title" ∉ cols1) as Ht1.
    { unfold cols1. rewrite elem_of_set_labels. by intros [?|?]. }
    unfold map_soc. cbn [mbind result_bind].
    rewrite (getcol_ok _ _ _ Hog). cbn [mbind result_bind mret result_ret].
    rewrite (getcol_ok _ _ _ Hoc). cbn [mbind result_bind mret result_ret].
    rewrite (setitem_aligned_selected "oes_code_2019"
               (detailed (fun r : row => cell og r.2))
               (fun r : row => series_map (soc_mappings_for y lk) (cell oc r.2)) df Huniq).
    cbn [mbind result_bind mret result_ret].
    set (g := fun r : row => if detailed _ r then _ else VNull).
    set (df1 := setitem "oes_code_2019" g df).
    rewrite (getcol_ok "oes_code_2019" df1 pc Hpc). cbn [mbind result_bind mret result_ret].
    rewrite (getcol_ok "o_group" df1 og Hog1). cbn [mbind result_bind mret result_ret].
    set (df_missing := select (fun r => isnull _ && _) df1).
    set (df_totals := select (fun r => negb (detailed _ r)) df1).
    rewrite (getcol_ok "occ_code" df_missing oc Hoc1). cbn [mbind result_bind mret result_ret].
    rewrite (getcol_ok "occ_code" df_totals oc Hoc1). cbn [mbind result_bind mret result_ret].
    rewrite Hmiss; [done|].
    change (columns (setitem "oes_code_2019" (fun r : row => cell oc r.2) df_totals))
      with (set_labels "oes_code_2019" cols1).
    by rewrite Hidem.
Qed.

Lemma map_soc_missing_column_witness :
  map_soc ex_untitled_batch 2016 (Some ex_soc_lookup) = Raise (KeyError "occ_title").
Proof.
  apply (map_soc_missing_column ex_soc_lookup ex_untitled_batch 2016).
  - by_compute.
  - unfold unique_index. by_compute.
  - by_compute.
  - by_compute.
  - by_compute.
Defined.

(** X8. With a crosswalk built by the loader, the resolved title of a
    detailed record is never read from the title column of the crosswalk:
    it is the resolved code itself when that code occurs in the column
    [oes_code_2019] of the crosswalk (is a key of [soc_lookup['1919']]), and
    null otherwise. *)
Theorem map_soc_detailed_title
    (read : result sheet) (log : list msg) (lk : soc_lookup)
    (df : frame) (y : Z) (og oc ot k i : nat) (cells : list val) :
  load_oes_lookup read = (log, Ok (Some lk)) ->
  rect df -> unique_index df ->
  locate "o_group" (columns df) = Ok og ->
  locate "occ_code" (columns df) = Ok oc ->
  locate "occ_title" (columns df) = Ok ot ->
  (length (positions "oes_code_2019" (columns df)) <= 1)%nat ->
  (length (positions "oes_title_2019" (columns df)) <= 1)%nat ->
  rows df !! k = Some (i, cells) ->
  cell og cells = VStr "detailed" ->
  exists out pc pt cells',
    map_soc df y (Some lk) = Ok out /\
    locate "oes_code_2019" (columns out) = Ok pc /\
    locate "oes_title_2019" (columns out) = Ok pt /\
    (i, cells') ∈ rows out /\
    cell pt cells'
    = if decide (is_Some (oes1919_dict lk !! cell pc cells')) then cell pc cells'
      else VNull.
Proof.
  intros Hload Hrect Huniq Hog Hoc Hot Hcode Htitle Hk Hdet.
  pose proof (map_soc_rows lk y df og oc ot Hrect Huniq Hog Hoc Hot Hcode) as Hout.
  destruct (locate_after_set _ _ Hcode) as [pc Hpc].
  set (cols1 := set_labels "oes_code_2019" (columns df)) in *.
  assert (length (positions "oes_title_2019" cols1) <= 1)%nat as Htitle1
    by (unfold cols1; by rewrite positions_set_labels_ne).
  destruct (locate_after_set _ _ Htitle1) as [pt Hpt].
  pose proof (rect_row df k i cells Hrect Hk) as Hlen.
  assert ((i, cells) ∈ rows df) as Hin by (apply list_elem_of_lookup; by exists k).
  assert (is_det og (i, cells) = true) as Hd
    by (unfold is_det, detailed; simpl; by apply bool_decide_eq_true).
  set (r' := finish lk y og oc ot (columns df) (i, cells)).
  exists (Frame (set_labels "oes_title_2019" cols1)
                (map (finish lk y og oc ot (columns df)) (reorder lk y og oc (rows df)))),
         pc, pt, r'.2.
  split; [exact Hout|]. cbn [columns rows].
  split; [by rewrite locate_set_labels_ne|].
  split; [exact Hpt|].
  split.
  { change (i, r'.2) with r'. apply list_elem_of_fmap_2. by apply elem_of_reorder. }
  unfold r', finish. cbn [fst snd]. fold cols1.
  rewrite (cell_put_ne "oes_title_2019" "oes_code_2019" _ cols1 _ pc);
    [|by apply length_put|done|done].
  rewrite (cell_put_eq _ _ _ _ _ Hlen Hpc).
  rewrite cell_put_eq; [|by apply length_put|done].
  unfold title_of. rewrite Hd. unfold series_map.
  destruct (oes1919_dict lk !! code_of lk y og oc (i, cells)) as [v|] eqn:E.
  - rewrite decide_True by done. simpl.
    by apply (load_oes_lookup_identity _ _ _ _ _ Hload) in E.
  - rewrite decide_False; [done|]. by intros [? ?].
Qed.

Lemma map_soc_detailed_title_witness :
  exists out pc pt cells',
    map_soc ex_levels_batch 2016 (Some ex_soc_lookup) = Ok out /\
    locate "oes_code_2019" (columns out) = Ok pc /\
    locate "oes_title_2019" (columns out) = Ok pt /\
    (2%nat, cells') ∈ rows out /\
    cell pt cells'
    = if decide (is_Some (oes1919_dict ex_soc_lookup !! cell pc cells'))
      then cell pc cells' else VNull.
Proof.
  apply (map_soc_detailed_title (Ok ex_crosswalk) [SocLoaded] ex_soc_lookup
           ex_levels_batch 2016 4 2 3 2 2
           [VStr "28140"; VStr "Kansas City, MO-KS"; VStr "15-1131";
            VStr "Computer Programmers"; VStr "detailed"; VNum 2750]).
  - reflexivity.
  - repeat constructor.
  - unfold unique_index. by_compute.
  - reflexivity.
  - reflexivity.
  - reflexivity.
  - vm_compute. lia.
  - vm_compute. lia.
  - reflexivity.
  - reflexivity.
Defined.

End MapSocMore.

(** ** The loop body of the driver *)

Section LoopBodyMore.

(** The cells of the batch that the loop body makes of a well-formed
    file, column by column. *)
Lemma prepare_file_cells lk dmsa path sh y df :
  report_year_of path = Ok y ->
  df = much_consistency (Frame (header sh) (zip (seq 0 (length (body sh))) (body sh))) ->
  rect df -> NoDup (columns df) -> input_columns ⊆ columns df ->
  exists og oc ot a P K,
    locate "o_group" (columns df) = Ok og /\
    locate "occ_code" (columns df) = Ok oc /\
    locate "occ_title" (columns df) = Ok ot /\
    locate "area" (columns df) = Ok a /\
    (prepare_file (Some lk) (Some dmsa) (path, Ok sh)).2 = Ok P /\
    columns P = out_columns /\
    rows P = map K (reorder lk y og oc (rows df)) /\
    (forall r, (K r).1 = r.1) /\
    (forall r, r ∈ rows df ->
       length (K r).2 = length out_columns /\
       cell 0 (K r).2 = VNum y /\
       cell 3 (K r).2
       = replace_cell null_replace (fillna catch_all (series_map dmsa (cell a r.2))) /\
       cell 4 (K r).2 = replace_cell null_replace (code_of lk y og oc r) /\
       cell 5 (K r).2 = replace_cell null_replace (title_of lk y og oc ot r) /\
       forall k c p, out_columns !! k = Some c ->
         c ∉ ["report_year"; "peer_type"; "oes_code_2019"; "oes_title_2019"] ->
         locate c (columns df) = Ok p ->
         cell k (K r).2 = replace_cell null_replace (cell p r.2)).
Proof.
  intros Hy Hdf Hrect Hnd Hsub.
  assert (unique_index df) as Huniq by (rewrite Hdf; apply unique_index_read).
  destruct (locate_NoDup "o_group" _ Hnd) as [og Hog]; [apply Hsub; by_compute|].
  destruct (locate_NoDup "occ_code" _ Hnd) as [oc Hoc]; [apply Hsub; by_compute|].
  destruct (locate_NoDup "occ_title" _ Hnd) as [ot Hot]; [apply Hsub; by_compute|].
  destruct (locate_NoDup "area" _ Hnd) as [a Ha]; [apply Hsub; by_compute|].
  pose proof (map_soc_rows lk y df og oc ot Hrect Huniq Hog Hoc Hot
                (at_most_once_NoDup _ _ Hnd)) as Hsoc.
  set (cols1 := set_labels "oes_code_2019" (columns df)) in *.
  set (cols2 := set_labels "oes_title_2019" cols1) in *.
  set (out := Frame cols2 _) in Hsoc.
  assert (rect out) as Hrect2 by (by apply rect_map_soc_rows).
  assert (NoDup cols1) as Hnd1 by (by apply NoDup_set_labels).
  assert (NoDup cols2) as Hnd2 by (by apply NoDup_set_labels).
  assert (locate "area" cols1 = Ok a) as Ha1
    by (unfold cols1; by rewrite !locate_set_labels_ne).
  assert (locate "area" cols2 = Ok a) as Ha2
    by (unfold cols2; by rewrite !locate_set_labels_ne).
  pose proof (map_peer_type_rows out dmsa a Hrect2 Hnd2 Ha2) as Hpeer.
  set (out3 := setitem "peer_type" _ out) in Hpeer.
  set (cols3 := set_labels "peer_type" cols2).
  assert (NoDup cols3) as Hnd3 by (by apply NoDup_set_labels).
  set (df5 := setitem "report_year" (fun _ : row => VNum y) (map_nulls out3)).
  assert (columns df5 = set_labels "report_year" cols3) as Hc5 by done.
  assert (NoDup (columns df5)) as Hnd5 by (by do 2 apply NoDup_set_labels).
  assert (out_columns ⊆ columns df5) as Hsub5.
  { intros c Hc. rewrite Hc5.
    unfold cols3, cols2, cols1. rewrite !elem_of_set_labels.
    unfold out_columns in Hc.
    repeat (apply elem_of_cons in Hc as [->|Hc];
            [first [ by left | by right; left | by right; right; left
                   | by right; right; right; left
                   | do 4 right; apply Hsub; by_compute ] |]).
    by apply elem_of_nil in Hc. }
  destruct (project_NoDup out_columns df5 Hnd5 Hsub5) as (ps & Hps & Hproj).
  exists og, oc, ot, a. eexists _, _.
  split; [done|]. split; [done|]. split; [done|]. split; [done|]. split.
  { rewrite prepare_file_result. cbn [fst snd read_excel mbind result_bind mret result_ret].
    rewrite Hy. cbn [mbind result_bind]. rewrite <- Hdf, Hsoc. cbn [mbind result_bind].
    rewrite Hpeer. cbn [mbind result_bind]. exact Hproj. }
  cbn [columns rows]. split; [done|].
  cbn [df5 out3 out rows setitem map_nulls]. rewrite !map_map.
  split; [reflexivity|]. split; [done|].
  intros r Hr. cbn [fst snd]. split.
  { rewrite length_map. by apply Forall2_length in Hps. }
  pose proof (rect_elem df r Hrect Hr) as Hlen.
  assert (length (put "oes_code_2019" (code_of lk y og oc r) (columns df) r.2)
          = length cols1) as Hl1 by (by apply length_put).
  assert (length (finish lk y og oc ot (columns df) r).2 = length cols2) as Hl2
    by (unfold finish; cbn [snd]; by apply length_put).
  set (fr := finish lk y og oc ot (columns df) r) in *.
  set (pv := fillna catch_all (series_map dmsa (cell a fr.2))).
  assert (length (map (replace_cell null_replace) (put "peer_type" pv cols2 fr.2))
          = length cols3) as Hl3 by (rewrite length_map; by apply length_put).
  assert (cell a fr.2 = cell a r.2) as Hafr.
  { unfold fr, finish. cbn [snd]. fold cols1.
    rewrite (cell_put_ne "oes_title_2019" "area" _ cols1 _ a); [|done..].
    by rewrite (cell_put_ne "oes_code_2019" "area" _ (columns df) _ a). }
  assert (forall k c, out_columns !! k = Some c ->
            exists pk, locate c (set_labels "report_year" cols3) = Ok pk /\
              cell k (map (fun p => cell p
                         (put "report_year" (VNum y) cols3
                            (map (replace_cell null_replace)
                                 (put "peer_type" pv cols2 fr.2)))) ps)
              = cell pk (put "report_year" (VNum y) cols3
                           (map (replace_cell null_replace)
                                (put "peer_type" pv cols2 fr.2)))) as Hcellk.
  { intros k c Hk.
    destruct (Forall2_lookup_l _ _ _ k c Hps Hk) as (pk & Hpk & Hloc).
    exists pk. rewrite Hc5 in Hloc. split; [done|].
    by rewrite (cell_nth_map _ ps k pk Hpk). }
  assert (forall c pk, c <> "report_year" ->
            locate c (set_labels "report_year" cols3) = Ok pk ->
            locate c cols3 = Ok pk /\
            cell pk (put "report_year" (VNum y) cols3
                       (map (replace_cell null_replace)
                            (put "peer_type" pv cols2 fr.2)))
            = replace_cell null_replace (cell pk (put "peer_type" pv cols2 fr.2))) as Hyear.
  { intros c pk Hne Hloc. rewrite locate_set_labels_ne in Hloc by done.
    split; [done|].
    rewrite (cell_put_ne "report_year" c _ cols3 _ pk); [|done..].
    apply cell_map_replace. }
  change (columns (map_nulls out3)) with cols3.
  change (columns out) with cols2.
  split; [|split; [|split; [|split]]].
  - destruct (Hcellk 0%nat "report_year" eq_refl) as (pk & Hloc & ->).
    by rewrite (cell_put_eq "report_year" _ cols3 _ pk).
  - destruct (Hcellk 3%nat "peer_type" eq_refl) as (pk & Hloc & ->).
    destruct (Hyear "peer_type" pk) as [Hloc3 ->]; [done..|].
    rewrite (cell_put_eq "peer_type" _ cols2 _ pk); [|done..].
    unfold pv. by rewrite Hafr.
  - destruct (Hcellk 4%nat "oes_code_2019" eq_refl) as (pk & Hloc & ->).
    destruct (Hyear "oes_code_2019" pk) as [Hloc3 ->]; [done..|].
    unfold cols3 in Hloc3. rewrite locate_set_labels_ne in Hloc3 by done.
    rewrite (cell_put_ne "peer_type" "oes_code_2019" _ cols2 _ pk); [|done..].
    unfold cols2 in Hloc3. rewrite locate_set_labels_ne in Hloc3 by done.
    unfold fr, finish. cbn [snd]. fold cols1.
    rewrite (cell_put_ne "oes_title_2019" "oes_code_2019" _ cols1 _ pk); [|done..].
    by rewrite (cell_put_eq "oes_code_2019" _ (columns df) _ pk).
  - destruct (Hcellk 5%nat "oes_title_2019" eq_refl) as (pk & Hloc & ->).
    destruct (Hyear "oes_title_2019" pk) as [Hloc3 ->]; [done..|].
    unfold cols3 in Hloc3. rewrite locate_set_labels_ne in Hloc3 by done.
    rewrite (cell_put_ne "peer_type" "oes_title_2019" _ cols2 _ pk); [|done..].
    unfold fr, finish. cbn [snd]. fold cols1.
    by rewrite (cell_put_eq "oes_title_2019" _ cols1 _ pk).
  - intros k c p Hk Hc Hp.
    rewrite !not_elem_of_cons in Hc. destruct Hc as (Hc1 & Hc2 & Hc3 & Hc4 & _).
    destruct (Hcellk k c Hk) as (pk & Hloc & ->).
    destruct (Hyear c pk) as [Hloc3 ->]; [done..|].
    unfold cols3, cols2, cols1 in Hloc3.
    rewrite !locate_set_labels_ne in Hloc3 by done.
    assert (pk = p) as -> by congruence.
    assert (locate c cols1 = Ok p) as Hp1
      by (unfold cols1; by rewrite locate_set_labels_ne).
    assert (locate c cols2 = Ok p) as Hp2
      by (unfold cols2; by rewrite locate_set_labels_ne).
    rewrite (cell_put_ne "peer_type" c _ cols2 _ p); [|done..].
    unfold fr, finish. cbn [snd]. fold cols1.
    rewrite (cell_put_ne "oes_title_2019" c _ cols1 _ p); [|done..].
    by rewrite (cell_put_ne "oes_code_2019" c _ (columns df) _ p).
Qed.

(** The same, record by record of the prepared batch. *)
Lemma prepare_file_records lk dmsa path sh y :
  report_year_of path = Ok y ->
  rect (normalized sh) -> NoDup (columns (normalized sh)) ->
  input_columns ⊆ columns (normalized sh) ->
  exists a P,
    locate "area" (columns (normalized sh)) = Ok a /\
    (prepare_file (Some lk) (Some dmsa) (path, Ok sh)).2 = Ok P /\
    columns P = out_columns /\ rect P /\
    Permutation (map fst (rows P)) (seq 0 (length (body sh))) /\
    forall r : row, r ∈ rows P ->
      exists cells,
        body sh !! r.1 = Some cells /\
        cell 0 r.2 = VNum y /\
        cell 3 r.2
        = replace_cell null_replace (fillna catch_all (series_map dmsa (cell a cells))) /\
        forall k c p, out_columns !! k = Some c ->
          c ∉ ["report_year"; "peer_type"; "oes_code_2019"; "oes_title_2019"] ->
          locate c (columns (normalized sh)) = Ok p ->
          cell k r.2 = replace_cell null_replace (cell p cells).
Proof.
  intros Hy Hrect Hnd Hsub.
  destruct (prepare_file_cells lk dmsa path sh y (normalized sh) Hy eq_refl Hrect Hnd Hsub)
    as (og & oc & ot & a & P & K & Hog & Hoc & Hot & Ha & HP & Hcols & Hrows & HK & HKr).
  exists a, P. split; [done|]. split; [done|]. split; [done|].
  assert (forall r : row, r ∈ rows P ->
            exists r0 : row, r0 ∈ rows (normalized sh) /\ r = K r0) as Hfrom.
  { intros r Hr. rewrite Hrows in Hr.
    apply list_elem_of_fmap in Hr as (r0 & -> & Hr0).
    apply elem_of_reorder in Hr0. by exists r0. }
  split; [|split].
  - unfold rect. rewrite Forall_forall, Hcols. intros r (r0 & Hr0 & ->)%Hfrom.
    by apply HKr.
  - rewrite Hrows, map_map.
    rewrite (map_ext (fun x => (K x).1) fst) by done.
    rewrite (reorder_permutation lk y og oc _).
    unfold normalized, much_consistency. cbn [rows].
    change (map fst ?l) with (l.*1). by rewrite fst_zip by (by rewrite length_seq).
  - intros r (r0 & Hr0 & ->)%Hfrom. exists r0.2. rewrite HK.
    split; [by apply elem_of_rows_normalized|].
    destruct (HKr r0 Hr0) as (_ & H0 & H3 & _ & _ & Hk). done.
Qed.

(** X9. For a file that can be read, whose name holds the year pattern
    and whose normalised header has the input columns once each, with both
    lookups loaded, the loop body yields a batch with exactly the 24 output
    columns in their order and one record for each data row of the file,
    and every record carries the year read from the file name in
    [report_year]. *)
Theorem prepare_file_report_year
    (lk : soc_lookup) (dmsa : dict) (path : string) (sh : sheet) (y : Z) :
  report_year_of path = Ok y ->
  rect (normalized sh) -> NoDup (columns (normalized sh)) ->
  input_columns ⊆ columns (normalized sh) ->
  exists P,
    (prepare_file (Some lk) (Some dmsa) (path, Ok sh)).2 = Ok P /\
    columns P = out_columns /\
    Permutation (map fst (rows P)) (seq 0 (length (body sh))) /\
    forall r : row, r ∈ rows P ->
      length r.2 = length out_columns /\ cell 0 r.2 = VNum y.
Proof.
  intros Hy Hrect Hnd Hsub.
  destruct (prepare_file_records lk dmsa path sh y Hy Hrect Hnd Hsub)
    as (a & P & _ & HP & Hcols & HrectP & Hperm & Hrec).
  exists P. split; [done|]. split; [done|]. split; [done|].
  intros r Hr. split.
  - rewrite <- Hcols. by apply rect_elem.
  - by destruct (Hrec r Hr) as (cells & _ & H0 & _).
Qed.

Lemma prepare_file_report_year_witness :
  exists P,
    (prepare_file (Some ex_soc_lookup) (Some (py_dict [VNum 28140] [VStr "Kansas City"]))
                  ("data/bls/MSA_M2016_dl.xlsx", Ok ex_bls)).2 = Ok P /\
    columns P = out_columns /\
    Permutation (map fst (rows P)) (seq 0 (length (body ex_bls))) /\
    forall r : row, r ∈ rows P ->
      length r.2 = length out_columns /\ cell 0 r.2 = VNum 2016.
Proof.
  apply (prepare_file_report_year ex_soc_lookup
           (py_dict [VNum 28140] [VStr "Kansas City"])
           "data/bls/MSA_M2016_dl.xlsx" ex_bls 2016).
  - reflexivity.
  - repeat constructor.
  - by_compute.
  - by_compute.
Defined.

(** X10. Under the same conditions every output column other than
    [report_year], [peer_type], [oes_code_2019] and [oes_title_2019] holds,
    for each record, the cell that the record's row of the file has under
    the (normalised) header of that name, with the sentinel tokens replaced
    by null. *)
Theorem prepare_file_carried_columns
    (lk : soc_lookup) (dmsa : dict) (path : string) (sh : sheet) (y : Z) :
  report_year_of path = Ok y ->
  rect (normalized sh) -> NoDup (columns (normalized sh)) ->
  input_columns ⊆ columns (normalized sh) ->
  exists P,
    (prepare_file (Some lk) (Some dmsa) (path, Ok sh)).2 = Ok P /\
    forall i cells', (i, cells') ∈ rows P ->
      exists cells,
        body sh !! i = Some cells /\
        forall k c p, out_columns !! k = Some c ->
          c ∉ ["report_year"; "peer_type"; "oes_code_2019"; "oes_title_2019"] ->
          locate c (columns (normalized sh)) = Ok p ->
          cell k cells' = replace_cell null_replace (cell p cells).
Proof.
  intros Hy Hrect Hnd Hsub.
  destruct (prepare_file_records lk dmsa path sh y Hy Hrect Hnd Hsub)
    as (a & P & _ & HP & Hcols & HrectP & Hperm & Hrec).
  exists P. split; [done|].
  intros i cells' Hr. destruct (Hrec _ Hr) as (cells & Hb & _ & _ & Hk).
  by exists cells.
Qed.

Lemma prepare_file_carried_columns_witness :
  exists P,
    (prepare_file (Some ex_soc_lookup) (Some (py_dict [VNum 28140] [VStr "Kansas City"]))
                  ("data/bls/MSA_M2016_dl.xlsx", Ok ex_bls)).2 = Ok P /\
    forall i cells', (i, cells') ∈ rows P ->
      exists cells,
        body ex_bls !! i = Some cells /\
        forall k c p, out_columns !! k = Some c ->
          c ∉ ["report_year"; "peer_type"; "oes_code_2019"; "oes_title_2019"] ->
          locate c (columns (normalized ex_bls)) = Ok p ->
          cell k cells' = replace_cell null_replace (cell p cells).
Proof.
  apply (prepare_file_carried_columns ex_soc_lookup
           (py_dict [VNum 28140] [VStr "Kansas City"])
           "data/bls/MSA_M2016_dl.xlsx" ex_bls 2016).
  - reflexivity.
  - repeat constructor.
  - by_compute.
  - by_compute.
Defined.

End LoopBodyMore.

(** ** The run *)

Section RunMore.

Lemma elem_of_reset_index P (r : row) :
  r ∈ rows (reset_index P) -> exists r0 : row, r0 ∈ rows P /\ r0.2 = r.2.
Proof.
  unfold reset_index. cbn [rows]. destruct r as [i cells]. intros Hr.
  apply elem_of_zip_r in Hr. cbn [snd].
  apply list_elem_of_In, in_map_iff in Hr as (r & <- & Hr%list_elem_of_In).
  by exists r.
Qed.

Lemma peer_cell_kept dmsa x c :
  c = replace_cell null_replace (fillna catch_all (series_map dmsa x)) ->
  c <> catch_all ->
  exists v, dmsa !! x = Some v /\ v <> VNull /\ v <> catch_all /\
            c = replace_cell null_replace v.
Proof.
  unfold series_map. intros -> Hc.
  destruct (dmsa !! x) as [v|]; [|by destruct Hc].
  exists v. destruct (decide (v = VNull)) as [->|Hv]; [by destruct Hc|].
  destruct (decide (v = catch_all)) as [->|Hv']; [by destruct Hc|].
  repeat split; try done. by destruct v.
Qed.

(** X11. In a run with both lookups loaded over well-formed files, every
    record of the three partitions stems from a data row of one of the
    files whose area is a key of the peer lookup: the record carries the
    year read from that file's name, the row's area, and the peer type that
    the lookup holds for the area (sentinel tokens replaced by null), which
    is neither null nor the catch-all label. *)
Theorem run_record_provenance (data : data_folder) (lk : soc_lookup) (dmsa : dict) :
  (load_oes_lookup (oes_file data)).2 = Ok (Some lk) ->
  (load_msa_lookup (msa_file data)).2 = Ok (Some dmsa) ->
  bls_files data <> [] ->
  Forall well_formed_file (bls_files data) ->
  exists t m d,
    (process_bls data).2 = Ok (t, m, d) /\
    forall r : row, r ∈ rows t ++ rows m ++ rows d ->
      exists f sh y a cells v,
        f ∈ bls_files data /\ f.2 = Ok sh /\ report_year_of f.1 = Ok y /\
        locate "area" (columns (normalized sh)) = Ok a /\
        cells ∈ body sh /\
        cell 0 r.2 = VNum y /\
        cell 1 r.2 = replace_cell null_replace (cell a cells) /\
        dmsa !! cell a cells = Some v /\ v <> VNull /\ v <> catch_all /\
        cell 3 r.2 = replace_cell null_replace v.
Proof.
  intros Hsoc Hmsa Hne Hwf.
  set (Rec := fun (f : string * result sheet) (P : frame) =>
    forall r : row, r ∈ rows P ->
      exists sh y a cells,
        f.2 = Ok sh /\ report_year_of f.1 = Ok y /\
        locate "area" (columns (normalized sh)) = Ok a /\
        cells ∈ body sh /\
        cell 0 r.2 = VNum y /\
        cell 1 r.2 = replace_cell null_replace (cell a cells) /\
        cell 3 r.2
        = replace_cell null_replace (fillna catch_all (series_map dmsa (cell a cells)))).
  assert (exists Ps,
            Forall2 (fun f P => (prepare_file (Some lk) (Some dmsa) f).2 = Ok P /\
                                columns P = out_columns /\ rect P /\ Rec f P)
                    (bls_files data) Ps) as [Ps HPs].
  { clear Hne. induction (bls_files data) as [|f files IH]; [by exists []|].
    apply Forall_cons in Hwf as [Hf Hwf]. destruct (IH Hwf) as [Ps HPs].
    destruct Hf as (sh & y & Hsh & Hy & Hrect & Hnd & Hsub).
    destruct f as [path file]. cbn [fst snd] in *. subst file.
    destruct (prepare_file_records lk dmsa path sh y Hy Hrect Hnd Hsub)
      as (a & P & Ha & HP & Hcols & HrectP & _ & Hrec).
    exists (P :: Ps). constructor; [|done].
    split; [done|]. split; [done|]. split; [done|].
    intros r Hr. destruct (Hrec r Hr) as (cells & Hb & H0 & H3 & Hk).
    exists sh, y, a, cells. cbn [fst snd].
    split; [done|]. split; [done|]. split; [done|].
    split; [by eapply list_elem_of_lookup_2|]. split; [done|]. split; [|done].
    apply (Hk 1%nat "area" a); [done| |done].
    rewrite !not_elem_of_cons. repeat split; try done. apply not_elem_of_nil. }
  assert (Forall2 (fun f P => (prepare_file (Some lk) (Some dmsa) f).2 = Ok P /\
                              columns P = out_columns /\ rect P)
                  (bls_files data) Ps) as HPs'
    by (eapply Forall2_impl; [exact HPs|]; intros ? ? (? & ? & ? & ?); auto).
  destruct (merge_files_rows (Some lk) (Some dmsa) (bls_files data) Ps empty_frame
              HPs' (or_introl eq_refl)) as (U & HU & Hrows & Hcols).
  specialize (Hcols Hne). cbn [rows empty_frame app] in Hrows.
  assert (exists l0, merge_all data = (l0, Ok U)) as [l0 Hall].
  { unfold merge_all.
    destruct (load_oes_lookup (oes_file data)) as [l1 r1]. cbn [snd] in Hsoc. subst r1.
    destruct (load_msa_lookup (msa_file data)) as [l2 r2]. cbn [snd] in Hmsa. subst r2.
    cbn [mbind io_bind].
    destruct (merge_files (Some lk) (Some dmsa) (bls_files data) empty_frame) as [l3 r3].
    cbn [snd] in HU. subst r3. by eexists. }
  eexists (select (in_group "total" (fun x : row => cell 6 x.2))
             (select (not_catch_all (fun x : row => cell 3 x.2)) U)),
          (select (in_group "major" (fun x : row => cell 6 x.2))
             (select (not_catch_all (fun x : row => cell 3 x.2)) U)),
          (select (in_group "detailed" (fun x : row => cell 6 x.2))
             (select (not_catch_all (fun x : row => cell 3 x.2)) U)).
  split.
  { unfold process_bls. rewrite (clean_bls_of_merged data l0 U Hall), Hcols.
    change (locate "peer_type" out_columns) with (@Ok nat 3).
    cbn [mbind io_bind]. rewrite split_bls_ogroup_eq. cbn [columns select].
    rewrite Hcols. change (locate "o_group" out_columns) with (@Ok nat 6).
    reflexivity. }
  intros r Hr. cbn [rows select] in Hr.
  assert (r ∈ rows U /\ cell 3 r.2 <> catch_all) as [HrU Hpeer].
  { rewrite !elem_of_app, !list_elem_of_filter in Hr.
    assert (not_catch_all (fun x : row => cell 3 x.2) r = true /\ r ∈ rows U) as [Hc HU']
      by (destruct Hr as [(_ & ? & ?)|[(_ & ? & ?)|(_ & ? & ?)]]; done).
    split; [done|]. unfold not_catch_all in Hc.
    by apply negb_true_iff, bool_decide_eq_false in Hc. }
  rewrite Hrows in HrU.
  apply list_elem_of_In, in_flat_map in HrU as (P & HP%list_elem_of_In & HrP%list_elem_of_In).
  apply elem_of_reset_index in HrP as (r0 & Hr0 & E).
  apply list_elem_of_lookup in HP as [n Hn].
  destruct (Forall2_lookup_r _ _ _ n P HPs Hn) as (f & Hf & _ & _ & _ & HRec).
  destruct (HRec r0 Hr0) as (sh & y & a & cells & Hsh & Hy & Ha & Hcells & H0 & H1 & H3).
  rewrite E in H0, H1, H3.
  destruct (peer_cell_kept dmsa _ _ H3 Hpeer) as (v & Hv & Hv1 & Hv2 & Hv3).
  exists f, sh, y, a, cells, v.
  split; [by eapply list_elem_of_lookup_2|]. done.
Qed.

Lemma run_record_provenance_witness :
  exists t m d,
    (process_bls ex_data).2 = Ok (t, m, d) /\
    forall r : row, r ∈ rows t ++ rows m ++ rows d ->
      exists f sh y a cells v,
        f ∈ bls_files ex_data /\ f.2 = Ok sh /\ report_year_of f.1 = Ok y /\
        locate "area" (columns (normalized sh)) = Ok a /\
        cells ∈ body sh /\
        cell 0 r.2 = VNum y /\
        cell 1 r.2 = replace_cell null_replace (cell a cells) /\
        py_dict [VNum 28140] [VStr "Kansas City"] !! cell a cells = Some v /\
        v <> VNull /\ v <> catch_all /\
        cell 3 r.2 = replace_cell null_replace v.
Proof.
  apply (run_record_provenance ex_data ex_soc_lookup
           (py_dict [VNum 28140] [VStr "Kansas City"])).
  - reflexivity.
  - reflexivity.
  - discriminate.
  - constructor; [|constructor].
    exists ex_bls, 2016%Z.
    split; [reflexivity|]. split; [reflexivity|].
    split; [repeat constructor|]. split; by_compute.
Defined.

Lemma clean_bls_no_files (data : data_folder) :
  bls_files data = [] -> (clean_bls data).2 = Raise (KeyError "peer_type").
Proof.
  intros Hnil. unfold clean_bls, merge_all. rewrite Hnil.
  destruct (load_oes_lookup_returns (oes_file data)) as (l1 & soc & ->).
  destruct (load_msa_lookup_returns (msa_file data)) as (l2 & msa & ->).
  reflexivity.
Qed.

(** X12. A run over a folder without any BLS file fails, whatever the
    lookup files hold: the merged dataset is the empty [pd.DataFrame()],
    and the catch-all filter raises the [KeyError] of [peer_type]. *)
Theorem run_without_files (data : data_folder) :
  bls_files data = [] ->
  (clean_bls data).2 = Raise (KeyError "peer_type") /\
  (process_bls data).2 = Raise (KeyError "peer_type").
Proof.
  intros Hnil. pose proof (clean_bls_no_files data Hnil) as H.
  split; [done|]. unfold process_bls. by apply io_bind_raise.
Qed.

Lemma run_without_files_witness :
  (clean_bls ex_data_empty).2 = Raise (KeyError "peer_type") /\
  (process_bls ex_data_empty).2 = Raise (KeyError "peer_type").
Proof. apply (run_without_files ex_data_empty). reflexivity. Defined.

(** X13. When the crosswalk cannot be loaded the run never produces its
    partitions, whatever the folder holds: the loader returns [None], and
    the run raises at the first BLS file (at the latest in the
    crosswalker, a [TypeError]) or, without any file, at the catch-all
    filter. *)
Theorem run_without_crosswalk (data : data_folder) :
  (load_oes_lookup (oes_file data)).2 = Ok None ->
  (exists e, (process_bls data).2 = Raise e) /\
  (forall path sh y files,
     bls_files data = (path, Ok sh) :: files -> report_year_of path = Ok y ->
     (process_bls data).2 = Raise TypeError).
Proof.
  intros Hsoc.
  assert (forall msa f, exists e,
            (process_file None msa f).2 = Raise e /\
            (forall sh y, f.2 = Ok sh -> report_year_of f.1 = Ok y -> e = TypeError))
    as Hfile.
  { intros msa [path file]. unfold process_file.
    destruct file as [sh|e].
    - destruct (report_year_of path) as [y|e] eqn:Ey.
      + exists TypeError. split; [|done]. apply io_bind_raise.
        rewrite prepare_file_result. cbn [fst snd read_excel mbind result_bind].
        by rewrite Ey.
      + exists e.
        split; [|intros ? ? _ H; cbn [fst] in H; rewrite Ey in H; discriminate H].
        apply io_bind_raise.
        rewrite prepare_file_result. cbn [fst snd read_excel mbind result_bind].
        by rewrite Ey.
    - exists e. split; [|by intros ? ? [=]]. apply io_bind_raise.
      by rewrite prepare_file_result. }
  destruct (load_oes_lookup (oes_file data)) as [l1 r1] eqn:E1.
  cbn [snd] in Hsoc. subst r1.
  destruct (load_msa_lookup_returns (msa_file data)) as (l2 & msa & E2).
  assert ((merge_all data).2 = (merge_files None msa (bls_files data) empty_frame).2)
    as Hmerge.
  { unfold merge_all. rewrite E1, E2. cbn [mbind io_bind].
    by destruct (merge_files None msa (bls_files data) empty_frame). }
  split.
  - destruct (bls_files data) as [|f files] eqn:Ef.
    + exists (KeyError "peer_type"). unfold process_bls.
      by apply io_bind_raise, clean_bls_no_files.
    + destruct (Hfile msa f) as (e & He & _).
      destruct (merge_files_raise None msa f (f :: files) empty_frame
                  (ex_intro _ e He) ltac:(left)) as [e' He'].
      exists e'. unfold process_bls, clean_bls.
      apply io_bind_raise, io_bind_raise. by rewrite Hmerge.
  - intros path sh y files Ef Hy.
    destruct (Hfile msa (path, Ok sh)) as (e & He & Hty).
    rewrite (Hty sh y eq_refl Hy) in He.
    unfold process_bls, clean_bls. apply io_bind_raise, io_bind_raise.
    rewrite Hmerge, Ef. cbn [merge_files]. by apply io_bind_raise.
Qed.

Lemma run_without_crosswalk_witness :
  (exists e, (process_bls ex_data_no_crosswalk).2 = Raise e) /\
  (forall path sh y files,
     bls_files ex_data_no_crosswalk = (path, Ok sh) :: files ->
     report_year_of path = Ok y ->
     (process_bls ex_data_no_crosswalk).2 = Raise TypeError).
Proof. apply (run_without_crosswalk ex_data_no_crosswalk). reflexivity. Defined.

End RunMore.

(** ** The lookup loaders *)

Section LoaderMore.

(** [dict(zip(...))]: the value of a key is the one paired with its last
    occurrence. *)
Lemma foldl_insert_lookup (l : list (val * val)) (k v : val) :
  foldl (fun (d : dict) kv => <[kv.1 := kv.2]> d) ∅ l !! k = Some v <->
  exists i, l !! i = Some (k, v) /\
            forall j kv, (i < j)%nat -> l !! j = Some kv -> kv.1 <> k.
Proof.
  induction l as [|x l IH] using rev_ind.
  - simpl. rewrite lookup_empty. split; [done|]. by intros (i & Hi & _).
  - rewrite foldl_app. cbn [foldl]. rewrite lookup_insert.
    case_decide as Hx.
    + split.
      * intros [= Hv]. exists (length l). split.
        -- rewrite lookup_app_r, Nat.sub_diag by done. simpl.
           destruct x; simpl in *; by subst.
        -- intros j kv Hj Hkv. apply lookup_lt_Some in Hkv.
           rewrite length_app in Hkv. simpl in Hkv. lia.
      * intros (i & Hi & Hlast).
        destruct (decide (i = length l)) as [->|Hne].
        -- rewrite lookup_app_r, Nat.sub_diag in Hi by done. simpl in Hi.
           by injection Hi as ->.
        -- exfalso. pose proof (lookup_lt_Some _ _ _ Hi) as Hlt.
           rewrite length_app in Hlt. simpl in Hlt.
           apply (Hlast (length l) x); [lia| |done].
           by rewrite lookup_app_r, Nat.sub_diag.
    + rewrite IH. split.
      * intros (i & Hi & Hlast). exists i. split.
        -- rewrite lookup_app_l; [done | by eapply lookup_lt_Some].
        -- intros j kv Hj Hkv.
           destruct (decide (j < length l)%nat) as [Hlt|Hge].
           ++ rewrite lookup_app_l in Hkv by done. by eapply Hlast.
           ++ rewrite lookup_app_r in Hkv by lia.
              destruct (j - length l)%nat; simpl in Hkv; [|done].
              injection Hkv as <-. done.
      * intros (i & Hi & Hlast).
        destruct (decide (i < length l)%nat) as [Hlt|Hge].
        -- exists i. rewrite lookup_app_l in Hi by done. split; [done|].
           intros j kv Hj Hkv. apply (Hlast j kv Hj).
           rewrite lookup_app_l; [done | by eapply lookup_lt_Some].
        -- rewrite lookup_app_r in Hi by lia.
           destruct (i - length l)%nat; simpl in Hi; [|done].
           injection Hi as ->. by destruct Hx.
Qed.

Lemma iter_column_read c sh i :
  locate c (header sh) = Ok i ->
  iter_column c (Frame (header sh) (zip (seq 0 (length (body sh))) (body sh)))
  = Ok (map (cell i) (body sh)).
Proof.
  unfold locate, iter_column. cbn [columns rows]. intros H.
  destruct (positions c (header sh)) as [|j [|? ?]]; simplify_eq.
  f_equal. rewrite <- (map_map snd (cell i)). f_equal.
  apply (snd_zip (seq 0 (length (body sh))) (body sh)). by rewrite length_seq.
Qed.

(** X14. From a readable sheet that has the columns [area] and
    [peer_type] once each, the peer lookup is loaded, and it maps an area
    (a cell that is not blank) to the peer type of the last row of the
    sheet with that area: a later row overrides an earlier one, and an area
    of no row is not a key. *)
Theorem load_msa_lookup_last_row (sh : sheet) (a p : nat) :
  locate "area" (header sh) = Ok a ->
  locate "peer_type" (header sh) = Ok p ->
  exists d,
    load_msa_lookup (Ok sh) = ([MsaLoaded], Ok (Some d)) /\
    forall k v, k <> VNull ->
      (d !! k = Some v <->
       exists i cells,
         body sh !! i = Some cells /\ cell a cells = k /\ cell p cells = v /\
         forall j cells', (i < j)%nat -> body sh !! j = Some cells' ->
                          cell a cells' <> k).
Proof.
  intros Ha Hp. unfold load_msa_lookup.
  cbn [read_excel mbind result_bind mret result_ret].
  rewrite (iter_column_read "area" sh a Ha). cbn [mbind result_bind mret result_ret].
  rewrite (iter_column_read "peer_type" sh p Hp). cbn [mbind result_bind mret result_ret].
  eexists. split; [reflexivity|]. intros k v _. unfold py_dict.
  rewrite foldl_insert_lookup.
  change (zip (map (cell a) (body sh)) (map (cell p) (body sh)))
    with (zip_with pair (cell a <$> body sh) (cell p <$> body sh)).
  rewrite zip_with_fmap_l, zip_with_fmap_r, zip_with_diag.
  split.
  - intros (i & Hi & Hlast). rewrite list_lookup_fmap in Hi.
    destruct (body sh !! i) as [cells|] eqn:E; [|done].
    simpl in Hi. injection Hi as <- <-. exists i, cells.
    split; [done|]. split; [done|]. split; [done|].
    intros j cells' Hj Hc. apply (Hlast j (cell a cells', cell p cells') Hj).
    by rewrite list_lookup_fmap, Hc.
  - intros (i & cells & Hi & <- & <- & Hlast). exists i. split.
    + by rewrite list_lookup_fmap, Hi.
    + intros j kv Hj Hkv. rewrite list_lookup_fmap in Hkv.
      destruct (body sh !! j) as [cells'|] eqn:E; [|done].
      simpl in Hkv. injection Hkv as <-. simpl. by eapply Hlast.
Qed.

Lemma load_msa_lookup_last_row_witness :
  exists d,
    load_msa_lookup (Ok ex_peers) = ([MsaLoaded], Ok (Some d)) /\
    forall k v, k <> VNull ->
      (d !! k = Some v <->
       exists i cells,
         body ex_peers !! i = Some cells /\ cell 0 cells = k /\ cell 1 cells = v /\
         forall j cells', (i < j)%nat -> body ex_peers !! j = Some cells' ->
                          cell 0 cells' <> k).
Proof. apply (load_msa_lookup_last_row ex_peers 0 1); reflexivity. Defined.

Lemma iter_column_missing c (df : frame) :
  c ∉ columns df -> iter_column c df = Raise (KeyError c).
Proof. intros H. apply positions_nil in H. unfold iter_column. by rewrite H. Qed.

Lemma iter_column_present c (df : frame) :
  c ∈ columns df -> exists l, iter_column c df = Ok l.
Proof.
  intros H. unfold iter_column.
  destruct (positions c (columns df)) as [|i [|? ?]] eqn:E; [|by eexists..].
  by apply positions_nil in E.
Qed.

(** X15. The loaders never let an exception out; the peer lookup is
    absent ([None]) exactly when the file cannot be read or its sheet lacks
    the column [area] or the column [peer_type], and the crosswalk is
    absent exactly when the file cannot be read or its sheet does not have
    nine columns. *)
Theorem loaders_absent_iff (msa oes : result sheet) :
  ((load_msa_lookup msa).2 = Ok None <->
     ~ exists sh, msa = Ok sh /\ "area" ∈ header sh /\ "peer_type" ∈ header sh) /\
  ((load_oes_lookup oes).2 = Ok None <->
     ~ exists sh, oes = Ok sh /\ length (header sh) = 9%nat).
Proof.
  split.
  - unfold load_msa_lookup. destruct msa as [sh|e].
    + cbn [read_excel mbind result_bind mret result_ret].
      set (df := Frame _ _).
      destruct (decide ("area" ∈ header sh)) as [Ha|Ha].
      * destruct (iter_column_present "area" df Ha) as [la ->].
        cbn [mbind result_bind mret result_ret].
        destruct (decide ("peer_type" ∈ header sh)) as [Hp|Hp].
        -- destruct (iter_column_present "peer_type" df Hp) as [lp ->].
           cbn [mbind result_bind mret result_ret snd].
           split; [done|]. intros H. destruct H. by exists sh.
        -- rewrite (iter_column_missing "peer_type" df Hp).
           cbn [mbind result_bind snd]. split; [|done].
           intros _ (sh' & [= <-] & _ & ?). done.
      * rewrite (iter_column_missing "area" df Ha).
        cbn [mbind result_bind snd]. split; [|done].
        intros _ (sh' & [= <-] & ? & _). done.
    + cbn [read_excel mbind result_bind snd]. split; [|done].
      by intros _ (sh' & [=] & _).
  - unfold load_oes_lookup. destruct oes as [sh|e].
    + cbn [read_excel mbind result_bind mret result_ret].
      unfold set_columns. cbn [columns rows].
      destruct (decide (length oes_columns = length (header sh))) as [Hlen|Hlen].
      * cbn [mbind result_bind mret result_ret].
        set (df := Frame oes_columns _).
        destruct (iter_column_present "soc_code_2010" df) as [l1 ->]; [by_compute|].
        cbn [mbind result_bind mret result_ret].
        destruct (iter_column_present "oes_code_2019" df) as [l2 ->]; [by_compute|].
        cbn [mbind result_bind mret result_ret].
        destruct (iter_column_present "oes_code_2018" df) as [l3 ->]; [by_compute|].
        cbn [mbind result_bind mret result_ret].
        destruct (iter_column_present "oes_title_2019" df) as [l4 ->]; [by_compute|].
        cbn [mbind result_bind mret result_ret snd].
        split; [done|]. intros H. destruct H. exists sh. split; [done|].
        by rewrite <- Hlen.
      * cbn [mbind result_bind snd]. split; [|done].
        intros _ (sh' & [= <-] & H). by rewrite H in Hlen.
    + cbn [read_excel mbind result_bind snd]. split; [|done].
      by intros _ (sh' & [=] & _).
Qed.

(** X16. The crosswalk is read by column position, the header cells of
    the sheet play no role: from a readable sheet with nine columns the
    legacy map goes from the seventh column to the first, the
    prior-generation map from the fifth to the first, the identity map
    from the first to itself and the title map from the first to the
    second. *)
Theorem load_oes_lookup_by_position (sh : sheet) :
  length (header sh) = 9%nat ->
  load_oes_lookup (Ok sh)
  = ([SocLoaded],
     Ok (Some (SocLookup
                 (py_dict (map (cell 6) (body sh)) (map (cell 0) (body sh)))
                 (py_dict (map (cell 4) (body sh)) (map (cell 0) (body sh)))
                 (py_dict (map (cell 0) (body sh)) (map (cell 0) (body sh)))
                 (py_dict (map (cell 0) (body sh)) (map (cell 1) (body sh)))))).
Proof.
  intros Hlen. unfold load_oes_lookup.
  cbn [read_excel mbind result_bind mret result_ret].
  unfold set_columns. cbn [columns rows].
  rewrite decide_True by (by rewrite Hlen).
  cbn [mbind result_bind mret result_ret].
  pose proof (iter_column_read "soc_code_2010" (Sheet oes_columns (body sh)) 6 eq_refl) as H1.
  pose proof (iter_column_read "oes_code_2019" (Sheet oes_columns (body sh)) 0 eq_refl) as H2.
  pose proof (iter_column_read "oes_code_2018" (Sheet oes_columns (body sh)) 4 eq_refl) as H3.
  pose proof (iter_column_read "oes_title_2019" (Sheet oes_columns (body sh)) 1 eq_refl) as H4.
  cbn [header body] in H1, H2, H3, H4.
  rewrite H1. cbn [mbind result_bind mret result_ret].
  rewrite H2. cbn [mbind result_bind mret result_ret].
  rewrite H3. cbn [mbind result_bind mret result_ret].
  rewrite H4. reflexivity.
Qed.

Lemma load_oes_lookup_by_position_witness :
  load_oes_lookup (Ok ex_crosswalk) = ([SocLoaded], Ok (Some ex_soc_lookup)).
Proof. apply (load_oes_lookup_by_position ex_crosswalk). reflexivity. Defined.

End LoaderMore.

(** ** The peer classifier and the split *)

Section PeerSplitMore.

(** X17. The peer classifier keeps the records in their order and
    changes no field but [peer_type]: every other column keeps its place
    and every record its cells there. *)
Theorem map_peer_type_keeps_fields (df : frame) (d : dict) (a : nat) :
  rect df -> NoDup (columns df) ->
  locate "area" (columns df) = Ok a ->
  exists out,
    map_peer_type df (Some d) = Ok out /\
    length (rows out) = length (rows df) /\
    forall k i cells, rows df !! k = Some (i, cells) ->
      exists cells',
        rows out !! k = Some (i, cells') /\
        forall j c, columns df !! j = Some c -> c <> "peer_type" ->
          columns out !! j = Some c /\ cell j cells' = cell j cells.
Proof.
  intros Hrect Hnd Ha. eexists. split; [by apply map_peer_type_rows|].
  unfold setitem. cbn [columns rows]. split; [by rewrite length_map|].
  intros k i cells Hk. eexists. split.
  { rewrite (lookup_map _ (rows df)), Hk. reflexivity. }
  intros j c Hj Hc. cbn [fst snd]. split; [by apply lookup_set_labels|].
  apply (cell_put_other "peer_type" _ _ _ j c); [|done..].
  by apply (rect_row df k i).
Qed.

Lemma map_peer_type_keeps_fields_witness :
  exists out,
    map_peer_type ex_levels_batch (Some (py_dict [VStr "28140"] [VStr "Kansas City"]))
    = Ok out /\
    length (rows out) = length (rows ex_levels_batch) /\
    forall k i cells, rows ex_levels_batch !! k = Some (i, cells) ->
      exists cells',
        rows out !! k = Some (i, cells') /\
        forall j c, columns ex_levels_batch !! j = Some c -> c <> "peer_type" ->
          columns out !! j = Some c /\ cell j cells' = cell j cells.
Proof.
  apply (map_peer_type_keeps_fields ex_levels_batch
           (py_dict [VStr "28140"] [VStr "Kansas City"]) 0).
  - repeat constructor.
  - by_compute.
  - reflexivity.
Defined.

(** X18. The split keeps the columns of the dataset and, within each
    partition, the order of the records; a record whose level is none of
    total, major, detailed (a null level, say) is in no partition. *)
Theorem split_bls_ogroup_parts (df : frame) (og : nat) :
  locate "o_group" (columns df) = Ok og ->
  exists t m d,
    split_bls_ogroup df = ([SplitDone], Ok (t, m, d)) /\
    columns t = columns df /\ columns m = columns df /\ columns d = columns df /\
    rows t `sublist_of` rows df /\ rows m `sublist_of` rows df /\
    rows d `sublist_of` rows df /\
    forall r : row, r ∈ rows df -> cell og r.2 ∉ levels ->
      r ∉ rows t ++ rows m ++ rows d.
Proof.
  intros Hog. rewrite split_bls_ogroup_eq, Hog. eexists _, _, _.
  split; [reflexivity|]. cbn [columns rows select].
  split; [done|]. split; [done|]. split; [done|].
  split; [apply sublist_filter|]. split; [apply sublist_filter|].
  split; [apply sublist_filter|].
  intros r Hr Hlev Hin. apply Hlev. unfold levels.
  rewrite !elem_of_app, !list_elem_of_filter in Hin.
  unfold in_group in Hin. rewrite !bool_decide_eq_true in Hin.
  rewrite !elem_of_cons.
  destruct Hin as [[-> _]|[[-> _]|[-> _]]]; auto.
Qed.

Lemma split_bls_ogroup_parts_witness :
  exists t m d,
    split_bls_ogroup ex_levels_batch = ([SplitDone], Ok (t, m, d)) /\
    columns t = columns ex_levels_batch /\ columns m = columns ex_levels_batch /\
    columns d = columns ex_levels_batch /\
    rows t `sublist_of` rows ex_levels_batch /\
    rows m `sublist_of` rows ex_levels_batch /\
    rows d `sublist_of` rows ex_levels_batch /\
    forall r : row, r ∈ rows ex_levels_batch -> cell 4 r.2 ∉ levels ->
      r ∉ rows t ++ rows m ++ rows d.
Proof. apply (split_bls_ogroup_parts ex_levels_batch 4). reflexivity. Defined.

(** X19. When the peer lookup cannot be loaded while the crosswalk is,
    a run whose first BLS file is well formed and has a data row fails in
    the peer classifier with a [TypeError]: nothing is produced. *)
Theorem run_without_peer_lookup
    (data : data_folder) (lk : soc_lookup) (path : string) (sh : sheet) (y : Z)
    (files : list (string * result sheet)) :
  (load_oes_lookup (oes_file data)).2 = Ok (Some lk) ->
  (load_msa_lookup (msa_file data)).2 = Ok None ->
  bls_files data = (path, Ok sh) :: files ->
  report_year_of path = Ok y ->
  rect (normalized sh) -> NoDup (columns (normalized sh)) ->
  input_columns ⊆ columns (normalized sh) ->
  body sh <> [] ->
  (process_bls data).2 = Raise TypeError.
Proof.
  intros Hsoc Hmsa Hfiles Hy Hrect Hnd Hsub Hbody.
  set (df := normalized sh) in *.
  assert (unique_index df) as Huniq by apply unique_index_read.
  destruct (locate_NoDup "o_group" _ Hnd) as [og Hog]; [apply Hsub; by_compute|].
  destruct (locate_NoDup "occ_code" _ Hnd) as [oc Hoc]; [apply Hsub; by_compute|].
  destruct (locate_NoDup "occ_title" _ Hnd) as [ot Hot]; [apply Hsub; by_compute|].
  destruct (locate_NoDup "area" _ Hnd) as [a Ha]; [apply Hsub; by_compute|].
  pose proof (map_soc_rows lk y df og oc ot Hrect Huniq Hog Hoc Hot
                (at_most_once_NoDup _ _ Hnd)) as Hmap.
  assert ((process_file (Some lk) None (path, Ok sh)).2 = Raise TypeError) as Hfile.
  { unfold process_file. apply io_bind_raise. rewrite prepare_file_result.
    cbn [fst snd read_excel mbind result_bind mret result_ret].
    rewrite Hy. cbn [mbind result_bind]. fold (normalized sh). fold df.
    rewrite Hmap. cbn [mbind result_bind].
    rewrite (map_peer_type_without_lookup _ a); [done| |].
    - cbn [columns]. by rewrite !locate_set_labels_ne.
    - cbn [rows]. intros Hnil. apply (f_equal length) in Hnil.
      rewrite length_map, (Permutation_length (reorder_permutation lk y og oc _)) in Hnil.
      unfold df, normalized, much_consistency in Hnil. cbn [rows] in Hnil.
      rewrite length_zip, length_seq, Nat.min_id in Hnil.
      by destruct (body sh). }
  unfold process_bls, clean_bls, merge_all.
  destruct (load_oes_lookup (oes_file data)) as [l1 r1]. cbn [snd] in Hsoc. subst r1.
  destruct (load_msa_lookup (msa_file data)) as [l2 r2]. cbn [snd] in Hmsa. subst r2.
  apply io_bind_raise, io_bind_raise. cbn [mbind io_bind].
  rewrite Hfiles. cbn [merge_files].
  destruct (process_file (Some lk) None (path, Ok sh)) as [l3 r3].
  cbn [snd] in Hfile. subst r3. reflexivity.
Qed.

Lemma run_without_peer_lookup_witness :
  (process_bls ex_data_no_peers).2 = Raise TypeError.
Proof.
  apply (run_without_peer_lookup ex_data_no_peers ex_soc_lookup
           "data/bls/MSA_M2016_dl.xlsx" ex_bls 2016 []).
  - reflexivity.
  - reflexivity.
  - reflexivity.
  - reflexivity.
  - repeat constructor.
  - by_compute.
  - by_compute.
  - discriminate.
Defined.

End PeerSplitMore.

(** ** The merged dataset *)

Section MergeMore.

Lemma map_fst_reset_index P :
  map fst (rows (reset_index P)) = seq 0 (length (rows P)).
Proof.
  unfold reset_index. cbn [rows].
  apply (fst_zip (seq 0 (length (rows P))) (map snd (rows P))).
  by rewrite length_map, length_seq.
Qed.

Lemma map_fst_flat_map_reset (Ps : list frame) :
  map fst (flat_map (fun P => rows (reset_index P)) Ps)
  = flat_map (fun P => seq 0 (length (rows P))) Ps.
Proof.
  induction Ps as [|P Ps IH]; [done|]. cbn [flat_map].
  by rewrite map_app, IH, map_fst_reset_index.
Qed.

(** X20. In a run with both lookups loaded over well-formed files, the
    merged dataset holds, file after file in the order of processing, one
    record for each data row of each file, and its index labels start
    again at 0 with every file: the files are appended without
    renumbering. *)
Theorem merged_index_labels (data : data_folder) (lk : soc_lookup) (dmsa : dict) :
  (load_oes_lookup (oes_file data)).2 = Ok (Some lk) ->
  (load_msa_lookup (msa_file data)).2 = Ok (Some dmsa) ->
  Forall well_formed_file (bls_files data) ->
  exists U,
    (merge_all data).2 = Ok U /\
    map fst (rows U) = flat_map (fun f => seq 0 (data_rows f)) (bls_files data).
Proof.
  intros Hsoc Hmsa Hwf.
  assert (exists Ps,
            Forall2 (fun f P => (prepare_file (Some lk) (Some dmsa) f).2 = Ok P /\
                                columns P = out_columns /\ rect P /\
                                length (rows P) = data_rows f)
                    (bls_files data) Ps) as [Ps HPs].
  { induction (bls_files data) as [|f files IH]; [by exists []|].
    apply Forall_cons in Hwf as [Hf Hwf]. destruct (IH Hwf) as [Ps HPs].
    destruct Hf as (sh & y & Hsh & Hy & Hrect & Hnd & Hsub).
    destruct f as [path file]. cbn [fst snd] in *. subst file.
    destruct (prepare_file_records lk dmsa path sh y Hy Hrect Hnd Hsub)
      as (a & P & Ha & HP & Hcols & HrectP & Hperm & _).
    exists (P :: Ps). constructor; [|done].
    split; [done|]. split; [done|]. split; [done|].
    apply Permutation_length in Hperm.
    by rewrite length_map, length_seq in Hperm. }
  assert (Forall2 (fun f P => (prepare_file (Some lk) (Some dmsa) f).2 = Ok P /\
                              columns P = out_columns /\ rect P)
                  (bls_files data) Ps) as HPs'
    by (eapply Forall2_impl; [exact HPs|]; intros ? ? (? & ? & ? & ?); auto).
  destruct (merge_files_rows (Some lk) (Some dmsa) (bls_files data) Ps empty_frame
              HPs' (or_introl eq_refl)) as (U & HU & Hrows & _).
  cbn [rows empty_frame app] in Hrows.
  exists U. split.
  { unfold merge_all.
    destruct (load_oes_lookup (oes_file data)) as [l1 r1]. cbn [snd] in Hsoc. subst r1.
    destruct (load_msa_lookup (msa_file data)) as [l2 r2]. cbn [snd] in Hmsa. subst r2.
    cbn [mbind io_bind].
    by destruct (merge_files (Some lk) (Some dmsa) (bls_files data) empty_frame). }
  rewrite Hrows, map_fst_flat_map_reset. clear -HPs.
  induction HPs as [|f P files Ps (_ & _ & _ & Hlen) _ IH]; [done|].
  cbn [flat_map]. by rewrite IH, Hlen.
Qed.

Lemma merged_index_labels_witness :
  exists U,
    (merge_all ex_data).2 = Ok U /\
    map fst (rows U) = flat_map (fun f => seq 0 (data_rows f)) (bls_files ex_data).
Proof.
  apply (merged_index_labels ex_data ex_soc_lookup
           (py_dict [VNum 28140] [VStr "Kansas City"])).
  - reflexivity.
  - reflexivity.
  - constructor; [|constructor].
    exists ex_bls, 2016%Z.
    split; [reflexivity|]. split; [reflexivity|].
    split; [repeat constructor|]. split; by_compute.
Defined.

(** X21. In a run with both lookups loaded over well-formed files, each
    of the three partitions handed to [to_excel] has exactly the 24 output
    columns in their fixed order, every record has one cell for each of
    them, and the level of every record is that of its partition. *)
Theorem run_partition_schema (data : data_folder) (lk : soc_lookup) (dmsa : dict) :
  (load_oes_lookup (oes_file data)).2 = Ok (Some lk) ->
  (load_msa_lookup (msa_file data)).2 = Ok (Some dmsa) ->
  bls_files data <> [] ->
  Forall well_formed_file (bls_files data) ->
  exists t m d,
    (process_bls data).2 = Ok (t, m, d) /\
    columns t = out_columns /\ columns m = out_columns /\ columns d = out_columns /\
    rect t /\ rect m /\ rect d /\
    (forall r : row, r ∈ rows t -> cell 6 r.2 = VStr "total") /\
    (forall r : row, r ∈ rows m -> cell 6 r.2 = VStr "major") /\
    (forall r : row, r ∈ rows d -> cell 6 r.2 = VStr "detailed").
Proof.
  intros Hsoc Hmsa Hne Hwf.
  assert (exists Ps,
            Forall2 (fun f P => (prepare_file (Some lk) (Some dmsa) f).2 = Ok P /\
                                columns P = out_columns /\ rect P)
                    (bls_files data) Ps) as [Ps HPs].
  { clear Hne. induction (bls_files data) as [|f files IH]; [by exists []|].
    apply Forall_cons in Hwf as [Hf Hwf]. destruct (IH Hwf) as [Ps HPs].
    destruct Hf as (sh & y & Hsh & Hy & Hrect & Hnd & Hsub).
    destruct f as [path file]. cbn [fst snd] in *. subst file.
    destruct (prepare_file_records lk dmsa path sh y Hy Hrect Hnd Hsub)
      as (a & P & Ha & HP & Hcols & HrectP & _ & _).
    exists (P :: Ps). by constructor. }
  destruct (merge_files_rows (Some lk) (Some dmsa) (bls_files data) Ps empty_frame
              HPs (or_introl eq_refl)) as (U & HU & Hrows & Hcols).
  specialize (Hcols Hne). cbn [rows empty_frame app] in Hrows.
  assert (exists l0, merge_all data = (l0, Ok U)) as [l0 Hall].
  { unfold merge_all.
    destruct (load_oes_lookup (oes_file data)) as [l1 r1]. cbn [snd] in Hsoc. subst r1.
    destruct (load_msa_lookup (msa_file data)) as [l2 r2]. cbn [snd] in Hmsa. subst r2.
    cbn [mbind io_bind].
    destruct (merge_files (Some lk) (Some dmsa) (bls_files data) empty_frame) as [l3 r3].
    cbn [snd] in HU. subst r3. by eexists. }
  assert (rect U) as HrectU.
  { unfold rect. rewrite Forall_forall, Hcols, Hrows. intros r Hr.
    apply list_elem_of_In, in_flat_map in Hr
      as (P & HP%list_elem_of_In & HrP%list_elem_of_In).
    apply list_elem_of_lookup in HP as [n Hn].
    destruct (Forall2_lookup_r _ _ _ n P HPs Hn) as (f & _ & _ & HcP & HrectP).
    apply rect_reset_index in HrectP. rewrite <- HcP.
    exact (rect_elem _ _ HrectP HrP). }
  assert (forall g (r : row),
            r ∈ rows (select (in_group g (fun x : row => cell 6 x.2))
                        (select (not_catch_all (fun x : row => cell 3 x.2)) U)) ->
            length r.2 = length out_columns /\ cell 6 r.2 = VStr g) as Hpart.
  { intros g r Hr. cbn [rows select] in Hr.
    apply list_elem_of_filter in Hr as [Hg Hr].
    apply list_elem_of_filter in Hr as [_ Hr].
    split; [rewrite <- Hcols; by apply rect_elem|].
    unfold in_group in Hg. by apply bool_decide_eq_true in Hg. }
  eexists (select (in_group "total" (fun x : row => cell 6 x.2))
             (select (not_catch_all (fun x : row => cell 3 x.2)) U)),
          (select (in_group "major" (fun x : row => cell 6 x.2))
             (select (not_catch_all (fun x : row => cell 3 x.2)) U)),
          (select (in_group "detailed" (fun x : row => cell 6 x.2))
             (select (not_catch_all (fun x : row => cell 3 x.2)) U)).
  split.
  { unfold process_bls. rewrite (clean_bls_of_merged data l0 U Hall), Hcols.
    change (locate "peer_type" out_columns) with (@Ok nat 3).
    cbn [mbind io_bind]. rewrite split_bls_ogroup_eq. cbn [columns select].
    rewrite Hcols. change (locate "o_group" out_columns) with (@Ok nat 6).
    reflexivity. }
  cbn [columns select]. split; [done|]. split; [done|]. split; [done|].
  split; [|split; [|split]].
  1-3: unfold rect; rewrite Forall_forall; cbn [columns select]; rewrite Hcols;
       intros r Hr; by apply Hpart in Hr as [? _].
  split; [|split]; intros r Hr; by apply Hpart in Hr as [_ ?].
Qed.

Lemma run_partition_schema_witness :
  exists t m d,
    (process_bls ex_data).2 = Ok (t, m, d) /\
    columns t = out_columns /\ columns m = out_columns /\ columns d = out_columns /\
    rect t /\ rect m /\ rect d /\
    (forall r : row, r ∈ rows t -> cell 6 r.2 = VStr "total") /\
    (forall r : row, r ∈ rows m -> cell 6 r.2 = VStr "major") /\
    (forall r : row, r ∈ rows d -> cell 6 r.2 = VStr "detailed").
Proof.
  apply (run_partition_schema ex_data ex_soc_lookup
           (py_dict [VNum 28140] [VStr "Kansas City"])).
  - reflexivity.
  - reflexivity.
  - discriminate.
  - constructor; [|constructor].
    exists ex_bls, 2016%Z.
    split; [reflexivity|]. split; [reflexivity|].
    split; [repeat constructor|]. split; by_compute.
Defined.

End MergeMore.
